(** * ahrefs-cli: the request executor and the response renderer

    A shallow embedding of the two packages that carry the logic of the
    command-line client:

    - [pkg/client]: [NewClient], [Client.Do], [Client.doRequest],
      [Client.parseError] and [APIError.Error];
    - [pkg/output]: [Writer.WriteSuccess], [Writer.WriteError],
      [writeYAML]/[writeYAMLValue], [writeCSV], [extractHeaders],
      [extractRow] and [formatError];

    and of their callers: [internal/config] ([Load], [Save],
    [GetAPIKey]), the commands of [cmd/config] and the run functions of
    [cmd/siteexplorer].

    Go strings and byte slices are Rocq [string]s (sequences of 8-bit
    characters), Go [int], [int64] and [time.Duration] are [Z] with the
    64-bit wrap-around written out where the code multiplies.  What lies
    outside the two packages is either modelled here from the Go standard
    library ([http.StatusText], [json.Unmarshal] into the error envelope,
    the indented [json.Encoder] on the error map, [%d] formatting) or
    taken as a parameter: the pure library functions the executor calls
    in [Lib], the network and the context in [World]. *)

From Stdlib Require Import ZArith List String Ascii Bool Lia DecimalString.
Import ListNotations.

Open Scope string_scope.
Open Scope Z_scope.

(** ** Bytes and text *)

(** The double quote, which a string literal of this file never holds. *)
Definition DQ : ascii := ascii_of_nat 34.

(** [quoted s] is [s] between two double quotes, no escaping. *)
Definition quoted (s : string) : string :=
  String DQ (s ++ String DQ "").

Definition byte_of (c : ascii) : Z := Z.of_nat (nat_of_ascii c).
Definition char_of (z : Z) : ascii := ascii_of_nat (Z.to_nat z).

(** [strings.Repeat]. *)
Fixpoint Repeat (s : string) (count : nat) : string :=
  match count with
  | O => ""
  | S n => s ++ Repeat s n
  end.

(** [%d] of fmt, for an integer. *)
Definition Itoa (z : Z) : string := NilZero.string_of_int (Z.to_int z).

(** Go's [int64] and [time.Duration] arithmetic wraps around. *)
Definition wrap64 (z : Z) : Z := (z + 2 ^ 63) mod 2 ^ 64 - 2 ^ 63.

(** ** net/http: [StatusText] *)

(** [http.StatusText]: the text of the status codes Go knows, the empty
    string for every other code. *)
Definition StatusText (code : Z) : string :=
  match code with
  | 100 => "Continue"
  | 101 => "Switching Protocols"
  | 102 => "Processing"
  | 103 => "Early Hints"
  | 200 => "OK"
  | 201 => "Created"
  | 202 => "Accepted"
  | 203 => "Non-Authoritative Information"
  | 204 => "No Content"
  | 205 => "Reset Content"
  | 206 => "Partial Content"
  | 207 => "Multi-Status"
  | 208 => "Already Reported"
  | 226 => "IM Used"
  | 300 => "Multiple Choices"
  | 301 => "Moved Permanently"
  | 302 => "Found"
  | 303 => "See Other"
  | 304 => "Not Modified"
  | 305 => "Use Proxy"
  | 307 => "Temporary Redirect"
  | 308 => "Permanent Redirect"
  | 400 => "Bad Request"
  | 401 => "Unauthorized"
  | 402 => "Payment Required"
  | 403 => "Forbidden"
  | 404 => "Not Found"
  | 405 => "Method Not Allowed"
  | 406 => "Not Acceptable"
  | 407 => "Proxy Authentication Required"
  | 408 => "Request Timeout"
  | 409 => "Conflict"
  | 410 => "Gone"
  | 411 => "Length Required"
  | 412 => "Precondition Failed"
  | 413 => "Request Entity Too Large"
  | 414 => "Request URI Too Long"
  | 415 => "Unsupported Media Type"
  | 416 => "Requested Range Not Satisfiable"
  | 417 => "Expectation Failed"
  | 418 => "I'm a teapot"
  | 421 => "Misdirected Request"
  | 422 => "Unprocessable Entity"
  | 423 => "Locked"
  | 424 => "Failed Dependency"
  | 425 => "Too Early"
  | 426 => "Upgrade Required"
  | 428 => "Precondition Required"
  | 429 => "Too Many Requests"
  | 431 => "Request Header Fields Too Large"
  | 451 => "Unavailable For Legal Reasons"
  | 500 => "Internal Server Error"
  | 501 => "Not Implemented"
  | 502 => "Bad Gateway"
  | 503 => "Service Unavailable"
  | 504 => "Gateway Timeout"
  | 505 => "HTTP Version Not Supported"
  | 506 => "Variant Also Negotiates"
  | 507 => "Insufficient Storage"
  | 508 => "Loop Detected"
  | 510 => "Not Extended"
  | 511 => "Network Authentication Required"
  | _ => ""
  end.

Definition StatusUnauthorized : Z := 401.
Definition StatusForbidden : Z := 403.
Definition StatusTooManyRequests : Z := 429.
Definition StatusBadRequest : Z := 400.
Definition StatusNotFound : Z := 404.

(** ** encoding/json: decoding the error envelope

    [parseError] hands the body to [json.Unmarshal] with a destination of
    type [struct { Error struct { Code, Message string } }].  The model
    follows the decoder: the whole input is checked against the JSON
    grammar first, then the value is stored into the two fields. *)

#[warnings="-register-all"]
Inductive json : Type :=
  | JNull
  | JTrue
  | JFalse
  | JNumber
  | JString (s : string)
  | JArray (elems : list json)
  | JObject (members : list (string * json)).

Definition is_space (c : ascii) : bool :=
  let b := byte_of c in (b =? 32) || (b =? 9) || (b =? 13) || (b =? 10).

Fixpoint skip_space (s : string) : string :=
  match s with
  | String c rest => if is_space c then skip_space rest else s
  | "" => ""
  end.

Definition is_digit (c : ascii) : bool :=
  let b := byte_of c in (48 <=? b) && (b <=? 57).

Definition hex_value (c : ascii) : option Z :=
  let b := byte_of c in
  if (48 <=? b) && (b <=? 57) then Some (b - 48)
  else if (97 <=? b) && (b <=? 102) then Some (b - 87)
  else if (65 <=? b) && (b <=? 70) then Some (b - 55)
  else None.

(** [getu4]: the rune of four hexadecimal digits. *)
Definition getu4 (h1 h2 h3 h4 : ascii) : option Z :=
  match hex_value h1, hex_value h2, hex_value h3, hex_value h4 with
  | Some a, Some b, Some c, Some d => Some (((a * 16 + b) * 16 + c) * 16 + d)
  | _, _, _, _ => None
  end.

(** [utf8.EncodeRune]; a surrogate or a rune out of range is encoded as
    U+FFFD. *)
Definition EncodeRune (r : Z) : string :=
  if r <? 128 then String (char_of r) ""
  else if r <? 2048 then
    String (char_of (192 + r / 64)) (String (char_of (128 + r mod 64)) "")
  else if ((55296 <=? r) && (r <=? 57343)) || (1114111 <? r) then
    String (char_of 239) (String (char_of 191) (String (char_of 189) ""))
  else if r <? 65536 then
    String (char_of (224 + r / 4096))
      (String (char_of (128 + (r / 64) mod 64))
         (String (char_of (128 + r mod 64)) ""))
  else
    String (char_of (240 + r / 262144))
      (String (char_of (128 + (r / 4096) mod 64))
         (String (char_of (128 + (r / 64) mod 64))
            (String (char_of (128 + r mod 64)) ""))).

Definition RuneError : Z := 65533.

Definition in_range (lo hi : Z) (c : ascii) : bool :=
  (lo <=? byte_of c) && (byte_of c <=? hi).

(** The size of the well-formed UTF-8 sequence that starts with the byte
    [c] followed by [rest], 0 when there is none ([utf8.DecodeRune] then
    answers [RuneError] with size 1). *)
Definition utf8_size (c : ascii) (rest : string) : nat :=
  let cont := in_range 128 191 in
  match rest with
  | String b1 r1 =>
      if in_range 194 223 c && cont b1 then 2%nat
      else
        match r1 with
        | String b2 r2 =>
            let second3 :=
              (Ascii.eqb c (char_of 224) && in_range 160 191 b1)
              || ((in_range 225 236 c || in_range 238 239 c) && cont b1)
              || (Ascii.eqb c (char_of 237) && in_range 128 159 b1) in
            if second3 && cont b2 then 3%nat
            else
              match r2 with
              | String b3 _ =>
                  let second4 :=
                    (Ascii.eqb c (char_of 240) && in_range 144 191 b1)
                    || (in_range 241 243 c && cont b1)
                    || (Ascii.eqb c (char_of 244) && in_range 128 143 b1) in
                  if second4 && cont b2 && cont b3 then 4%nat else 0%nat
              | "" => 0%nat
              end
        | "" => 0%nat
        end
  | "" => 0%nat
  end.

(** The byte a one-letter escape stands for. *)
Definition escape_byte (e : ascii) : option ascii :=
  let b := byte_of e in
  if (b =? 34) || (b =? 92) || (b =? 47) then Some e
  else if b =? 98 then Some (char_of 8)
  else if b =? 102 then Some (char_of 12)
  else if b =? 110 then Some (char_of 10)
  else if b =? 114 then Some (char_of 13)
  else if b =? 116 then Some (char_of 9)
  else None.

Definition is_backslash (c : ascii) : bool := byte_of c =? 92.
Definition is_quote (c : ascii) : bool := byte_of c =? 34.
Definition is_u (c : ascii) : bool := byte_of c =? 117.

(** The scanner inside a string literal, after its opening quote: the
    literal's text up to the closing quote (escapes still in place) and
    the input after it; [None] on a control character, a bad escape or a
    missing closing quote. *)
Fixpoint scan_string (s : string) : option (string * string) :=
  match s with
  | "" => None
  | String c rest =>
      if is_quote c then Some ("", rest)
      else if is_backslash c then
        match rest with
        | String e rest1 =>
            if is_u e then
              match rest1 with
              | String h1 (String h2 (String h3 (String h4 rest2))) =>
                  match getu4 h1 h2 h3 h4, scan_string rest2 with
                  | Some _, Some (lit, out) =>
                      Some (String c (String e (String h1 (String h2
                              (String h3 (String h4 lit))))), out)
                  | _, _ => None
                  end
              | _ => None
              end
            else
              match escape_byte e, scan_string rest1 with
              | Some _, Some (lit, out) => Some (String c (String e lit), out)
              | _, _ => None
              end
        | "" => None
        end
      else if byte_of c <? 32 then None
      else
        match scan_string rest with
        | Some (lit, out) => Some (String c lit, out)
        | None => None
        end
  end.

Definition is_high_surrogate (r : Z) : bool := (55296 <=? r) && (r <? 56320).
Definition is_low_surrogate (r : Z) : bool := (56320 <=? r) && (r <? 57344).

(** [unquote]: the Go string of a checked literal.  Escapes are decoded, a
    surrogate pair of two [\u] escapes becomes one rune, a lone surrogate
    and every byte that is not well-formed UTF-8 become U+FFFD.  [copy]
    counts the continuation bytes of a well-formed sequence still to be
    copied. *)
Fixpoint unquote_from (copy : nat) (s : string) : string :=
  match s with
  | "" => ""
  | String c rest =>
      match copy with
      | S k => String c (unquote_from k rest)
      | O =>
          if is_backslash c then
            match rest with
            | String e rest1 =>
                if is_u e then
                  match rest1 with
                  | String h1 (String h2 (String h3 (String h4 rest2))) =>
                      match getu4 h1 h2 h3 h4 with
                      | Some rr =>
                          if is_high_surrogate rr || is_low_surrogate rr then
                            match rest2 with
                            | String c' (String e' (String k1 (String k2
                                (String k3 (String k4 rest3))))) =>
                                match getu4 k1 k2 k3 k4 with
                                | Some rr1 =>
                                    if is_backslash c' && is_u e'
                                       && is_high_surrogate rr
                                       && is_low_surrogate rr1
                                    then
                                      EncodeRune
                                        ((rr - 55296) * 1024 + (rr1 - 56320)
                                         + 65536)
                                      ++ unquote_from O rest3
                                    else
                                      EncodeRune RuneError
                                      ++ unquote_from O rest2
                                | None =>
                                    EncodeRune RuneError
                                    ++ unquote_from O rest2
                                end
                            | _ => EncodeRune RuneError ++ unquote_from O rest2
                            end
                          else EncodeRune rr ++ unquote_from O rest2
                      | None => ""
                      end
                  | _ => ""
                  end
                else
                  match escape_byte e with
                  | Some b => String b (unquote_from O rest1)
                  | None => ""
                  end
            | "" => ""
            end
          else if byte_of c <? 128 then String c (unquote_from O rest)
          else
            match utf8_size c rest with
            | O => EncodeRune RuneError ++ unquote_from O rest
            | S k => String c (unquote_from k rest)
            end
      end
  end.

Definition unquote (lit : string) : string := unquote_from O lit.

Fixpoint strip_prefix (p s : string) : option string :=
  match p, s with
  | "", _ => Some s
  | String a p', String b s' =>
      if Ascii.eqb a b then strip_prefix p' s' else None
  | String _ _, "" => None
  end.

Fixpoint skip_digits (s : string) : string :=
  match s with
  | String c rest => if is_digit c then skip_digits rest else s
  | "" => ""
  end.

(** One or more digits, then the rest. *)
Definition scan_digits1 (s : string) : option string :=
  match s with
  | String d rest => if is_digit d then Some (skip_digits rest) else None
  | "" => None
  end.

(** The scanner on a number: an optional minus, [0] or a digit from 1 to 9
    with more digits, an optional fraction, an optional exponent.  The
    input after the number, [None] when the text is no number. *)
Definition scan_number (s : string) : option string :=
  let unsigned :=
    match s with
    | String c rest => if byte_of c =? 45 then rest else s
    | "" => s
    end in
  let after_int :=
    match unsigned with
    | String c rest =>
        if byte_of c =? 48 then Some rest
        else if in_range 49 57 c then Some (skip_digits rest)
        else None
    | "" => None
    end in
  let after_frac :=
    match after_int with
    | Some (String c rest as s1) =>
        if byte_of c =? 46 then scan_digits1 rest else Some s1
    | other => other
    end in
  match after_frac with
  | Some (String c rest as s2) =>
      if (byte_of c =? 101) || (byte_of c =? 69) then
        match rest with
        | String sg rest' =>
            if (byte_of sg =? 43) || (byte_of sg =? 45)
            then scan_digits1 rest' else scan_digits1 rest
        | "" => None
        end
      else Some s2
  | other => other
  end.

(** The deepest nesting of arrays and objects the scanner accepts. *)
Definition maxNestingDepth : Z := 10000.

(** The value at the head of the input, and the input after it.  [fuel]
    bounds the recursion (twice the length of the input is enough, see
    [parse_json]); [depth] counts the arrays and objects that are open. *)
Fixpoint parse_value (fuel : nat) (depth : Z) (s : string)
  : option (json * string) :=
  match fuel with
  | O => None
  | S fuel' =>
      match skip_space s with
      | "" => None
      | String c rest =>
          let b := byte_of c in
          if b =? 123 then
            if maxNestingDepth <? depth + 1 then None
            else
              match skip_space rest with
              | String c' rest' =>
                  if byte_of c' =? 125 then Some (JObject [], rest')
                  else
                    match parse_members fuel' (depth + 1) (String c' rest') with
                    | Some (ms, out) => Some (JObject ms, out)
                    | None => None
                    end
              | "" => None
              end
          else if b =? 91 then
            if maxNestingDepth <? depth + 1 then None
            else
              match skip_space rest with
              | String c' rest' =>
                  if byte_of c' =? 93 then Some (JArray [], rest')
                  else
                    match parse_elems fuel' (depth + 1) (String c' rest') with
                    | Some (es, out) => Some (JArray es, out)
                    | None => None
                    end
              | "" => None
              end
          else if is_quote c then
            match scan_string rest with
            | Some (lit, out) => Some (JString (unquote lit), out)
            | None => None
            end
          else if (b =? 45) || is_digit c then
            match scan_number (String c rest) with
            | Some out => Some (JNumber, out)
            | None => None
            end
          else if b =? 116 then
            option_map (fun out => (JTrue, out)) (strip_prefix "rue" rest)
          else if b =? 102 then
            option_map (fun out => (JFalse, out)) (strip_prefix "alse" rest)
          else if b =? 110 then
            option_map (fun out => (JNull, out)) (strip_prefix "ull" rest)
          else None
      end
  end

(** The elements of an array after its opening bracket or a comma: a
    value, then a comma and more elements, or the closing bracket. *)
with parse_elems (fuel : nat) (depth : Z) (s : string)
  : option (list json * string) :=
  match fuel with
  | O => None
  | S fuel' =>
      match parse_value fuel' depth s with
      | Some (v, out) =>
          match skip_space out with
          | String c rest =>
              if byte_of c =? 44 then
                match parse_elems fuel' depth rest with
                | Some (vs, out') => Some (v :: vs, out')
                | None => None
                end
              else if byte_of c =? 93 then Some ([v], rest)
              else None
          | "" => None
          end
      | None => None
      end
  end

(** The members of an object after its opening brace or a comma: a key, a
    colon and a value, then a comma and more members, or the closing
    brace. *)
with parse_members (fuel : nat) (depth : Z) (s : string)
  : option (list (string * json) * string) :=
  match fuel with
  | O => None
  | S fuel' =>
      match skip_space s with
      | String q rest =>
          if is_quote q then
            match scan_string rest with
            | Some (lit, out) =>
                match skip_space out with
                | String c rest1 =>
                    if byte_of c =? 58 then
                      match parse_value fuel' depth rest1 with
                      | Some (v, out1) =>
                          match skip_space out1 with
                          | String c' rest2 =>
                              if byte_of c' =? 44 then
                                match parse_members fuel' depth rest2 with
                                | Some (ms, out2) =>
                                    Some ((unquote lit, v) :: ms, out2)
                                | None => None
                                end
                              else if byte_of c' =? 125 then
                                Some ([(unquote lit, v)], rest2)
                              else None
                          | "" => None
                          end
                      | None => None
                      end
                    else None
                | "" => None
                end
            | None => None
            end
          else None
      | "" => None
      end
  end.

(** [checkValid] and the decoder's reading: the input is one JSON value
    between optional white space.  Each recursive call but the first one of
    [parse_elems] follows at least one byte of input read, so twice the
    length of the input bounds the depth of the recursion. *)
Definition parse_json (data : string) : option json :=
  match parse_value (2 * String.length data + 2) 0 data with
  | Some (v, out) =>
      match skip_space out with
      | "" => Some v
      | String _ _ => None
      end
  | None => None
  end.

(** The destination of [parseError]:
    [struct { Error struct { Code string; Message string } }]. *)
Record ErrResp : Type := mkErrResp {
  Error_Code : string;
  Error_Message : string
}.

(** [foldName] on what can fold into an ASCII letter: the small letters,
    U+017F (long s) and U+212A (the Kelvin sign). *)
Fixpoint foldName (s : string) : string :=
  match s with
  | "" => ""
  | String c rest =>
      if in_range 97 122 c
      then String (char_of (byte_of c - 32)) (foldName rest)
      else
        match rest with
        | String c1 rest1 =>
            if (byte_of c =? 197) && (byte_of c1 =? 191)
            then String "S"%char (foldName rest1)
            else
              match rest1 with
              | String c2 rest2 =>
                  if (byte_of c =? 226) && (byte_of c1 =? 132)
                     && (byte_of c2 =? 170)
                  then String "K"%char (foldName rest2)
                  else String c (foldName rest)
              | "" => String c (foldName rest)
              end
        | "" => String c ""
        end
  end.

(** A key of the input names the field tagged [name] when it is the tag
    itself or folds to the same text. *)
Definition names_field (name key : string) : bool :=
  (key =? name)%string || (foldName key =? foldName name)%string.

(** Storing a value into a field of type string: a string is stored, null
    leaves the field as it is, anything else is an
    [UnmarshalTypeError]. *)
Definition store_string (v : json) (old : string) : option string :=
  match v with
  | JString s => Some s
  | JNull => Some old
  | _ => None
  end.

(** The members of the inner object, in the order of the input.  The
    decoder goes on after a type error and reports it at the end; the
    caller reads the fields only when there was none, so the model stops
    at the first. *)
Fixpoint decode_error_members (ms : list (string * json)) (r : ErrResp)
  : option ErrResp :=
  match ms with
  | [] => Some r
  | (key, v) :: ms' =>
      if names_field "code" key then
        match store_string v (Error_Code r) with
        | Some s => decode_error_members ms' (mkErrResp s (Error_Message r))
        | None => None
        end
      else if names_field "message" key then
        match store_string v (Error_Message r) with
        | Some s => decode_error_members ms' (mkErrResp (Error_Code r) s)
        | None => None
        end
      else decode_error_members ms' r
  end.

(** Storing a value into the field [Error], a struct. *)
Definition store_error (v : json) (r : ErrResp) : option ErrResp :=
  match v with
  | JObject ms => decode_error_members ms r
  | JNull => Some r
  | _ => None
  end.

Fixpoint decode_members (ms : list (string * json)) (r : ErrResp)
  : option ErrResp :=
  match ms with
  | [] => Some r
  | (key, v) :: ms' =>
      if names_field "error" key then
        match store_error v r with
        | Some r' => decode_members ms' r'
        | None => None
        end
      else decode_members ms' r
  end.

(** [json.Unmarshal(body, &errResp)] on a zero [errResp]: the fields when
    the error is nil, [None] when it is not. *)
Definition json_Unmarshal (body : string) : option ErrResp :=
  match parse_json body with
  | Some (JObject ms) => decode_members ms (mkErrResp "" "")
  | Some JNull => Some (mkErrResp "" "")
  | Some _ => None
  | None => None
  end.

(** ** Package client: the data model *)

(** The Ahrefs API v3 base URL. *)
Definition BaseURL : string := "https://api.ahrefs.com/v3".

(** [time.Second], in nanoseconds as [time.Duration] counts. *)
Definition Second : Z := 1000000000.

Definition DefaultTimeout : Z := 60 * Second.
Definition DefaultMaxRetries : Z := 3.

(** [Client]; of [httpClient] the model keeps the timeout it is built
    with. *)
Record Client : Type := mkClient {
  baseURL : string;
  apiKey : string;
  httpClient_Timeout : Z;
  maxRetries : Z
}.

Record Config : Type := mkConfig {
  APIKey : string;
  Config_BaseURL : string;
  Timeout : Z;
  MaxRetries : Z
}.

(** [url.Values] and [http.Header]: keys with their lists of values. *)
Definition Values : Type := list (string * list string).
Definition Header : Type := list (string * list string).

(** [Request]; [Params] is [None] for a nil map. *)
Record Request : Type := mkRequest {
  Method : string;
  Endpoint : string;
  Params : option Values
}.

Record ResponseMeta : Type := mkResponseMeta {
  UnitsConsumed : Z;
  RateLimitRemaining : Z;
  ResponseTimeMS : Z
}.

Record Response : Type := mkResponse {
  StatusCode : Z;
  Body : string;
  Headers : Header;
  Meta : ResponseMeta
}.

Record APIError : Type := mkAPIError {
  APIError_StatusCode : Z;
  Code : string;
  Message : string;
  Suggestion : string;
  DocsURL : string
}.

(** Go's [error] values, as far as the two packages tell them apart: an
    [*APIError], an error that wraps another one ([fmt.Errorf] with [%w];
    [msg] is the whole formatted text), and any other error, known by its
    text. *)
Inductive error : Type :=
  | errorString (msg : string)
  | errAPI (e : APIError)
  | wrapError (msg : string) (inner : error).

(** The [Error] method, of [APIError] and of the other errors. *)
Definition Error (err : error) : string :=
  match err with
  | errorString msg => msg
  | errAPI e =>
      "API error (" ++ Itoa (APIError_StatusCode e) ++ "): " ++ Message e
  | wrapError msg _ => msg
  end.

(** A parsed URL: [RawQuery], which [Do] overwrites, and the rest. *)
Record URL : Type := mkURL {
  URL_parsed : string;
  RawQuery : string
}.

(** The pure library functions the executor calls and this development
    does not fix: whatever they answer, the executor is the function
    below. *)
Record Lib : Type := mkLib {
  (** [json.Unmarshal(body, &errResp)]: the fields when the error is nil. *)
  Unmarshal : string -> option ErrResp;
  (** [fmt.Sscanf(units, "%d", &unitsInt)]: the integer when the error is
      nil. *)
  Sscanf_d : string -> option Z;
  (** [url.Parse]. *)
  url_Parse : string -> URL + error;
  (** [url.Values.Encode]. *)
  Values_Encode : Values -> string;
  (** The [String] method of [url.URL]. *)
  URL_String : URL -> string
}.

(** What one call of [doRequest] meets outside the process. *)
Inductive RoundTrip : Type :=
  (** [http.NewRequestWithContext] fails. *)
  | RequestInvalid (err : error)
  (** [httpClient.Do] fails: no response. *)
  | TransportError (err : error)
  (** the response arrives and reading its body fails. *)
  | BodyError (err : error)
  (** a response, its body read, [elapsed_ms] after the start. *)
  | Responded (status : Z) (body : string) (headers : Header) (elapsed_ms : Z).

(** The outgoing request as [doRequest] builds it. *)
Record HTTPRequest : Type := mkHTTPRequest {
  req_Method : string;
  req_URL : string;
  req_Header : list (string * string)
}.

(** The world of one call of [Do]: what the attempt numbered [attempt]
    meets, and whether the select before it receives from [ctx.Done()]
    (then with [ctx.Err()]) or from the timer ([None]). *)
Record World : Type := mkWorld {
  roundTrip : Z -> HTTPRequest -> RoundTrip;
  ctxDone : Z -> Z -> option error
}.

(** What [Do] does that can be observed from outside, in order. *)
Inductive Event : Type :=
  (** the select on [time.After(backoff)] and [ctx.Done()] *)
  | EvBackoff (attempt : Z) (backoff : Z)
  (** one call of [doRequest] *)
  | EvRequest (attempt : Z) (r : HTTPRequest).

(** ** Package client: the functions *)

(** [NewClient]. *)
Definition NewClient (cfg : Config) : Client :=
  let cfg_BaseURL :=
    if (Config_BaseURL cfg =? "")%string then BaseURL else Config_BaseURL cfg in
  let cfg_Timeout := if Timeout cfg =? 0 then DefaultTimeout else Timeout cfg in
  let cfg_MaxRetries :=
    if MaxRetries cfg =? 0 then DefaultMaxRetries else MaxRetries cfg in
  {| baseURL := cfg_BaseURL;
     apiKey := APIKey cfg;
     httpClient_Timeout := cfg_Timeout;
     maxRetries := cfg_MaxRetries |}.

(** [http.CanonicalHeaderKey] on a key made of letters, digits and
    hyphens: a capital at the start and after each hyphen, small letters
    elsewhere. *)
Fixpoint canonical_from (upper : bool) (s : string) : string :=
  match s with
  | "" => ""
  | String c rest =>
      let c' :=
        if upper && in_range 97 122 c then char_of (byte_of c - 32)
        else if negb upper && in_range 65 90 c then char_of (byte_of c + 32)
        else c in
      String c' (canonical_from (byte_of c =? 45) rest)
  end.

Definition CanonicalHeaderKey (s : string) : string := canonical_from true s.

(** [Header.Get]: the first value under the canonical form of [key], the
    empty string when there is none. *)
Fixpoint Header_Get (h : Header) (key : string) : string :=
  match h with
  | [] => ""
  | (k, vs) :: h' =>
      if (k =? CanonicalHeaderKey key)%string then
        match vs with
        | v :: _ => v
        | [] => ""
        end
      else Header_Get h' key
  end.

Section Executor.

Variable L : Lib.

(** [parseError]. *)
Definition parseError (statusCode : Z) (body : string) : APIError :=
  let apiErr := mkAPIError statusCode "" "" "" "" in
  (* Try to parse JSON error response *)
  let parsed :=
    match Unmarshal L body with
    | Some errResp =>
        if negb (Error_Message errResp =? "")%string then Some errResp
        else None
    | None => None
    end in
  let apiErr :=
    match parsed with
    | Some errResp =>
        mkAPIError statusCode (Error_Code errResp) (Error_Message errResp)
          (Suggestion apiErr) (DocsURL apiErr)
    | None =>
        (* Fallback to status text *)
        let message := body in
        let message :=
          if (String.length message =? 0)%nat then StatusText statusCode
          else message in
        mkAPIError statusCode (Code apiErr) message
          (Suggestion apiErr) (DocsURL apiErr)
    end in
  (* Add suggestions based on status code *)
  if (statusCode =? StatusUnauthorized) || (statusCode =? StatusForbidden)
  then
    mkAPIError statusCode "AUTH_ERROR" (Message apiErr)
      "Check your API key. Run 'ahrefs config set-key <your-key>' to configure"
      "https://docs.ahrefs.com/docs/api/reference/api-keys-creation-and-management"
  else if statusCode =? StatusTooManyRequests then
    mkAPIError statusCode "RATE_LIMIT_ERROR" (Message apiErr)
      "Rate limit exceeded. Wait before retrying or check your subscription limits"
      "https://docs.ahrefs.com/docs/api/reference/limits-consumption"
  else if statusCode =? StatusBadRequest then
    mkAPIError statusCode "VALIDATION_ERROR" (Message apiErr)
      "Check request parameters. Use --describe flag to see valid options"
      (DocsURL apiErr)
  else if statusCode =? StatusNotFound then
    mkAPIError statusCode "NOT_FOUND" (Message apiErr)
      "Endpoint or resource not found. Verify the target and endpoint"
      (DocsURL apiErr)
  else apiErr.

Variable W : World.

(** The request [doRequest] sends: method, URL and the three headers. *)
Definition newRequest (c : Client) (method url : string) : HTTPRequest :=
  {| req_Method := method;
     req_URL := url;
     req_Header :=
       [ ("Authorization", "Bearer " ++ apiKey c);
         ("Accept", "application/json");
         ("User-Agent", "ahrefs-cli/0.1.0") ] |}.

(** [doRequest], for the attempt numbered [attempt] (the number only
    selects what the world answers). *)
Definition doRequest (c : Client) (attempt : Z) (method url : string)
  : option Response * option error :=
  match roundTrip W attempt (newRequest c method url) with
  | RequestInvalid err =>
      (None, Some (wrapError ("failed to create request: " ++ Error err) err))
  | TransportError err =>
      (None, Some (wrapError ("HTTP request failed: " ++ Error err) err))
  | BodyError err =>
      (None,
       Some (wrapError ("failed to read response body: " ++ Error err) err))
  | Responded status body headers elapsed_ms =>
      let meta := mkResponseMeta 0 0 elapsed_ms in
      (* Parse units consumed from headers if available *)
      let units := Header_Get headers "X-API-Units-Consumed" in
      let meta :=
        if negb (units =? "")%string then
          match Sscanf_d L units with
          | Some unitsInt =>
              mkResponseMeta unitsInt (RateLimitRemaining meta)
                (ResponseTimeMS meta)
          | None => meta
          end
        else meta in
      let resp := mkResponse status body headers meta in
      if 400 <=? status
      then (Some resp, Some (errAPI (parseError status body)))
      else (Some resp, None)
  end.

(** The error [Do] ends with when the loop is left without a response:
    [fmt.Errorf("request failed after %d retries: %w", c.maxRetries,
    lastErr)]. *)
Definition retriesError (c : Client) (lastErr : option error) : error :=
  let head := "request failed after " ++ Itoa (maxRetries c) ++ " retries: " in
  match lastErr with
  | Some err => wrapError (head ++ Error err) err
  | None => errorString (head ++ "%!w(<nil>)")
  end.

(** [time.Duration(attempt) * time.Second]. *)
Definition backoff (attempt : Z) : Z := wrap64 (attempt * Second).

(** Don't retry on client errors (4xx) except 429. *)
Definition stops_retrying (resp : option Response) : bool :=
  match resp with
  | Some r =>
      (400 <=? StatusCode r) && (StatusCode r <? 500)
      && negb (StatusCode r =? 429)
  | None => false
  end.

(** The loop of [Do] from the attempt numbered [attempt] on, with the
    events it produces.  [fuel] is the number of iterations left before
    the counter passes [maxRetries]. *)
Fixpoint Do_loop (c : Client) (method url : string) (fuel : nat)
  (attempt : Z) (lastErr : option error)
  : (option Response * option error) * list Event :=
  match fuel with
  | O => ((None, Some (retriesError c lastErr)), [])
  | S fuel' =>
      if attempt <=? maxRetries c then
        let cancelled :=
          if 0 <? attempt then ctxDone W attempt (backoff attempt) else None in
        let waited :=
          if 0 <? attempt then [EvBackoff attempt (backoff attempt)] else [] in
        match cancelled with
        | Some ctxErr => ((None, Some ctxErr), waited)
        | None =>
            let sent := EvRequest attempt (newRequest c method url) in
            match doRequest c attempt method url with
            | (resp, None) => ((resp, None), (waited ++ [sent])%list)
            | (resp, Some err) =>
                if stops_retrying resp then
                  ((None, Some (retriesError c (Some err))),
                   (waited ++ [sent])%list)
                else
                  let (result, events) :=
                    Do_loop c method url fuel' (attempt + 1) (Some err) in
                  (result, (waited ++ sent :: events)%list)
            end
        end
      else ((None, Some (retriesError c lastErr)), [])
  end.

(** [if req.Params != nil { u.RawQuery = req.Params.Encode() }]. *)
Definition withParams (u : URL) (params : option Values) : URL :=
  match params with
  | Some values => mkURL (URL_parsed u) (Values_Encode L values)
  | None => u
  end.

(** [Do]: the pair it returns and the events in the order they
    happen. *)
Definition Do (c : Client) (req : Request)
  : (option Response * option error) * list Event :=
  if (apiKey c =? "")%string then
    ((None, Some (errorString "API key is required")), [])
  else
    (* Build URL *)
    match url_Parse L (baseURL c ++ Endpoint req) with
    | inr err =>
        ((None, Some (wrapError ("invalid endpoint: " ++ Error err) err)), [])
    | inl u =>
        let u := withParams u (Params req) in
        Do_loop c (Method req) (URL_String L u)
          (Z.to_nat (maxRetries c + 1)) 0 None
    end.

(** [Get] and [Post]. *)
Definition Get (c : Client) (endpoint : string) (params : option Values) :=
  Do c (mkRequest "GET" endpoint params).

Definition Post (c : Client) (endpoint : string) (params : option Values) :=
  Do c (mkRequest "POST" endpoint params).

End Executor.

Arguments parseError : simpl never.
Arguments newRequest : simpl never.
Arguments doRequest : simpl never.
Arguments retriesError : simpl never.
Arguments backoff : simpl never.
Arguments stops_retrying : simpl never.

(** The number of calls of [doRequest] among the events. *)
Fixpoint attempts (events : list Event) : nat :=
  match events with
  | [] => O
  | EvRequest _ _ :: events' => S (attempts events')
  | EvBackoff _ _ :: events' => attempts events'
  end.

(** ** encoding/json: the indented encoder on maps of strings

    [WriteError] encodes a [map[string]interface{}] whose values are
    strings and one more such map.  A Go map is modelled by the list of
    its entries in increasing order of the keys, the order in which the
    encoder writes them. *)

Definition NL : string := String (ascii_of_nat 10) "".
Definition TAB : string := String (ascii_of_nat 9) "".

#[warnings="-register-all"]
Inductive jvalue : Type :=
  | JVString (s : string)
  | JVInt (n : Z)
  | JVMap (entries : list (string * jvalue)).

(** [m[key] = v] on a map. *)
Fixpoint map_set {A : Type} (key : string) (v : A) (m : list (string * A))
  : list (string * A) :=
  match m with
  | [] => [(key, v)]
  | (k, x) :: m' =>
      if (k =? key)%string then (key, v) :: m'
      else if String.ltb key k then (key, v) :: (k, x) :: m'
      else (k, x) :: map_set key v m'
  end.

Definition hex_digit (n : Z) : ascii :=
  if n <? 10 then char_of (48 + n) else char_of (87 + n).

(** The bytes of a string between the quotes, as the encoder writes them
    with HTML escaping on (the default of [json.Encoder], Go 1.22 and
    later): the quote and the backslash after a backslash, the short
    escapes for backspace, form feed, newline, carriage return and tab,
    [\u00XX] for the other control characters and for [<], [>] and [&],
    the six characters [\ufffd] for a byte that is not well-formed UTF-8,
    [\u2028] and [\u2029] for these two runes. *)
Fixpoint escape_from (copy : nat) (s : string) : string :=
  match s with
  | "" => ""
  | String c rest =>
      match copy with
      | S k => String c (escape_from k rest)
      | O =>
          let b := byte_of c in
          if b <? 128 then
            if (b =? 92) || (b =? 34)
            then String "\"%char (String c (escape_from O rest))
            else if b =? 8 then "\b" ++ escape_from O rest
            else if b =? 12 then "\f" ++ escape_from O rest
            else if b =? 10 then "\n" ++ escape_from O rest
            else if b =? 13 then "\r" ++ escape_from O rest
            else if b =? 9 then "\t" ++ escape_from O rest
            else if (b <? 32) || (b =? 60) || (b =? 62) || (b =? 38) then
              "\u00" ++ String (hex_digit (b / 16))
                          (String (hex_digit (b mod 16)) (escape_from O rest))
            else String c (escape_from O rest)
          else
            match utf8_size c rest with
            | O => "\ufffd" ++ escape_from O rest
            | S k =>
                match rest with
                | String c1 (String c2 rest2) =>
                    if (b =? 226) && (byte_of c1 =? 128)
                       && ((byte_of c2 =? 168) || (byte_of c2 =? 169))
                    then
                      "\u202" ++ String (hex_digit (byte_of c2 - 160))
                                   (escape_from O rest2)
                    else String c (escape_from k rest)
                | _ => String c (escape_from k rest)
                end
            end
      end
  end.

Definition json_string (s : string) : string := quoted (escape_from O s).

(** The value at nesting level [level], indented by two spaces a level
    ([SetIndent] with an empty prefix). *)
Fixpoint json_indented (level : nat) (v : jvalue) : string :=
  match v with
  | JVString s => json_string s
  | JVInt n => Itoa n
  | JVMap [] => "{}"
  | JVMap ((k0, v0) :: entries) =>
      let line k x :=
        NL ++ Repeat "  " (S level) ++ json_string k ++ ": "
        ++ json_indented (S level) x in
      "{" ++ line k0 v0
      ++ (fix more (l : list (string * jvalue)) : string :=
            match l with
            | [] => ""
            | (k, x) :: l' => "," ++ line k x ++ more l'
            end) entries
      ++ NL ++ Repeat "  " level ++ "}"
  end.

(** [enc.Encode(v)] after [enc.SetIndent("", "  ")]: the indented value
    and a newline. *)
Definition Encode (v : jvalue) : string := json_indented O v ++ NL.

(** ** Package output: the data model *)

(** [reflect.StructField], as far as the renderer reads it: the name, the
    package path (empty for an exported field) and the tag under the key
    [json]. *)
Record StructField : Type := mkStructField {
  Name : string;
  PkgPath : string;
  Tag_json : string
}.

Definition IsExported (f : StructField) : bool := (PkgPath f =? "")%string.

(** A payload, by what [reflect] tells of it.  A map lists its entries in
    the order [MapKeys] returns them (Go fixes none), each key by its
    [%v] text; [elem_interface] says that the element type of the map or
    of the slice is an interface type.  [VScalar] is a value of any other
    kind, by its [%v] text; [VNil] is the nil interface. *)
#[warnings="-register-all"]
Inductive Value : Type :=
  | VNil
  | VScalar (text : string)
  | VMap (elem_interface : bool) (entries : list (string * Value))
  | VSlice (elem_interface : bool) (elems : list Value)
  | VStruct (fields : list (StructField * Value)).

Inductive Kind : Type :=
  | Invalid
  | Map
  | Slice         (* reflect.Slice or reflect.Array *)
  | Struct
  | Interface
  | OtherKind.

(** A [reflect.Value].  One that [Index] or [MapIndex] returns has the
    element type of its container: when that is an interface type its
    [Kind] is [Interface], whatever it holds ([Elem] would unwrap it;
    [Interface()] gives back what it holds). *)
Record rvalue : Type := mkRvalue {
  in_interface : bool;
  held : Value
}.

Definition ValueOf (v : Value) : rvalue := mkRvalue false v.

Definition kind (r : rvalue) : Kind :=
  if in_interface r then Interface
  else
    match held r with
    | VNil => Invalid
    | VScalar _ => OtherKind
    | VMap _ _ => Map
    | VSlice _ _ => Slice
    | VStruct _ => Struct
    end.

Definition is_Slice (k : Kind) : bool :=
  match k with Slice => true | _ => false end.

(** [Format]. *)
Definition Format : Type := string.
Definition FormatJSON : Format := "json".
Definition FormatYAML : Format := "yaml".
Definition FormatCSV : Format := "csv".
Definition FormatTable : Format := "table".

(** [Writer]: the format.  The sink is an in-memory buffer that accepts
    every write; each function below returns the bytes it appends to it
    and the error it returns. *)
Record Writer : Type := mkWriter {
  format : Format
}.

(** ** Package output: errors *)

(** [formatError]. *)
Definition formatError (err : error) : list (string * jvalue) :=
  let errMap := map_set "message" (JVString (Error err)) [] in
  (* Check if it's an API error *)
  match err with
  | errAPI apiErr =>
      let errMap := map_set "code" (JVString (Code apiErr)) errMap in
      let errMap := map_set "message" (JVString (Message apiErr)) errMap in
      let errMap :=
        if negb (Suggestion apiErr =? "")%string
        then map_set "suggestion" (JVString (Suggestion apiErr)) errMap
        else errMap in
      if negb (DocsURL apiErr =? "")%string
      then map_set "docs_url" (JVString (DocsURL apiErr)) errMap
      else errMap
  | _ => errMap
  end.

(** [WriteError]. *)
Definition WriteError (w : Writer) (err : error) : string * option error :=
  let errResp :=
    map_set "error" (JVMap (formatError err))
      (map_set "status" (JVString "error") []) in
  (Encode (JVMap errResp), None).

(** ** Package output: the YAML-like dump *)

(** [writeYAMLValue]; every write goes through, so the error it returns is
    nil and the model keeps the bytes. *)
Fixpoint writeYAMLValue (v : Value) (indent : nat) : string :=
  let prefix := Repeat "  " indent in
  match v with
  | VNil => prefix ++ "nil" ++ NL
  | VMap _ entries =>
      (fix each (l : list (string * Value)) : string :=
         match l with
         | [] => ""
         | (key, x) :: l' =>
             prefix ++ key ++ ":" ++ NL ++ writeYAMLValue x (S indent)
             ++ each l'
         end) entries
  | VSlice _ elems =>
      (fix each (l : list Value) : string :=
         match l with
         | [] => ""
         | x :: l' =>
             prefix ++ "-" ++ NL ++ writeYAMLValue x (S indent) ++ each l'
         end) elems
  | VStruct fields =>
      (fix each (l : list (StructField * Value)) : string :=
         match l with
         | [] => ""
         | (field, x) :: l' =>
             (if IsExported field
              then prefix ++ Name field ++ ":" ++ NL
                   ++ writeYAMLValue x (S indent)
              else "")
             ++ each l'
         end) fields
  | VScalar text => prefix ++ text ++ NL
  end.

(** [writeYAML]. *)
Definition writeYAML (w : Writer) (data : Value) (meta : option ResponseMeta)
  : string * option error :=
  ("status: success" ++ NL ++ "data:" ++ NL ++ writeYAMLValue data 1, None).

(** ** Package output: headers and rows *)

(** [strings.Split(s, ",")[0]]: the text before the first comma. *)
Fixpoint before_comma (s : string) : string :=
  match s with
  | "" => ""
  | String c rest =>
      if byte_of c =? 44 then "" else String c (before_comma rest)
  end.

(** The name a field goes by in a header: its JSON tag up to the first
    comma when the tag is set and is not [-], its name otherwise. *)
Definition header_name (field : StructField) : string :=
  let jsonTag := Tag_json field in
  if negb (jsonTag =? "")%string && negb (jsonTag =? "-")%string
  then before_comma jsonTag
  else Name field.

(** [extractHeaders]. *)
Definition extractHeaders (v : rvalue) : list string :=
  match kind v, held v with
  | Map, VMap _ entries => map fst entries
  | Struct, VStruct fields =>
      map (fun fx => header_name (fst fx))
        (filter (fun fx => IsExported (fst fx)) fields)
  | _, _ => []
  end.

Section Renderer.

(** [fmt.Sprintf("%v", x)] on a map, a slice or a struct. *)
Variable Sprint_composite : Value -> string.

(** What [csv.Writer.Write] and [Flush] send to the sink for one
    record. *)
Variable csv_record : list string -> string.

(** What [tabwriter.Writer] sends to the sink at [Flush] for the text
    written to it. *)
Variable tabwriter : string -> string.

(** The indented JSON of a payload at a nesting level, or the error of
    the encoder. *)
Variable json_payload : nat -> Value -> string + error.

(** [fmt.Sprintf("%v", x)]. *)
Definition Sprint (x : Value) : string :=
  match x with
  | VNil => "<nil>"
  | VScalar text => text
  | _ => Sprint_composite x
  end.

(** The cell of a map row under [header]: the value of the first key
    whose text is [header], the empty string when there is none. *)
Fixpoint map_cell (entries : list (string * Value)) (header : string)
  : string :=
  match entries with
  | [] => ""
  | (key, x) :: entries' =>
      if (key =? header)%string then Sprint x else map_cell entries' header
  end.

(** The cell of a struct row under [header]: the value of the first
    field, exported or not, that goes by [header]; [None] when that
    field is not exported, where [Interface()] panics. *)
Fixpoint struct_cell (fields : list (StructField * Value)) (header : string)
  : option string :=
  match fields with
  | [] => Some ""
  | (field, x) :: fields' =>
      let jsonTag := Tag_json field in
      let fieldName :=
        if negb (jsonTag =? "")%string && negb (jsonTag =? "-")%string
        then before_comma jsonTag
        else Name field in
      if (fieldName =? header)%string then
        if IsExported field then Some (Sprint x) else None
      else struct_cell fields' header
  end.

(** All the cells, [None] when one of them panics. *)
Fixpoint all_cells (cells : list (option string)) : option (list string) :=
  match cells with
  | [] => Some []
  | Some s :: cells' => option_map (cons s) (all_cells cells')
  | None :: _ => None
  end.

(** [extractRow]; [None] when it panics. *)
Definition extractRow (v : rvalue) (headers : list string)
  : option (list string) :=
  match kind v, held v with
  | Map, VMap _ entries => Some (map (map_cell entries) headers)
  | Struct, VStruct fields => all_cells (map (struct_cell fields) headers)
  | _, _ => Some (map (fun _ => "") headers)
  end.

(** The row set of [writeCSV] and [writeTable]: when the payload is a
    map, the first of its entries, in the order of [MapKeys], whose
    [MapIndex] is of kind slice or array; the payload itself when there
    is none or when it is no map. *)
Fixpoint first_slice_entry (elem_interface : bool)
  (entries : list (string * Value)) : option rvalue :=
  match entries with
  | [] => None
  | (_, x) :: entries' =>
      let fieldVal := mkRvalue elem_interface x in
      if is_Slice (kind fieldVal) then Some fieldVal
      else first_slice_entry elem_interface entries'
  end.

Definition rowSet (data : Value) : rvalue :=
  let val := ValueOf data in
  match kind val, data with
  | Map, VMap elem_interface entries =>
      match first_slice_entry elem_interface entries with
      | Some fieldVal => fieldVal
      | None => val
      end
  | _, _ => val
  end.

(** [val.Index(i)] for every [i], on a value of kind slice. *)
Definition elements (val : rvalue) : list rvalue :=
  match held val with
  | VSlice elem_interface elems => map (mkRvalue elem_interface) elems
  | _ => []
  end.

(** A run of the renderer: it returns, with the bytes written and the
    error, or it panics. *)
Inductive Outcome : Type :=
  | Returns (written : string) (err : option error)
  | Panics.

(** The rows of [writeCSV], one record each. *)
Fixpoint csv_rows (rows : list rvalue) (headers : list string)
  : option string :=
  match rows with
  | [] => Some ""
  | r :: rows' =>
      match extractRow r headers, csv_rows rows' headers with
      | Some row, Some out => Some (csv_record row ++ out)
      | _, _ => None
      end
  end.

(** [writeCSV]. *)
Definition writeCSV (w : Writer) (data : Value) : Outcome :=
  let val := rowSet data in
  if negb (is_Slice (kind val)) then
    Returns "" (Some (errorString "CSV format requires array/slice data"))
  else
    match elements val with
    | [] => Returns "" None
    | first :: _ =>
        (* Get headers from first element *)
        let headers := extractHeaders first in
        (* Write rows *)
        match csv_rows (elements val) headers with
        | Some out => Returns (csv_record headers ++ out) None
        | None => Panics
        end
    end.

(** [writeTableObject], the text handed to the tab writer. *)
Definition writeTableObject (data : Value) : string :=
  match data with
  | VMap _ entries =>
      String.concat ""
        (map (fun kx => fst kx ++ ":" ++ TAB ++ Sprint (snd kx) ++ NL) entries)
  | VStruct fields =>
      String.concat ""
        (map (fun fx => Name (fst fx) ++ ":" ++ TAB ++ Sprint (snd fx) ++ NL)
           (filter (fun fx => IsExported (fst fx)) fields))
  | _ => "Value:" ++ TAB ++ Sprint data ++ NL
  end.

(** [strings.Join]. *)
Fixpoint Join (elems : list string) (sep : string) : string :=
  match elems with
  | [] => ""
  | [s] => s
  | s :: elems' => s ++ sep ++ Join elems' sep
  end.

Fixpoint table_rows (rows : list rvalue) (headers : list string)
  : option string :=
  match rows with
  | [] => Some ""
  | r :: rows' =>
      match extractRow r headers, table_rows rows' headers with
      | Some row, Some out =>
          Some (Join row TAB ++ NL ++ out)
      | _, _ => None
      end
  end.

(** [writeTable]. *)
Definition writeTable (w : Writer) (data : Value) : Outcome :=
  let val := rowSet data in
  if negb (is_Slice (kind val)) then
    (* Single object - print as key-value pairs *)
    Returns (tabwriter (writeTableObject data)) None
  else
    match elements val with
    | [] => Returns (tabwriter ("(no results)" ++ NL)) None
    | first :: _ =>
        let headers := extractHeaders first in
        let head :=
          Join headers TAB ++ NL
          ++ Repeat "-" (List.length headers * 10) ++ NL in
        match table_rows (elements val) headers with
        | Some out => Returns (tabwriter (head ++ out)) None
        | None => Panics
        end
    end.

(** [writeJSON]: the envelope around the payload. *)
Definition writeJSON (w : Writer) (data : Value) (meta : option ResponseMeta)
  : Outcome :=
  let metaMap :=
    match meta with
    | Some m =>
        let mm := map_set "response_time_ms" (JVInt (ResponseTimeMS m)) [] in
        let mm :=
          if 0 <? UnitsConsumed m
          then map_set "units_consumed" (JVInt (UnitsConsumed m)) mm else mm in
        let mm :=
          if 0 <? RateLimitRemaining m
          then map_set "rate_limit_remaining" (JVInt (RateLimitRemaining m)) mm
          else mm in
        Some mm
    | None => None
    end in
  match json_payload 1 data with
  | inr err => Returns "" (Some err)
  | inl payload =>
      Returns
        ("{" ++ NL ++ "  " ++ json_string "data" ++ ": " ++ payload
         ++ match metaMap with
            | Some mm =>
                "," ++ NL ++ "  " ++ json_string "meta" ++ ": "
                ++ json_indented 1 (JVMap mm)
            | None => ""
            end
         ++ "," ++ NL ++ "  " ++ json_string "status" ++ ": "
         ++ json_string "success" ++ NL ++ "}" ++ NL)
        None
  end.

(** [WriteSuccess]. *)
Definition WriteSuccess (w : Writer) (data : Value)
  (meta : option ResponseMeta) : Outcome :=
  if (format w =? FormatJSON)%string then writeJSON w data meta
  else if (format w =? FormatYAML)%string then
    let (out, err) := writeYAML w data meta in Returns out err
  else if (format w =? FormatCSV)%string then writeCSV w data
  else if (format w =? FormatTable)%string then writeTable w data
  else
    Returns ""
      (Some (errorString ("unsupported output format: " ++ format w))).

End Renderer.

(** ** Scenarios and the vocabulary of the statements *)

(** The URL of the scenarios: [BaseURL] and the endpoint [/test]. *)
Definition scenario_url : string := "https://api.ahrefs.com/v3/test".

(** The library as the scenarios below meet it.  [json.Unmarshal] is the
    model above; [url.Parse] accepts [scenario_url], whose [String] is the
    same text.  The responses of the scenarios carry no
    [X-API-Units-Consumed] header and their requests no parameters, so
    [Sscanf] and [Encode] are never reached. *)
Definition scenario_lib : Lib :=
  {| Unmarshal := json_Unmarshal;
     Sscanf_d := fun _ => None;
     url_Parse := fun raw =>
       if (raw =? scenario_url)%string then inl (mkURL raw "")
       else inr (errorString "outside the scenarios");
     Values_Encode := fun _ => "";
     URL_String := URL_parsed |}.

(** A client as [NewClient] builds it from an API key alone, and the
    request of the scenarios. *)
Definition scenario_client : Client := NewClient (mkConfig "test-key" "" 0 0).
Definition scenario_request : Request := mkRequest "GET" "/test" None.

(** An error body with a code of its own:
    [{"error":{"code":"UPSTREAM","message":"backend down"}}]. *)
Definition body_with_code : string :=
  "{" ++ quoted "error" ++ ":{" ++ quoted "code" ++ ":" ++ quoted "UPSTREAM"
  ++ "," ++ quoted "message" ++ ":" ++ quoted "backend down" ++ "}}".

(** The server answers every attempt with 404 and a plain text body. *)
Definition world_404 : World :=
  {| roundTrip := fun _ _ => Responded 404 "not here" [] 12;
     ctxDone := fun _ _ => None |}.

(** The server of [TestClient_Retries]: 500 on the first two attempts,
    200 on the third; the context is never done. *)
Definition world_500_500_200 : World :=
  {| roundTrip := fun attempt _ =>
       if attempt <? 2 then Responded 500 "" [] 3
       else Responded 200 "ok" [] 5;
     ctxDone := fun _ _ => None |}.

(** The server answers 503 and the context is done during the second
    wait. *)
Definition world_cancelled : World :=
  {| roundTrip := fun _ _ => Responded 503 "" [] 4;
     ctxDone := fun attempt _ =>
       if attempt =? 2 then Some (errorString "context deadline exceeded")
       else None |}.

(** The run TESTING.md records: the server answers 403 with the body
    [{ "error": "Insufficient plan" }]. *)
Definition body_insufficient_plan : string :=
  "{ " ++ quoted "error" ++ ": " ++ quoted "Insufficient plan" ++ " }".

Definition world_403 : World :=
  {| roundTrip := fun _ _ => Responded 403 body_insufficient_plan [] 20;
     ctxDone := fun _ _ => None |}.

(** A quote after a backslash, as the JSON encoder writes a quote. *)
Definition escaped_quote : string := "\" ++ String DQ "".

(** The payload of the YAML output TESTING.md records: a
    [DomainRatingResponse] of rating 91. *)
Definition domain_rating_payload : Value :=
  VStruct
    [ (mkStructField "DomainRating" "" "domain_rating",
       VStruct
         [ (mkStructField "DomainRating" "" "domain_rating", VScalar "91") ]) ].

(** The statuses [parseError] has a code and a suggestion for. *)
Definition recognized (statusCode : Z) : bool :=
  (statusCode =? 401) || (statusCode =? 403) || (statusCode =? 429)
  || (statusCode =? 400) || (statusCode =? 404).

(** What the body offers: the message it decodes to, empty when it does
    not decode; and the code that [parseError] takes with a message that
    is not empty. *)
Definition parsed_message (L : Lib) (body : string) : string :=
  match Unmarshal L body with
  | Some errResp => Error_Message errResp
  | None => ""
  end.

Definition parsed_code (L : Lib) (body : string) : string :=
  match Unmarshal L body with
  | Some errResp =>
      if (Error_Message errResp =? "")%string then "" else Error_Code errResp
  | None => ""
  end.

(** The events of the first [n] attempts of an uncancelled run, by the
    words of the specification: attempt 0 at once, attempt [k], for [k]
    from 1 on, after a wait of [k] seconds. *)
Fixpoint schedule (r : HTTPRequest) (n : nat) : list Event :=
  match n with
  | O => []
  | S m =>
      (schedule r m
       ++ match m with
          | O => []
          | S _ => [EvBackoff (Z.of_nat m) (Z.of_nat m * Second)]
          end
       ++ [EvRequest (Z.of_nat m) r])%list
  end.

(** The request every attempt of [Do] sends, once the URL [u] is
    parsed. *)
Definition sentRequest (L : Lib) (c : Client) (req : Request) (u : URL)
  : HTTPRequest :=
  newRequest c (Method req) (URL_String L (withParams L u (Params req))).

(** The largest number of retries whose waits all fit a
    [time.Duration]. *)
Definition maxBackoffAttempts : Z := 9223372036.

(** The text of [WriteError], written out: the envelope of an error
    map, indented by two spaces a level, and a newline. *)
Definition error_envelope (errMap : list (string * jvalue)) : string :=
  "{" ++ NL
  ++ "  " ++ quoted "error" ++ ": " ++ json_indented 1 (JVMap errMap) ++ ","
  ++ NL
  ++ "  " ++ quoted "status" ++ ": " ++ quoted "error" ++ NL
  ++ "}" ++ NL.

(** A line of the YAML-like dump: its depth and its text. *)
Definition Line : Type := (nat * string)%type.

(** The text of the lines: two spaces a level of depth, the text, a
    newline. *)
Fixpoint render_lines (lines : list Line) : string :=
  match lines with
  | [] => ""
  | (depth, text) :: lines' =>
      Repeat "  " depth ++ text ++ NL ++ render_lines lines'
  end.

(** The lines of the dump of a value at a depth, by the words of the
    specification, with the scalar where the code puts it: a header [key:]
    for every key of a map and for every exported field of a struct, [-]
    for every element of a sequence, each at the depth of the value and
    followed by the lines of what it heads one level deeper; a scalar, and
    [nil], is a line of its own. *)
Fixpoint yaml_lines (v : Value) (depth : nat) : list Line :=
  match v with
  | VNil => [(depth, "nil")]
  | VScalar text => [(depth, text)]
  | VMap _ entries =>
      (fix each (l : list (string * Value)) : list Line :=
         match l with
         | [] => []
         | (key, x) :: l' =>
             ((depth, (key ++ ":")%string)
              :: yaml_lines x (S depth) ++ each l')%list
         end) entries
  | VSlice _ elems =>
      (fix each (l : list Value) : list Line :=
         match l with
         | [] => []
         | x :: l' => ((depth, "-") :: yaml_lines x (S depth) ++ each l')%list
         end) elems
  | VStruct fields =>
      (fix each (l : list (StructField * Value)) : list Line :=
         match l with
         | [] => []
         | (field, x) :: l' =>
             ((if IsExported field
               then (depth, (Name field ++ ":")%string)
                    :: yaml_lines x (S depth)
               else [])
              ++ each l')%list
         end) fields
  end.

(** Induction on payloads: a property of every value that holds of a map,
    a slice and a struct whenever it holds of what they contain. *)
Section ValueInduction.

Variable P : Value -> Prop.
Hypothesis P_nil : P VNil.
Hypothesis P_scalar : forall text, P (VScalar text).
Hypothesis P_map :
  forall elem_interface entries,
    Forall (fun kx => P (snd kx)) entries -> P (VMap elem_interface entries).
Hypothesis P_slice :
  forall elem_interface elems,
    Forall P elems -> P (VSlice elem_interface elems).
Hypothesis P_struct :
  forall fields, Forall (fun fx => P (snd fx)) fields -> P (VStruct fields).

Fixpoint Value_nested_ind (v : Value) : P v :=
  match v with
  | VNil => P_nil
  | VScalar text => P_scalar text
  | VMap elem_interface entries =>
      P_map elem_interface entries
        ((fix each (l : list (string * Value))
            : Forall (fun kx => P (snd kx)) l :=
            match l with
            | [] => Forall_nil _
            | kx :: l' => Forall_cons kx (Value_nested_ind (snd kx)) (each l')
            end) entries)
  | VSlice elem_interface elems =>
      P_slice elem_interface elems
        ((fix each (l : list Value) : Forall P l :=
            match l with
            | [] => Forall_nil _
            | x :: l' => Forall_cons x (Value_nested_ind x) (each l')
            end) elems)
  | VStruct fields =>
      P_struct fields
        ((fix each (l : list (StructField * Value))
            : Forall (fun fx => P (snd fx)) l :=
            match l with
            | [] => Forall_nil _
            | fx :: l' => Forall_cons fx (Value_nested_ind (snd fx)) (each l')
            end) fields)
  end.

End ValueInduction.

(** Payloads of the scenarios: a map with one scalar entry; a
    [map[string]interface{}] whose entry [rows] holds an empty
    [[]interface{}]; a [map[string][]string] with the same entry. *)
Definition yaml_payload : Value := VMap true [("name", VScalar "ahrefs.com")].
Definition interface_map_payload : Value :=
  VMap true [("rows", VSlice true [])].
Definition typed_map_payload : Value := VMap false [("rows", VSlice false [])].

(** What the loop of [Do] retries after: an attempt that ends without a
    response, a status from 500 on, status 429. *)
Definition retryable (rt : RoundTrip) : bool :=
  match rt with
  | Responded status _ _ _ => (500 <=? status) || (status =? 429)
  | _ => true
  end.

(** The timers [Do] arms, added up, in nanoseconds. *)
Fixpoint total_backoff (events : list Event) : Z :=
  match events with
  | [] => 0
  | EvBackoff _ d :: events' => d + total_backoff events'
  | EvRequest _ _ :: events' => total_backoff events'
  end.

(** The headers of every request of a client. *)
Definition request_headers (c : Client) : list (string * string) :=
  [ ("Authorization", "Bearer " ++ apiKey c);
    ("Accept", "application/json");
    ("User-Agent", "ahrefs-cli/0.1.0") ].

(** The server is down: every attempt ends in a transport error. *)
Definition world_down : World :=
  {| roundTrip := fun _ _ => TransportError (errorString "connection refused");
     ctxDone := fun _ _ => None |}.

(** A value of kind slice or array. *)
Definition is_sequence (v : Value) : bool :=
  match v with VSlice _ _ => true | _ => false end.

(** The payloads [writeCSV] finds rows in: a sequence, or a map whose
    element type is no interface type and one of whose entries is a
    sequence. *)
Definition holds_rows (data : Value) : bool :=
  match data with
  | VSlice _ _ => true
  | VMap false entries => existsb (fun kx => is_sequence (snd kx)) entries
  | _ => false
  end.

(** A [RefDomain] of the models, by the [%v] texts of its fields, and a
    [RefDomainsResponse]. *)
Definition RefDomain (domain rating backlinks first_seen : string) : Value :=
  VStruct
    [ (mkStructField "Domain" "" "domain", VScalar domain);
      (mkStructField "DomainRating" "" "domain_rating,omitempty",
       VScalar rating);
      (mkStructField "Backlinks" "" "backlinks,omitempty", VScalar backlinks);
      (mkStructField "FirstSeen" "" "first_seen,omitempty",
       VScalar first_seen) ].

Definition RefDomainsResponse (rows : list Value) : Value :=
  VStruct [ (mkStructField "RefDomains" "" "refdomains", VSlice false rows) ].

(** Two referring domains. *)
Definition ref_domains : list Value :=
  [ RefDomain "a.example" "71" "12" "2024-01-05";
    RefDomain "b.example" "35" "3" "2024-02-11" ].

(** What [csv.Writer] writes for a record none of whose fields needs
    quotes: the fields between commas and a newline. *)
Definition plain_csv_record (record : list string) : string :=
  Join record "," ++ NL.

(** The header name of a field of a struct value. *)
Definition field_header (fx : StructField * Value) : string :=
  header_name (fst fx).

(** The names a row goes by, one for every key of a map and for every
    field of a struct, and the values [extractHeaders] has a column for:
    the entries of a map, the exported fields of a struct. *)
Definition row_names (v : Value) : list string :=
  match v with
  | VMap _ entries => map fst entries
  | VStruct fields => map field_header fields
  | _ => []
  end.

Definition column_values (v : Value) : list Value :=
  match v with
  | VMap _ entries => map snd entries
  | VStruct fields =>
      map snd (filter (fun fx => IsExported (fst fx)) fields)
  | _ => []
  end.

(** A row that is no struct with a field that is not exported. *)
Definition row_exported (r : rvalue) : bool :=
  match kind r, held r with
  | Struct, VStruct fields => forallb (fun fx => IsExported (fst fx)) fields
  | _, _ => true
  end.

(** The writer of the scenarios: no composite cells, records that need
    no quotes, a tab writer that passes its text on, a payload encoder
    that refuses everything. *)
Definition no_composite (x : Value) : string := "".
Definition tabs_as_they_are (text : string) : string := text.
Definition no_json (level : nat) (x : Value) : string + error :=
  inr (errorString "json: unsupported type").

(** ** What a command does that can be observed from outside *)

(** Where a [Writer] sends its bytes: [os.Stdout] or the file
    [os.Create] returned. *)
Inductive Sink : Type :=
  | Stdout
  | File (path : string).

Inductive Effect : Type :=
  (** [fmt.Printf] and [fmt.Println]: text on the standard output *)
  | EvPrint (text : string)
  (** a call of [os.WriteFile] *)
  | EvWriteFile (path data : string) (perm : Z)
  (** an event of [Client.Do] *)
  | EvClient (ev : Event)
  (** a call of [os.Create] *)
  | EvCreate (path : string)
  (** the bytes a call of the writer appends to its sink *)
  | EvOutput (sink : Sink) (bytes : string)
  (** [Close] on the file of a sink *)
  | EvClose (path : string).

(** ** Package output: [NewWriter] and [Close] *)

(** [NewWriter]; [create] is [os.Create], by the error it returns. *)
Definition NewWriter (create : string -> option error)
  (format outputFile : string) : (Writer * Sink + error) * list Effect :=
  if negb (outputFile =? "")%string then
    match create outputFile with
    | Some err =>
        (inr (wrapError ("failed to create output file: " ++ Error err) err),
         [EvCreate outputFile])
    | None => (inl (mkWriter format, File outputFile), [EvCreate outputFile])
    end
  else (inl (mkWriter format, Stdout), []).

(** [Close]: the file of the sink is closed, the standard output is
    not; [close] is the [Close] of a file, by the error it returns. *)
Definition Close (close : string -> option error) (sink : Sink)
  : list Effect * option error :=
  match sink with
  | File path => ([EvClose path], close path)
  | Stdout => ([], None)
  end.

(** ** Package output: what a panic leaves behind *)

(** The rows [extractRow] returns before the first one on which it
    panics. *)
Fixpoint rows_before_panic (Sprint_composite : Value -> string)
  (rows : list rvalue) (headers : list string) : list (list string) :=
  match rows with
  | [] => []
  | r :: rows' =>
      match extractRow Sprint_composite r headers with
      | Some row => row :: rows_before_panic Sprint_composite rows' headers
      | None => []
      end
  end.

(** What reaches the sink when [WriteSuccess] panics.  The panic is in
    [extractRow], under [writeCSV] or [writeTable], after the header and
    the rows before it were written; the deferred [Flush] of the CSV
    writer and of the tab writer still runs and sends them. *)
Definition written_at_panic (Sprint_composite : Value -> string)
  (csv_record : list string -> string) (tabwriter : string -> string)
  (w : Writer) (data : Value) : string :=
  match elements (rowSet data) with
  | [] => ""
  | first :: _ =>
      let headers := extractHeaders first in
      let rows :=
        rows_before_panic Sprint_composite (elements (rowSet data)) headers in
      if (format w =? FormatCSV)%string then
        csv_record headers ++ String.concat "" (map csv_record rows)
      else if (format w =? FormatTable)%string then
        tabwriter
          (Join headers TAB ++ NL
           ++ Repeat "-" (List.length headers * 10) ++ NL
           ++ String.concat "" (map (fun row => Join row TAB ++ NL) rows))
      else ""
  end.

(** ** Package config (internal/config) *)

Module config.

(** The name of the config file. *)
Definition ConfigFileName : string := ".ahrefsrc".

(** [Config], whose one field is tagged [api_key]. *)
Record Config : Type := mkConfig {
  APIKey : string
}.

(** What [os.ReadFile] returns: the bytes, an error that
    [os.IsNotExist] recognises, or another error. *)
Inductive ReadResult : Type :=
  | FileData (data : string)
  | NotExist (err : error)
  | ReadError (err : error).

(** What the package meets outside: [os.UserHomeDir], [os.ReadFile],
    [os.WriteFile] and [os.Getenv], [filepath.Join], and the error of
    [json.Unmarshal] on an input it rejects. *)
Record Env : Type := mkEnv {
  UserHomeDir : string + error;
  filepath_Join : string -> string -> string;
  ReadFile : string -> ReadResult;
  WriteFile : string -> string -> Z -> option error;
  Getenv : string -> string;
  json_error : string -> error
}.

(** The members of the input object stored into a [Config], in the order
    of the input. *)
Fixpoint decode_config (ms : list (string * json)) (cfg : Config)
  : option Config :=
  match ms with
  | [] => Some cfg
  | (key, v) :: ms' =>
      if names_field "api_key" key then
        match store_string v (APIKey cfg) with
        | Some s => decode_config ms' (mkConfig s)
        | None => None
        end
      else decode_config ms' cfg
  end.

(** [json.Unmarshal(data, &cfg)] on a zero [cfg]: the config when the
    error is nil. *)
Definition Unmarshal_Config (data : string) : option Config :=
  match parse_json data with
  | Some (JObject ms) => decode_config ms (mkConfig "")
  | Some JNull => Some (mkConfig "")
  | Some _ => None
  | None => None
  end.

(** [json.MarshalIndent(cfg, "", "  ")]: an object with the one key
    [api_key]; encoding a struct of one string never fails. *)
Definition MarshalIndent (cfg : Config) : string :=
  json_indented 0 (JVMap [("api_key", JVString (APIKey cfg))]).

(** [getConfigPath]. *)
Definition getConfigPath (e : Env) : string + error :=
  match UserHomeDir e with
  | inr err =>
      inr (wrapError ("failed to get home directory: " ++ Error err) err)
  | inl home => inl (filepath_Join e home ConfigFileName)
  end.

(** [Load]: the config or the error, never both. *)
Definition Load (e : Env) : Config + error :=
  match getConfigPath e with
  | inr err => inr err
  | inl path =>
      match ReadFile e path with
      | NotExist _ => inl (mkConfig "")
      | ReadError err =>
          inr (wrapError ("failed to read config file: " ++ Error err) err)
      | FileData data =>
          match Unmarshal_Config data with
          | Some cfg => inl cfg
          | None =>
              inr (wrapError
                     ("failed to parse config file: "
                      ++ Error (json_error e data))
                     (json_error e data))
          end
      end
  end.

(** [Save]: the call of [os.WriteFile], with the permission 0600, and
    the error. *)
Definition Save (e : Env) (cfg : Config) : list Effect * option error :=
  match getConfigPath e with
  | inr err => ([], Some err)
  | inl path =>
      let data := MarshalIndent cfg in
      ([EvWriteFile path data 384],
       match WriteFile e path data 384 with
       | Some err =>
           Some (wrapError ("failed to write config file: " ++ Error err) err)
       | None => None
       end)
  end.

(** [GetAPIKey]. *)
Definition GetAPIKey (e : Env) : string :=
  (* First check env var *)
  let key := Getenv e "AHREFS_API_KEY" in
  if negb (key =? "")%string then key
  else
    (* Then check config file *)
    match Load e with
    | inr _ => ""
    | inl cfg => APIKey cfg
    end.

End config.

(** ** Package config of the commands (cmd/config) *)

Module cmd_config.

(** [maskAPIKey]. *)
Definition maskAPIKey (key : string) : string :=
  if (String.length key <=? 8)%nat then "****"
  else
    substring 0 4 key ++ "****" ++ substring (String.length key - 4) 4 key.

(** [RunE] of [set-key], on its one argument. *)
Definition setKey_RunE (e : config.Env) (apiKey : string)
  : list Effect * option error :=
  match config.Save e (config.mkConfig apiKey) with
  | (effects, Some err) =>
      (effects, Some (wrapError ("failed to save config: " ++ Error err) err))
  | (effects, None) =>
      ((effects ++ [EvPrint ("API key saved successfully" ++ NL)])%list, None)
  end.

(** [RunE] of [show]. *)
Definition show_RunE (e : config.Env) : list Effect * option error :=
  match config.Load e with
  | inr err =>
      ([], Some (wrapError ("failed to load config: " ++ Error err) err))
  | inl cfg =>
      if (config.APIKey cfg =? "")%string then
        ([EvPrint ("No API key configured" ++ NL);
          EvPrint ("Set one with: ahrefs config set-key <your-key>" ++ NL)],
         None)
      else
        (* Mask the API key *)
        ([EvPrint ("API Key: " ++ maskAPIKey (config.APIKey cfg) ++ NL)], None)
  end.

(** [RunE] of [validate]. *)
Definition validate_RunE (e : config.Env) : list Effect * option error :=
  if (config.GetAPIKey e =? "")%string then
    ([],
     Some (errorString
             "no API key configured. Use 'ahrefs config set-key <key>'"))
  else
    ([EvPrint ("API key validation not yet implemented" ++ NL);
      EvPrint ("Will test with a lightweight API request in the future" ++ NL)],
     None).

End cmd_config.

(** ** Package cmd: the global flags *)

Module cmd.

Record GlobalFlags : Type := mkGlobalFlags {
  APIKey : string;
  OutputFormat : string;
  OutputFile : string;
  Verbose : bool;
  Quiet : bool;
  DryRun : bool
}.

End cmd.

(** ** Package siteexplorer: the run functions *)

Module siteexplorer.

(** What a run meets outside: the environment of the config package, the
    library of the client, the network by the number of the attempt,
    [os.Create] and the [Close] of a file by their errors,
    [json.Unmarshal] of a body into the model of a name, and the
    libraries of the renderer. *)
Record Host : Type := mkHost {
  env : config.Env;
  lib : Lib;
  net : Z -> HTTPRequest -> RoundTrip;
  create : string -> option error;
  close : string -> option error;
  decode : string -> string -> Value + error;
  Sprint_composite : Value -> string;
  csv_record : list string -> string;
  tabwriter : string -> string;
  json_payload : nat -> Value -> string + error
}.

(** How a run ends: it returns an error, nil or not, or it panics.  A
    panic on the nil writer ends the run at once; a panic of
    [WriteSuccess] still runs the deferred flush of the writer and the
    deferred [Close]. *)
Inductive RunResult : Type :=
  | Done (err : option error)
  | Panicked.

(** [params.Set(key, value)]. *)
Definition Values_Set (key value : string) (params : Values) : Values :=
  (filter (fun kv => negb (fst kv =? key)%string) params
   ++ [(key, [value])])%list.

(** The check mark U+2713 the dry run prints. *)
Definition check_mark : string :=
  String (char_of 226) (String (char_of 156) (String (char_of 147) "")).

(** The world of one run: the network of the host under
    [context.Background()], which is never done. *)
Definition background (h : Host) : World :=
  mkWorld (net h) (fun _ _ => None).

(** The body the run functions share, with the text of the error of a
    missing key, the endpoint, the parameters and the name of the model
    of each. *)
Definition run (h : Host) (flags : cmd.GlobalFlags) (no_key : string)
  (endpoint : string) (params : Values) (model : string)
  : list Effect * RunResult :=
  (* Get API key *)
  let apiKey := cmd.APIKey flags in
  let apiKey :=
    if (apiKey =? "")%string then config.GetAPIKey (env h) else apiKey in
  if (apiKey =? "")%string then ([], Done (Some (errorString no_key)))
  else
    (* Create client *)
    let c := NewClient (mkConfig apiKey "" 0 0) in
    if cmd.DryRun flags then
      ([EvPrint (check_mark ++ " Valid request. Would call: GET " ++ BaseURL
                 ++ endpoint ++ "?" ++ Values_Encode (lib h) params ++ NL)],
       Done None)
    else
      let said :=
        if cmd.Verbose flags
        then [EvPrint ("Requesting: GET " ++ endpoint ++ "?"
                       ++ Values_Encode (lib h) params ++ NL)]
        else [] in
      (* Make request *)
      let (result, events) :=
        Get (lib h) (background h) c endpoint (Some params) in
      let called := (said ++ map EvClient events)%list in
      match result with
      | (_, Some err) =>
          match NewWriter (create h) (cmd.OutputFormat flags)
                  (cmd.OutputFile flags) with
          | (inl (w, sink), created) =>
              ((called ++ created ++ [EvOutput sink (fst (WriteError w err))])
                 %list,
               Done (Some err))
          | (inr _, created) => ((called ++ created)%list, Panicked)
          end
      | (None, None) => (called, Panicked)
      | (Some resp, None) =>
          (* Parse response *)
          match decode h model (Body resp) with
          | inr err =>
              (called,
               Done (Some (wrapError
                             ("failed to parse response: " ++ Error err) err)))
          | inl result =>
              (* Output result *)
              match NewWriter (create h) (cmd.OutputFormat flags)
                      (cmd.OutputFile flags) with
              | (inr err, created) =>
                  ((called ++ created)%list, Done (Some err))
              | (inl (w, sink), created) =>
                  match WriteSuccess (Sprint_composite h) (csv_record h)
                          (tabwriter h) (json_payload h) w result
                          (Some (Meta resp)) with
                  | Returns out err =>
                      ((called ++ created ++ [EvOutput sink out]
                        ++ fst (Close (close h) sink))%list,
                       Done err)
                  | Panics =>
                      ((called ++ created
                        ++ [EvOutput sink
                              (written_at_panic (Sprint_composite h)
                                 (csv_record h) (tabwriter h) w result)]
                        ++ fst (Close (close h) sink))%list,
                       Panicked)
                  end
              end
          end
      end.

(** [runDomainRating]. *)
Definition runDomainRating (h : Host) (flags : cmd.GlobalFlags)
  (target mode date : string) : list Effect * RunResult :=
  let params := Values_Set "target" target [] in
  let params := Values_Set "mode" mode params in
  let params :=
    if negb (date =? "")%string then Values_Set "date" date params
    else params in
  run h flags
    "API key required. Set via --api-key flag, AHREFS_API_KEY env var, or 'ahrefs config set-key'"
    "/site-explorer/domain-rating" params "DomainRatingResponse".




End siteexplorer.

(** ** The vocabulary of the further statements *)

(** A text of ASCII bytes only. *)
Fixpoint all_ascii (s : string) : bool :=
  match s with
  | "" => true
  | String c rest => (byte_of c <? 128) && all_ascii rest
  end.

(** The tree the decoder reads for what the encoder writes of a value:
    a string for a string, a number for an integer, an object with the
    same keys in the same order for a map. *)
Fixpoint to_json (v : jvalue) : json :=
  match v with
  | JVString s => JString s
  | JVInt _ => JNumber
  | JVMap entries =>
      JObject
        ((fix each (l : list (string * jvalue)) : list (string * json) :=
            match l with
            | [] => []
            | (k, x) :: l' => (k, to_json x) :: each l'
            end) entries)
  end.

(** A value of strings and maps whose keys and strings are ASCII. *)
Fixpoint text_only (v : jvalue) : bool :=
  match v with
  | JVString s => all_ascii s
  | JVInt _ => false
  | JVMap entries =>
      (fix each (l : list (string * jvalue)) : bool :=
         match l with
         | [] => true
         | (k, x) :: l' => all_ascii k && text_only x && each l'
         end) entries
  end.

(** The number of values and entries of a value, and how deep its maps
    nest. *)
Fixpoint nodes (v : jvalue) : nat :=
  match v with
  | JVMap entries =>
      S ((fix each (l : list (string * jvalue)) : nat :=
            match l with
            | [] => O
            | (_, x) :: l' => (S (nodes x) + each l')%nat
            end) entries)
  | _ => 1%nat
  end.

Fixpoint nesting (v : jvalue) : Z :=
  match v with
  | JVMap entries =>
      1 + (fix each (l : list (string * jvalue)) : Z :=
             match l with
             | [] => 0
             | (_, x) :: l' => Z.max (nesting x) (each l')
             end) entries
  | _ => 0
  end.

(** The line of an entry of a map at the level [level], and the lines
    after the first, each after its comma. *)
Definition member_line (level : nat) (k : string) (x : jvalue) : string :=
  NL ++ Repeat "  " (S level) ++ json_string k ++ ": "
  ++ json_indented (S level) x.

Fixpoint more_members (level : nat) (l : list (string * jvalue)) : string :=
  match l with
  | [] => ""
  | (k, x) :: l' => "," ++ member_line level k x ++ more_members level l'
  end.

Section JvalueInduction.

Variable P : jvalue -> Prop.
Hypothesis P_string : forall s, P (JVString s).
Hypothesis P_int : forall n, P (JVInt n).
Hypothesis P_map :
  forall entries, Forall (fun kx => P (snd kx)) entries -> P (JVMap entries).

Fixpoint jvalue_nested_ind (v : jvalue) : P v :=
  match v with
  | JVString s => P_string s
  | JVInt n => P_int n
  | JVMap entries =>
      P_map entries
        ((fix each (l : list (string * jvalue))
            : Forall (fun kx => P (snd kx)) l :=
            match l with
            | [] => Forall_nil _
            | kx :: l' => Forall_cons kx (jvalue_nested_ind (snd kx)) (each l')
            end) entries)
  end.

End JvalueInduction.

(** The members the decoder reads for the entries of a map. *)
Definition to_members (l : list (string * jvalue)) : list (string * json) :=
  map (fun kx => (fst kx, to_json (snd kx))) l.

(** A value the parser reads back as the encoder wrote it, whatever the
    indentation and whatever follows. *)
Definition reads_back (v : jvalue) : Prop :=
  forall (fuel : nat) (depth : Z) (level : nat) (s rest : string),
    text_only v = true ->
    (nodes v <= fuel)%nat ->
    depth + nesting v <= maxNestingDepth ->
    skip_space s = json_indented level v ++ rest ->
    parse_value fuel depth s = Some (to_json v, rest).

(** What the error map of [formatError] shows of an error, and the
    errors whose texts are ASCII. *)
Definition shown_code (err : error) : string :=
  match err with
  | errAPI e => Code e
  | _ => ""
  end.

Definition shown_message (err : error) : string :=
  match err with
  | errAPI e => Message e
  | _ => Error err
  end.

Definition ascii_error (err : error) : bool :=
  match err with
  | errAPI e =>
      all_ascii (Code e) && all_ascii (Message e)
      && all_ascii (Suggestion e) && all_ascii (DocsURL e)
  | _ => all_ascii (Error err)
  end.

(** The environment of the scenarios: the home directory [/home/user],
    paths joined with a slash, a file system where only the config file
    may exist and every write succeeds, and the one environment
    variable. *)
Definition scenario_config_path : string := "/home/user/.ahrefsrc".

Definition scenario_env (file : config.ReadResult) (env_key : string)
  : config.Env :=
  {| config.UserHomeDir := inl "/home/user";
     config.filepath_Join := fun dir name => dir ++ "/" ++ name;
     config.ReadFile := fun path =>
       if (path =? scenario_config_path)%string then file
       else config.NotExist (errorString "no such file or directory");
     config.WriteFile := fun _ _ _ => None;
     config.Getenv := fun name =>
       if (name =? "AHREFS_API_KEY")%string then env_key else "";
     config.json_error := fun _ => errorString "invalid character" |}.

Definition no_file : config.ReadResult :=
  config.NotExist (errorString "no such file or directory").

(** A key with bytes the encoder escapes: a quote, a backslash and the
    three characters of HTML. *)
Definition scenario_key : string :=
  "key<" ++ String DQ "&\>-0123456789".

(** The key of a run, by the order of the sources: the flag, then the
    environment variable, then the config file; empty when none has
    one or the config file cannot be loaded. *)
Definition key_by_precedence (flags : cmd.GlobalFlags) (e : config.Env)
  : string :=
  if negb (cmd.APIKey flags =? "")%string then cmd.APIKey flags
  else if negb (config.Getenv e "AHREFS_API_KEY" =? "")%string
  then config.Getenv e "AHREFS_API_KEY"
  else
    match config.Load e with
    | inl cfg => config.APIKey cfg
    | inr _ => ""
    end.

(** The client of a run. *)
Definition run_client (h : siteexplorer.Host) (flags : cmd.GlobalFlags)
  : Client :=
  NewClient (mkConfig (key_by_precedence flags (siteexplorer.env h)) "" 0 0).

(** The line a verbose run prints before the request. *)
Definition verbose_line (h : siteexplorer.Host) (flags : cmd.GlobalFlags)
  (endpoint : string) (params : Values) : list Effect :=
  if cmd.Verbose flags
  then [EvPrint ("Requesting: GET " ++ endpoint ++ "?"
                 ++ Values_Encode (siteexplorer.lib h) params ++ NL)]
  else [].

(** The requests among the effects of a run, and the effects that reach
    outside the process: requests, files created, bytes written. *)
Fixpoint requests_of (effects : list Effect) : list HTTPRequest :=
  match effects with
  | [] => []
  | EvClient (EvRequest _ r) :: effects' => r :: requests_of effects'
  | _ :: effects' => requests_of effects'
  end.

Definition stays_local (ef : Effect) : bool :=
  match ef with
  | EvPrint _ => true
  | _ => false
  end.

(** The envelope of an error that is shown by its message alone. *)
Definition message_envelope (err : error) : string :=
  Encode
    (JVMap [("error", JVMap [("message", JVString (Error err))]);
            ("status", JVString "error")]).

(** A library that parses every URL and writes a query as it is, and the
    host of the scenarios on a network and a file system. *)
Definition plain_query (params : Values) : string :=
  Join (map (fun kv => fst kv ++ "=" ++ Join (snd kv) ",") params) "&".

Definition open_lib : Lib :=
  {| Unmarshal := json_Unmarshal;
     Sscanf_d := fun _ => None;
     url_Parse := fun raw => inl (mkURL raw "");
     Values_Encode := plain_query;
     URL_String := fun u => URL_parsed u ++ "?" ++ RawQuery u |}.

Definition scenario_host (net : Z -> HTTPRequest -> RoundTrip)
  (create : string -> option error) : siteexplorer.Host :=
  {| siteexplorer.env := scenario_env no_file "";
     siteexplorer.lib := open_lib;
     siteexplorer.net := net;
     siteexplorer.create := create;
     siteexplorer.close := fun _ => None;
     siteexplorer.decode := fun _ _ => inl domain_rating_payload;
     siteexplorer.Sprint_composite := no_composite;
     siteexplorer.csv_record := plain_csv_record;
     siteexplorer.tabwriter := tabs_as_they_are;
     siteexplorer.json_payload := no_json |}.

Definition net_404 (attempt : Z) (r : HTTPRequest) : RoundTrip :=
  Responded 404 "not here" [] 12.

Definition net_200 (attempt : Z) (r : HTTPRequest) : RoundTrip :=
  Responded 200 "{}" [] 12.

Definition creates_all (path : string) : option error := None.

Definition flags_of (key format : string) : cmd.GlobalFlags :=
  cmd.mkGlobalFlags key format "" false false false.

(** The runs of the scenarios: the hosts whose server answers 404 and
    200, the flags of a key with the formats [yaml] and [csv], the
    parameters of a request for anchors, and the error of the client
    after the 404. *)
Definition host_404 : siteexplorer.Host := scenario_host net_404 creates_all.
Definition host_200 : siteexplorer.Host := scenario_host net_200 creates_all.
Definition yaml_flags : cmd.GlobalFlags := flags_of "test-key" "yaml".
Definition csv_flags : cmd.GlobalFlags := flags_of "test-key" "csv".
Definition anchors_params : Values := [("target", ["example.com"])].
Definition error_404 : error :=
  retriesError (NewClient (mkConfig "test-key" "" 0 0))
    (Some (errAPI (parseError open_lib 404 "not here"))).
Definition anchors_request : HTTPRequest :=
  mkHTTPRequest "GET"
    "https://api.ahrefs.com/v3/site-explorer/anchors?target=example.com"
    [("Authorization", "Bearer test-key");
     ("Accept", "application/json");
     ("User-Agent", "ahrefs-cli/0.1.0")].



(** [Values.Encode] on values that need no escaping: the pairs in the
    order of the keys, and the host of the scenarios with it. *)
Definition sorted_query (params : Values) : string :=
  plain_query
    (fold_right (fun kv sorted => map_set (fst kv) (snd kv) sorted) [] params).

Definition sorting_host : siteexplorer.Host :=
  {| siteexplorer.env := scenario_env no_file "";
     siteexplorer.lib :=
       {| Unmarshal := json_Unmarshal;
          Sscanf_d := fun _ => None;
          url_Parse := fun raw => inl (mkURL raw "");
          Values_Encode := sorted_query;
          URL_String := fun u => URL_parsed u ++ "?" ++ RawQuery u |};
     siteexplorer.net := net_200;
     siteexplorer.create := creates_all;
     siteexplorer.close := fun _ => None;
     siteexplorer.decode := fun _ _ => inl domain_rating_payload;
     siteexplorer.Sprint_composite := no_composite;
     siteexplorer.csv_record := plain_csv_record;
     siteexplorer.tabwriter := tabs_as_they_are;
     siteexplorer.json_payload := no_json |}.

Definition dry_flags : cmd.GlobalFlags :=
  cmd.mkGlobalFlags "test-key" "json" "" false false true.

(** The units a response reports, by the words of the documentation:
    the number its header [X-API-Units-Consumed] parses to, zero when
    the header is absent or empty or does not parse. *)
Definition header_units (L : Lib) (headers : Header) : Z :=
  match Header_Get headers "X-API-Units-Consumed" with
  | "" => 0
  | units =>
      match Sscanf_d L units with
      | Some unitsInt => unitsInt
      | None => 0
      end
  end.

(** The attempt numbered [j] with the request [r] fails and is to be
    retried: it ends with an error and with no response of a status
    from 400 to 499 other than 429. *)
Definition retried (L : Lib) (W : World) (c : Client) (r : HTTPRequest)
  (j : Z) : bool :=
  match doRequest L W c j (req_Method r) (req_URL r) with
  | (resp, Some _) => negb (stops_retrying resp)
  | (_, None) => false
  end.

(** A server that answers 200 and reports 42 units, and a library
    whose [Sscanf] reads that number. *)
Definition world_units : World :=
  {| roundTrip := fun _ _ =>
       Responded 200 "{}" [("X-Api-Units-Consumed", ["42"])] 12;
     ctxDone := fun _ _ => None |}.

Definition units_lib : Lib :=
  {| Unmarshal := json_Unmarshal;
     Sscanf_d := fun units => if (units =? "42")%string then Some 42 else None;
     url_Parse := fun raw => inl (mkURL raw "");
     Values_Encode := plain_query;
     URL_String := fun u => URL_parsed u ++ "?" ++ RawQuery u |}.

(** * Theorems *)

(** ** Error classification *)

Lemma length_zero_empty (s : string) :
  (String.length s =? 0)%nat = (s =? "")%string.
Proof. destruct s; reflexivity. Qed.

(** The message [parseError] settles on before the overlay of code and
    suggestion, and the overlay leaves it alone. *)
Lemma parseError_Message (L : Lib) (statusCode : Z) (body : string) :
  Message (parseError L statusCode body) =
    if (parsed_message L body =? "")%string
    then (if (body =? "")%string then StatusText statusCode else body)
    else parsed_message L body.
Proof.
  unfold parseError, parsed_message.
  rewrite length_zero_empty.
  destruct (Unmarshal L body) as [errResp|];
    [destruct (Error_Message errResp =? "")%string|];
    repeat match goal with
      | |- context [if ?b then _ else _] =>
          lazymatch b with
          | (_ =? _)%Z => destruct b
          | (_ || _)%bool => destruct b
          end
      end; reflexivity.
Qed.

Ltac split_status statusCode :=
  destruct (Z.eqb_spec statusCode 401) as [->|];
  [|destruct (Z.eqb_spec statusCode 403) as [->|];
    [|destruct (Z.eqb_spec statusCode 429) as [->|];
      [|destruct (Z.eqb_spec statusCode 400) as [->|];
        [|destruct (Z.eqb_spec statusCode 404) as [->|]]]]].

(** C1, as the code has it.  For every library [L], status and body, the
    code of [parseError] is AUTH_ERROR on 401 and 403, RATE_LIMIT_ERROR on
    429, VALIDATION_ERROR on 400 and NOT_FOUND on 404; on every other
    status it is the [error.code] of the body when the body decodes with a
    message that is not empty, and empty otherwise.  The suggestion is
    set exactly on the five recognized statuses, and the documentation URL
    is empty on every other status. *)
Theorem parseError_code_and_suggestion (L : Lib) (statusCode : Z) (body : string) :
  let e := parseError L statusCode body in
  APIError_StatusCode e = statusCode
  /\ Code e =
       (if (statusCode =? 401) || (statusCode =? 403) then "AUTH_ERROR"
        else if statusCode =? 429 then "RATE_LIMIT_ERROR"
        else if statusCode =? 400 then "VALIDATION_ERROR"
        else if statusCode =? 404 then "NOT_FOUND"
        else parsed_code L body)
  /\ (Suggestion e =? "")%string = negb (recognized statusCode)
  /\ (if recognized statusCode then True else DocsURL e = "").
Proof.
  cbv zeta. unfold parseError, parsed_code, recognized.
  unfold StatusUnauthorized, StatusForbidden, StatusTooManyRequests,
    StatusBadRequest, StatusNotFound.
  split_status statusCode; simpl;
    try (repeat split; reflexivity).
  destruct (Unmarshal L body) as [errResp|];
    [destruct (Error_Message errResp =? "")%string|];
    repeat split; reflexivity.
Qed.

(** C1, the claim as it is written fails: on status 500, with the body
    [{"error":{"code":"UPSTREAM","message":"backend down"}}], the code of
    the returned error is UPSTREAM, not the empty string. *)
Lemma parseError_keeps_body_code_on_500 :
  recognized 500 = false
  /\ Code (parseError scenario_lib 500 body_with_code) = "UPSTREAM"
  /\ Code (parseError scenario_lib 500 body_with_code) <> "".
Proof.
  split; [reflexivity|]. split; [vm_compute; reflexivity|].
  vm_compute. discriminate.
Qed.

(** C3, as the code has it.  For every library [L], status and body, the
    message is the [error.message] of the body when the body decodes and
    that message is not empty, otherwise the body when it is not empty,
    otherwise [http.StatusText] of the status; it is empty exactly when
    the body offers no message, the body is empty and Go has no text for
    the status. *)
Theorem parseError_message_fallback (L : Lib) (statusCode : Z) (body : string) :
  let e := parseError L statusCode body in
  Message e =
    (if (parsed_message L body =? "")%string
     then (if (body =? "")%string then StatusText statusCode else body)
     else parsed_message L body)
  /\ (Message e = ""
      <-> parsed_message L body = "" /\ body = ""
          /\ StatusText statusCode = "").
Proof.
  cbv zeta. rewrite parseError_Message. split; [reflexivity|].
  destruct (String.eqb_spec (parsed_message L body) "") as [Hm|Hm].
  - destruct (String.eqb_spec body "") as [Hb|Hb].
    + tauto.
    + split; [intros H; contradiction | intros (_ & H & _); contradiction].
  - split; [intros H; contradiction | intros (H & _); contradiction].
Qed.

(** C3, the claim as it is written fails: status 520 is one Go has no
    text for, and with an empty body the message of the returned error is
    empty.  The decoder of the model rejects the empty body, as
    [json.Unmarshal] does. *)
Lemma parseError_empty_message_on_520 :
  json_Unmarshal "" = None
  /\ StatusText 520 = ""
  /\ Message (parseError scenario_lib 520 "") = "".
Proof. repeat split; vm_compute; reflexivity. Qed.

(** ** The executor *)

Section ExecutorFacts.

Variable L : Lib.
Variable W : World.
Variable c : Client.

(** One attempt: a response with an error has a status from 400 on, a
    response without one a status below 400, and there is never
    neither. *)
Lemma doRequest_cases (attempt : Z) (method url : string) :
  match doRequest L W c attempt method url with
  | (Some resp, None) => StatusCode resp < 400
  | (Some resp, Some _) => 400 <= StatusCode resp
  | (None, Some _) => True
  | (None, None) => False
  end.
Proof.
  unfold doRequest.
  destruct (roundTrip W attempt (newRequest c method url)); simpl; trivial.
  destruct (Z.leb_spec 400 status); simpl; lia.
Qed.

Lemma doRequest_responded (attempt : Z) (method url : string)
  (status : Z) (body : string) (headers : Header) (elapsed : Z) :
  roundTrip W attempt (newRequest c method url)
    = Responded status body headers elapsed ->
  exists resp,
    doRequest L W c attempt method url
      = (Some resp,
         if 400 <=? status then Some (errAPI (parseError L status body))
         else None)
    /\ StatusCode resp = status /\ Body resp = body
    /\ Headers resp = headers /\ ResponseTimeMS (Meta resp) = elapsed.
Proof.
  intros H. unfold doRequest. rewrite H.
  destruct (400 <=? status); eexists; (split; [reflexivity|]); simpl;
    repeat split;
    destruct (negb (Header_Get headers "X-API-Units-Consumed" =? "")%string);
    try destruct (Sscanf_d L _); reflexivity.
Qed.

(** Whatever the loop meets, it ends with a response of status below 400
    and no error, or with an error and no response. *)
Lemma Do_loop_result (method url : string) (fuel : nat) :
  forall (attempt : Z) (lastErr : option error),
  match fst (Do_loop L W c method url fuel attempt lastErr) with
  | (Some resp, None) => StatusCode resp < 400
  | (None, Some _) => True
  | _ => False
  end.
Proof.
  induction fuel as [|fuel IH]; intros attempt lastErr; simpl; trivial.
  destruct (attempt <=? maxRetries c); simpl; trivial.
  destruct (if 0 <? attempt then ctxDone W attempt (backoff attempt) else None);
    simpl; trivial.
  pose proof (doRequest_cases attempt method url) as Hc.
  destruct (doRequest L W c attempt method url) as [[resp|] [err|]];
    simpl; trivial.
  - destruct (stops_retrying (Some resp)); simpl; trivial.
    specialize (IH (attempt + 1) (Some err)).
    destruct (Do_loop L W c method url fuel (attempt + 1) (Some err));
      simpl in *; exact IH.
  - specialize (IH (attempt + 1) (Some err)).
    destruct (Do_loop L W c method url fuel (attempt + 1) (Some err));
      simpl in *; exact IH.
Qed.

Lemma Do_result (req : Request) :
  match fst (Do L W c req) with
  | (Some resp, None) => StatusCode resp < 400
  | (None, Some _) => True
  | _ => False
  end.
Proof.
  unfold Do. destruct (apiKey c =? "")%string; simpl; trivial.
  destruct (url_Parse L (baseURL c ++ Endpoint req)); simpl; trivial.
  apply Do_loop_result.
Qed.

(** The wait before a retry is as many seconds as the number of the
    attempt, as long as the product fits a [time.Duration]. *)
Lemma backoff_seconds (attempt : Z) :
  0 <= attempt <= maxBackoffAttempts -> backoff attempt = attempt * Second.
Proof.
  unfold backoff, wrap64, maxBackoffAttempts, Second. intros H.
  rewrite Z.mod_small; lia.
Qed.

(** A status from 500 on does not stop the retries. *)
Lemma server_error_retries (resp : Response) :
  500 <= StatusCode resp -> stops_retrying (Some resp) = false.
Proof.
  intros H. unfold stops_retrying.
  destruct (Z.ltb_spec (StatusCode resp) 500); [lia|].
  now rewrite andb_false_r.
Qed.

(** The loop from attempt [a] on, when the [k] attempts from [a] fail with
    a status from 500 on, the next one answers below 400 and no wait is
    cut short: the response is that answer, after [k + 1] attempts. *)
Lemma Do_loop_until_success (method url : string)
  (status : Z) (body : string) (headers : Header) (elapsed : Z) (k : nat) :
  forall (a : Z) (fuel : nat) (lastErr : option error),
  (k < fuel)%nat ->
  0 <= a ->
  a + Z.of_nat k <= maxRetries c ->
  (forall j, a <= j < a + Z.of_nat k ->
     exists st b h ms,
       roundTrip W j (newRequest c method url) = Responded st b h ms
       /\ 500 <= st) ->
  roundTrip W (a + Z.of_nat k) (newRequest c method url)
    = Responded status body headers elapsed ->
  status < 400 ->
  (forall j, 1 <= j <= a + Z.of_nat k -> ctxDone W j (backoff j) = None) ->
  exists resp,
    fst (Do_loop L W c method url fuel a lastErr) = (Some resp, None)
    /\ StatusCode resp = status /\ Body resp = body
    /\ Headers resp = headers /\ ResponseTimeMS (Meta resp) = elapsed
    /\ attempts (snd (Do_loop L W c method url fuel a lastErr)) = S k.
Proof.
  induction k as [|k IH]; intros a fuel lastErr Hfuel Ha Hmax Hfail Hok Hst Hctx;
    (destruct fuel as [|fuel]; [lia|]); simpl.
  - rewrite Z.add_0_r in *.
    destruct (Z.leb_spec a (maxRetries c)); [|lia].
    assert (Hwait : (if 0 <? a then ctxDone W a (backoff a) else None) = None).
    { destruct (Z.ltb_spec 0 a); [apply Hctx; lia | reflexivity]. }
    rewrite Hwait.
    destruct (doRequest_responded a method url _ _ _ _ Hok)
      as (resp & Hdo & H1 & H2 & H3 & H4).
    rewrite Hdo. destruct (Z.leb_spec 400 status); [lia|]. simpl.
    exists resp. repeat split; trivial.
    destruct (0 <? a); reflexivity.
  - destruct (Z.leb_spec a (maxRetries c)); [|lia].
    assert (Hwait : (if 0 <? a then ctxDone W a (backoff a) else None) = None).
    { destruct (Z.ltb_spec 0 a); [apply Hctx; lia | reflexivity]. }
    rewrite Hwait.
    destruct (Hfail a ltac:(lia)) as (st & b & h & ms & Hrt & H500).
    destruct (doRequest_responded a method url _ _ _ _ Hrt)
      as (resp & Hdo & H1 & _).
    rewrite Hdo. destruct (Z.leb_spec 400 st); [|lia].
    rewrite server_error_retries by lia.
    destruct (IH (a + 1) fuel (Some (errAPI (parseError L st b))))
      as (resp' & Hres & G1 & G2 & G3 & G4 & G5).
    + lia.
    + lia.
    + lia.
    + intros j Hj. apply Hfail. lia.
    + replace (a + 1 + Z.of_nat k) with (a + Z.of_nat (S k)) by lia. exact Hok.
    + exact Hst.
    + intros j Hj. apply Hctx. lia.
    + destruct (Do_loop L W c method url fuel (a + 1)
                  (Some (errAPI (parseError L st b)))) as [res evs].
      simpl in *. exists resp'. repeat split; trivial.
      destruct (0 <? a); simpl; now rewrite G5.
Qed.

(** One iteration of the loop, as [Do_loop] computes it. *)
Lemma Do_loop_step (method url : string) (fuel : nat) (attempt : Z)
  (lastErr : option error) :
  Do_loop L W c method url (S fuel) attempt lastErr =
    if attempt <=? maxRetries c then
      match (if 0 <? attempt then ctxDone W attempt (backoff attempt) else None)
      with
      | Some ctxErr =>
          ((None, Some ctxErr),
           if 0 <? attempt then [EvBackoff attempt (backoff attempt)] else [])
      | None =>
          let waited :=
            if 0 <? attempt then [EvBackoff attempt (backoff attempt)] else [] in
          let sent := EvRequest attempt (newRequest c method url) in
          match doRequest L W c attempt method url with
          | (resp, None) => ((resp, None), (waited ++ [sent])%list)
          | (resp, Some err) =>
              if stops_retrying resp then
                ((None, Some (retriesError c (Some err))),
                 (waited ++ [sent])%list)
              else
                (fst (Do_loop L W c method url fuel (attempt + 1) (Some err)),
                 (waited ++ sent
                  :: snd (Do_loop L W c method url fuel (attempt + 1)
                            (Some err)))%list)
          end
      end
    else ((None, Some (retriesError c lastErr)), []).
Proof.
  simpl. destruct (attempt <=? maxRetries c); trivial.
  destruct (if 0 <? attempt then ctxDone W attempt (backoff attempt) else None);
    trivial.
  destruct (doRequest L W c attempt method url) as [resp [err|]]; trivial.
  destruct (stops_retrying resp); trivial.
  destruct (Do_loop L W c method url fuel (attempt + 1) (Some err)); trivial.
Qed.

(** The first iteration sends attempt 0 without a wait. *)
Lemma Do_loop_first_event (method url : string) (fuel : nat)
  (lastErr : option error) :
  0 <= maxRetries c ->
  exists events,
    snd (Do_loop L W c method url (S fuel) 0 lastErr)
      = EvRequest 0 (newRequest c method url) :: events.
Proof.
  intros H. rewrite Do_loop_step.
  destruct (Z.leb_spec 0 (maxRetries c)); [|lia].
  change (0 <? 0) with false. cbv iota zeta.
  destruct (doRequest L W c 0 method url) as [resp [err|]];
    [destruct (stops_retrying resp)|]; simpl; eexists; reflexivity.
Qed.

(** Every later iteration starts with the select on the timer and the
    context. *)
Lemma Do_loop_retry_waits (method url : string) (fuel : nat) (attempt : Z)
  (lastErr : option error) :
  0 < attempt <= maxRetries c ->
  exists events,
    snd (Do_loop L W c method url (S fuel) attempt lastErr)
      = EvBackoff attempt (backoff attempt) :: events.
Proof.
  intros H. rewrite Do_loop_step.
  destruct (Z.leb_spec attempt (maxRetries c)); [|lia].
  destruct (Z.ltb_spec 0 attempt); [|lia].
  destruct (ctxDone W attempt (backoff attempt)); [eexists; reflexivity|].
  cbv zeta.
  destruct (doRequest L W c attempt method url) as [resp [err|]];
    [destruct (stops_retrying resp)|]; simpl; eexists; reflexivity.
Qed.

(** The events of one more attempt of the schedule. *)
Lemma schedule_succ (r : HTTPRequest) (a : nat) :
  schedule r (S a) =
    (schedule r a
     ++ (if 0 <? Z.of_nat a
         then [EvBackoff (Z.of_nat a) (Z.of_nat a * Second)] else [])
     ++ [EvRequest (Z.of_nat a) r])%list.
Proof. destruct a; reflexivity. Qed.

(** A client with a number of retries other than zero never lets a
    single failed attempt that would be retried be the whole run. *)
Lemma Do_single_attempt_is_final (req : Request) (r : HTTPRequest) :
  maxRetries c <> 0 ->
  snd (Do L W c req) = [EvRequest 0 r] ->
  snd (fst (Do L W c req)) = None
  \/ stops_retrying (fst (doRequest L W c 0 (req_Method r) (req_URL r)))
     = true.
Proof.
  intros Hnz. unfold Do.
  destruct (apiKey c =? "")%string; [discriminate|].
  destruct (url_Parse L (baseURL c ++ Endpoint req)) as [u|err];
    [|discriminate].
  cbv zeta.
  set (method := Method req).
  set (url := URL_String L (withParams L u (Params req))).
  destruct (Z.to_nat (maxRetries c + 1)) as [|[|fuel]] eqn:Hfuel;
    [discriminate | lia |].
  rewrite Do_loop_step.
  destruct (Z.leb_spec 0 (maxRetries c)); [|lia].
  change (0 <? 0) with false. cbv iota zeta.
  destruct (doRequest L W c 0 method url) as [resp [err|]] eqn:Hdo.
  - destruct (stops_retrying resp) eqn:Hstop.
    + simpl. intros [= <-]. right.
      unfold newRequest. simpl req_Method. simpl req_URL.
      now rewrite Hdo.
    + destruct (Do_loop_retry_waits method url fuel (0 + 1) (Some err))
        as (events & Hev); [lia|].
      cbn [snd app]. rewrite Hev. discriminate.
  - simpl. intros _. now left.
Qed.

End ExecutorFacts.

(** What [doRequest] returns for a response: the status, the body and
    the headers as they came, the units of the header, no rate limit and
    the elapsed time; beside it the [APIError] from status 400 on. *)
Lemma doRequest_response (L : Lib) (W : World) (c : Client)
  (attempt : Z) (method url : string)
  (status : Z) (body : string) (headers : Header) (elapsed : Z) :
  roundTrip W attempt (newRequest c method url)
    = Responded status body headers elapsed ->
  doRequest L W c attempt method url
  = (Some (mkResponse status body headers
             (mkResponseMeta (header_units L headers) 0 elapsed)),
     if 400 <=? status then Some (errAPI (parseError L status body))
     else None).
Proof.
  intros H. unfold doRequest, header_units. rewrite H. cbv zeta.
  destruct (Header_Get headers "X-API-Units-Consumed") as [|ch units];
    cbn [String.eqb negb RateLimitRemaining ResponseTimeMS].
  - destruct (400 <=? status); reflexivity.
  - destruct (Sscanf_d L (String ch units)); destruct (400 <=? status);
      reflexivity.
Qed.

(** A loop that leaves no event made no attempt: it returns the error
    of the retries around the error it was entered with. *)
Lemma Do_loop_no_events (L : Lib) (W : World) (c : Client)
  (method url : string) (fuel : nat) (attempt : Z) (lastErr : option error) :
  snd (Do_loop L W c method url fuel attempt lastErr) = [] ->
  fst (Do_loop L W c method url fuel attempt lastErr)
  = (None, Some (retriesError c lastErr)).
Proof.
  destruct fuel as [|fuel]; [reflexivity|]. rewrite Do_loop_step.
  destruct (attempt <=? maxRetries c); [|reflexivity].
  destruct (0 <? attempt).
  - destruct (ctxDone W attempt (backoff attempt)); [discriminate|].
    cbv zeta.
    destruct (doRequest L W c attempt method url) as [resp [err|]];
      [destruct (stops_retrying resp)|]; discriminate.
  - cbv zeta.
    destruct (doRequest L W c attempt method url) as [resp [err|]];
      [destruct (stops_retrying resp)|]; discriminate.
Qed.

(** When the last event of the loop is an attempt, the loop returns
    what this attempt gave: its response with a nil error, or a nil
    response with its error under the text of the retries. *)
Lemma Do_loop_ends_with_request (L : Lib) (W : World) (c : Client)
  (method url : string) (fuel : nat) :
  forall (attempt : Z) (lastErr : option error)
         (pre : list Event) (k : Z) (r : HTTPRequest),
    snd (Do_loop L W c method url fuel attempt lastErr)
      = (pre ++ [EvRequest k r])%list ->
    r = newRequest c method url
    /\ fst (Do_loop L W c method url fuel attempt lastErr)
       = match doRequest L W c k method url with
         | (resp, None) => (resp, None)
         | (_, Some err) => (None, Some (retriesError c (Some err)))
         end.
Proof.
  induction fuel as [|fuel IH]; intros attempt lastErr pre k r.
  { destruct pre; discriminate. }
  rewrite Do_loop_step.
  destruct (attempt <=? maxRetries c); [|destruct pre; discriminate].
  assert (Hlast : forall (waited : list Event) (x y : Event),
            (waited ++ [x])%list = (pre ++ [y])%list -> x = y).
  { intros waited x y H. now apply app_inj_tail in H. }
  destruct (if 0 <? attempt then ctxDone W attempt (backoff attempt) else None)
    as [ctxErr|].
  { destruct (0 <? attempt); cbn [snd]; intros H.
    - apply (Hlast [] _ _) in H. discriminate.
    - destruct pre; discriminate. }
  cbv zeta.
  destruct (doRequest L W c attempt method url) as [resp [err|]] eqn:Hdo;
    [destruct (stops_retrying resp)|]; cbn [fst snd]; intros H.
  - apply Hlast in H. injection H as <- <-. now rewrite Hdo.
  - destruct (snd (Do_loop L W c method url fuel (attempt + 1) (Some err)))
      as [|ev events] eqn:Hev.
    + apply Hlast in H. injection H as <- <-. rewrite Hdo.
      split; [reflexivity|]. now apply Do_loop_no_events.
    + destruct (@exists_last _ (ev :: events) ltac:(discriminate))
        as (pre' & y & Hy).
      rewrite Hy in H, Hev.
      assert (H' : (((if 0 <? attempt
                      then [EvBackoff attempt (backoff attempt)] else [])
                     ++ EvRequest attempt (newRequest c method url) :: pre')
                    ++ [y]
                    = pre ++ [EvRequest k r])%list).
      { rewrite <- H, <- app_assoc. reflexivity. }
      apply app_inj_tail in H'. destruct H' as [_ ->].
      exact (IH (attempt + 1) (Some err) pre' k r Hev).
  - apply Hlast in H. injection H as <- <-. now rewrite Hdo.
Qed.

(** C2, as the code has it.  One attempt that meets a status from 400 on
    does return the response (status, body, headers, and the metadata:
    the units of the header, no rate limit, the elapsed time) and the
    classified [APIError]; [Do] hands on one or the other, never both:
    whatever the world does, [Do] returns a response of status below 400
    with a nil error, or a nil response with an error.  When this attempt
    is the last thing [Do] did, the error is its [APIError] under the
    text of the retries. *)
Theorem doRequest_keeps_response_Do_drops_it (L : Lib) (W : World) (c : Client)
  (attempt : Z) (method url : string)
  (status : Z) (body : string) (headers : Header) (elapsed : Z) :
  roundTrip W attempt (newRequest c method url)
    = Responded status body headers elapsed ->
  400 <= status ->
  doRequest L W c attempt method url
  = (Some (mkResponse status body headers
             (mkResponseMeta (header_units L headers) 0 elapsed)),
     Some (errAPI (parseError L status body)))
  /\ (forall req : Request,
        match fst (Do L W c req) with
        | (Some resp, None) => StatusCode resp < 400
        | (None, Some _) => True
        | _ => False
        end)
  /\ (forall (req : Request) (pre : list Event),
        snd (Do L W c req)
          = (pre ++ [EvRequest attempt (newRequest c method url)])%list ->
        fst (Do L W c req)
        = (None,
           Some (retriesError c (Some (errAPI (parseError L status body)))))).
Proof.
  intros Hrt Hst.
  assert (Hdo : doRequest L W c attempt method url
                = (Some (mkResponse status body headers
                           (mkResponseMeta (header_units L headers) 0 elapsed)),
                   Some (errAPI (parseError L status body)))).
  { rewrite (doRequest_response L W c attempt method url _ _ _ _ Hrt).
    destruct (Z.leb_spec 400 status); [reflexivity | lia]. }
  split; [exact Hdo|]. split; [apply Do_result|].
  intros req pre. unfold Do.
  destruct (apiKey c =? "")%string; [destruct pre; discriminate|].
  destruct (url_Parse L (baseURL c ++ Endpoint req)) as [u|e];
    [|destruct pre; discriminate].
  cbv zeta. intros Hev.
  destruct (Do_loop_ends_with_request L W c _ _ _ _ _ _ _ _ Hev)
    as [Hr Hres].
  rewrite Hres. injection Hr as Hm Hu. rewrite <- Hm, <- Hu, Hdo.
  reflexivity.
Qed.

(** The theorem on the server that answers 404. *)
Lemma doRequest_keeps_response_Do_drops_it_witness :
  doRequest scenario_lib world_404 scenario_client 0 "GET" scenario_url
  = (Some (mkResponse 404 "not here" []
             (mkResponseMeta (header_units scenario_lib []) 0 12)),
     Some (errAPI (parseError scenario_lib 404 "not here")))
  /\ (forall req : Request,
        match fst (Do scenario_lib world_404 scenario_client req) with
        | (Some resp, None) => StatusCode resp < 400
        | (None, Some _) => True
        | _ => False
        end)
  /\ (forall (req : Request) (pre : list Event),
        snd (Do scenario_lib world_404 scenario_client req)
          = (pre ++ [EvRequest 0
                       (newRequest scenario_client "GET" scenario_url)])%list ->
        fst (Do scenario_lib world_404 scenario_client req)
        = (None,
           Some (retriesError scenario_client
                   (Some (errAPI (parseError scenario_lib 404 "not here")))))).
Proof.
  apply (doRequest_keeps_response_Do_drops_it scenario_lib world_404
           scenario_client 0 "GET" scenario_url 404 "not here" [] 12);
    [reflexivity | lia].
Defined.

(** C2, the claim as it is written fails: when the server answers 404,
    [Do] makes one attempt and returns a nil response beside the error,
    which wraps the [APIError] under the text of the retries. *)
Lemma Do_returns_no_response_on_404 :
  fst (Do scenario_lib world_404 scenario_client scenario_request)
    = (None,
       Some (wrapError
               "request failed after 3 retries: API error (404): not here"
               (errAPI (parseError scenario_lib 404 "not here"))))
  /\ attempts (snd (Do scenario_lib world_404 scenario_client scenario_request))
     = 1%nat.
Proof. split; vm_compute; reflexivity. Qed.

(** C4.  For every [N] from 1 to [maxRetries + 1]: when the key is set and
    the URL parses, the server answers the first [N - 1] attempts with a
    status from 500 on and attempt [N] with a status below 400, and no
    wait is cut short by the context, [Do] returns the response of
    attempt [N] with a nil error after exactly [N] attempts. *)
Theorem Do_succeeds_on_attempt_N (L : Lib) (W : World) (c : Client)
  (req : Request) (u : URL) (N : Z)
  (status : Z) (body : string) (headers : Header) (elapsed : Z) :
  apiKey c <> "" ->
  url_Parse L (baseURL c ++ Endpoint req) = inl u ->
  1 <= N <= maxRetries c + 1 ->
  (forall k, 0 <= k < N - 1 ->
     exists st b h ms,
       roundTrip W k (sentRequest L c req u) = Responded st b h ms
       /\ 500 <= st) ->
  roundTrip W (N - 1) (sentRequest L c req u)
    = Responded status body headers elapsed ->
  status < 400 ->
  (forall k, 1 <= k < N -> ctxDone W k (backoff k) = None) ->
  exists resp,
    fst (Do L W c req) = (Some resp, None)
    /\ StatusCode resp = status /\ Body resp = body
    /\ Headers resp = headers /\ ResponseTimeMS (Meta resp) = elapsed
    /\ attempts (snd (Do L W c req)) = Z.to_nat N.
Proof.
  intros Hkey Hurl HN Hfail Hok Hst Hctx. unfold Do.
  destruct (String.eqb_spec (apiKey c) "") as [He|_]; [contradiction|].
  rewrite Hurl. cbv zeta. unfold sentRequest in *.
  destruct (Do_loop_until_success L W c (Method req)
              (URL_String L (withParams L u (Params req)))
              status body headers elapsed (Z.to_nat (N - 1)) 0
              (Z.to_nat (maxRetries c + 1)) None)
    as (resp & H1 & H2 & H3 & H4 & H5 & H6).
  - lia.
  - lia.
  - lia.
  - intros j Hj. apply Hfail. lia.
  - replace (0 + Z.of_nat (Z.to_nat (N - 1))) with (N - 1) by lia. exact Hok.
  - exact Hst.
  - intros j Hj. apply Hctx. lia.
  - exists resp. repeat split; trivial. rewrite H6. lia.
Qed.

(** The theorem on the server of [TestClient_Retries], with [N] = 3. *)
Lemma Do_succeeds_on_attempt_N_witness :
  exists resp,
    fst (Do scenario_lib world_500_500_200 scenario_client scenario_request)
      = (Some resp, None)
    /\ StatusCode resp = 200 /\ Body resp = "ok"
    /\ Headers resp = [] /\ ResponseTimeMS (Meta resp) = 5
    /\ attempts
         (snd (Do scenario_lib world_500_500_200 scenario_client
                 scenario_request))
       = Z.to_nat 3.
Proof.
  apply (Do_succeeds_on_attempt_N scenario_lib world_500_500_200
           scenario_client scenario_request (mkURL scenario_url "") 3
           200 "ok" [] 5).
  - discriminate.
  - reflexivity.
  - simpl; lia.
  - intros k Hk. exists 500, "", [], 3. simpl.
    destruct (Z.ltb_spec k 2); [split; [reflexivity | lia] | lia].
  - reflexivity.
  - lia.
  - intros k Hk. reflexivity.
Defined.

(** C5.  With an empty API key [Do] returns the error [API key is
    required] and a nil response, and nothing happens before: no request,
    no wait, whatever the endpoint, the parameters, the library and the
    world. *)
Theorem Do_requires_api_key (L : Lib) (W : World) (c : Client) (req : Request) :
  apiKey c = "" ->
  Do L W c req = ((None, Some (errorString "API key is required")), []).
Proof. intros H. unfold Do. rewrite H. reflexivity. Qed.

(** The theorem on the client of [TestClient_NoAPIKey]. *)
Lemma Do_requires_api_key_witness :
  apiKey (NewClient (mkConfig "" "" 0 0)) = ""
  /\ Do scenario_lib world_500_500_200 (NewClient (mkConfig "" "" 0 0))
       scenario_request
     = ((None, Some (errorString "API key is required")), []).
Proof.
  split; [reflexivity|].
  apply (Do_requires_api_key scenario_lib world_500_500_200
           (NewClient (mkConfig "" "" 0 0)) scenario_request).
  reflexivity.
Defined.

(** The schedule of [n] attempts starts with the schedule of any
    smaller number. *)
Lemma schedule_prefix (r : HTTPRequest) (m n : nat) :
  (m <= n)%nat -> exists rest, schedule r n = (schedule r m ++ rest)%list.
Proof.
  induction 1 as [|n Hle [rest IH]].
  - exists []. now rewrite app_nil_r.
  - rewrite schedule_succ, IH. rewrite <- app_assoc. eexists. reflexivity.
Qed.

Lemma retried_newRequest (L : Lib) (W : World) (c : Client)
  (method url : string) (j : Z) :
  retried L W c (newRequest c method url) j
  = match doRequest L W c j method url with
    | (resp, Some _) => negb (stops_retrying resp)
    | (_, None) => false
    end.
Proof. reflexivity. Qed.

(** The loop from attempt [a] on, with the whole of its budget: the
    events before it and its own make the schedule of some [n] attempts.
    Every wait of it ran to its end and every attempt but the last was a
    failure to be retried.  The loop stops after attempt [n - 1] because
    that attempt is no such failure or because the budget is spent; or
    attempt [n - 1] is such a failure too, and the wait before attempt
    [n] is cut short, with the error of the context. *)
Lemma Do_loop_trace (L : Lib) (W : World) (c : Client)
  (method url : string) (fuel : nat) :
  maxRetries c <= maxBackoffAttempts ->
  forall (a : nat) (lastErr : option error),
  Z.of_nat a + Z.of_nat fuel = maxRetries c + 1 ->
  exists n : nat,
    (a <= n)%nat
    /\ (forall k, Z.of_nat a <= k < Z.of_nat n -> 1 <= k ->
          ctxDone W k (k * Second) = None)
    /\ (forall j, Z.of_nat a <= j < Z.of_nat n - 1 ->
          retried L W c (newRequest c method url) j = true)
    /\ (((schedule (newRequest c method url) a
          ++ snd (Do_loop L W c method url fuel (Z.of_nat a) lastErr))%list
         = schedule (newRequest c method url) n
         /\ (((a < n)%nat
              /\ retried L W c (newRequest c method url) (Z.of_nat n - 1)
                 = false)
             \/ Z.of_nat n = maxRetries c + 1))
        \/ exists ctxErr,
             (1 <= n)%nat
             /\ Z.of_nat n <= maxRetries c
             /\ ((a < n)%nat ->
                 retried L W c (newRequest c method url) (Z.of_nat n - 1)
                 = true)
             /\ ctxDone W (Z.of_nat n) (Z.of_nat n * Second) = Some ctxErr
             /\ (schedule (newRequest c method url) a
                 ++ snd (Do_loop L W c method url fuel (Z.of_nat a) lastErr))%list
                = (schedule (newRequest c method url) n
                   ++ [EvBackoff (Z.of_nat n) (Z.of_nat n * Second)])%list
             /\ fst (Do_loop L W c method url fuel (Z.of_nat a) lastErr)
                = (None, Some ctxErr)).
Proof.
  intros Hmax. set (r := newRequest c method url).
  induction fuel as [|fuel IH]; intros a lastErr Hinv.
  { exists a. split; [lia|]. split; [intros; lia|]. split; [intros; lia|].
    left. split; [simpl; apply app_nil_r | right; lia]. }
  rewrite Do_loop_step.
  destruct (Z.leb_spec (Z.of_nat a) (maxRetries c)) as [Hle|Hgt]; [|lia].
  assert (Hb : backoff (Z.of_nat a) = Z.of_nat a * Second)
    by (apply backoff_seconds; lia).
  rewrite Hb.
  assert (Hpred : Z.of_nat (S a) - 1 = Z.of_nat a) by lia.
  destruct (if 0 <? Z.of_nat a
            then ctxDone W (Z.of_nat a) (Z.of_nat a * Second) else None)
    as [ctxErr|] eqn:Hsel.
  { destruct (Z.ltb_spec 0 (Z.of_nat a)); [|discriminate].
    exists a. split; [lia|]. split; [intros; lia|]. split; [intros; lia|].
    right. exists ctxErr. split; [lia|]. split; [exact Hle|].
    split; [lia|]. repeat split; trivial. }
  assert (Hwait : forall k, Z.of_nat a <= k < Z.of_nat (S a) -> 1 <= k ->
            ctxDone W k (k * Second) = None).
  { intros k Hk Hk1. assert (k = Z.of_nat a) by lia. subst k.
    destruct (Z.ltb_spec 0 (Z.of_nat a)); [exact Hsel | lia]. }
  assert (Hone : forall res : option Response * option error,
    retried L W c r (Z.of_nat a) = false ->
    exists n : nat,
      (a <= n)%nat
      /\ (forall k, Z.of_nat a <= k < Z.of_nat n -> 1 <= k ->
            ctxDone W k (k * Second) = None)
      /\ (forall j, Z.of_nat a <= j < Z.of_nat n - 1 ->
            retried L W c r j = true)
      /\ (((schedule r a
            ++ snd (res,
                    ((if 0 <? Z.of_nat a
                      then [EvBackoff (Z.of_nat a) (Z.of_nat a * Second)]
                      else [])
                     ++ [EvRequest (Z.of_nat a) r])%list))%list
           = schedule r n
           /\ (((a < n)%nat /\ retried L W c r (Z.of_nat n - 1) = false)
               \/ Z.of_nat n = maxRetries c + 1))
          \/ exists ctxErr,
               (1 <= n)%nat
               /\ Z.of_nat n <= maxRetries c
               /\ ((a < n)%nat -> retried L W c r (Z.of_nat n - 1) = true)
               /\ ctxDone W (Z.of_nat n) (Z.of_nat n * Second) = Some ctxErr
               /\ (schedule r a
                   ++ snd (res,
                           ((if 0 <? Z.of_nat a
                             then [EvBackoff (Z.of_nat a)
                                     (Z.of_nat a * Second)]
                             else [])
                            ++ [EvRequest (Z.of_nat a) r])%list))%list
                  = (schedule r n
                     ++ [EvBackoff (Z.of_nat n) (Z.of_nat n * Second)])%list
               /\ fst (res,
                       ((if 0 <? Z.of_nat a
                         then [EvBackoff (Z.of_nat a) (Z.of_nat a * Second)]
                         else [])
                        ++ [EvRequest (Z.of_nat a) r])%list)
                  = (None, Some ctxErr))).
  { intros res Hnot. exists (S a). split; [lia|]. split; [exact Hwait|].
    split; [intros; lia|]. left. split.
    - simpl snd. now rewrite schedule_succ.
    - left. split; [lia|]. now rewrite Hpred. }
  cbv zeta. fold r.
  pose proof (retried_newRequest L W c method url (Z.of_nat a)) as Hret.
  fold r in Hret.
  destruct (doRequest L W c (Z.of_nat a) method url) as [resp [err|]];
    [destruct (stops_retrying resp)|]; try (apply Hone; exact Hret).
  cbn [negb] in Hret.
  replace (Z.of_nat a + 1) with (Z.of_nat (S a)) by lia.
  destruct (IH (S a) (Some err) ltac:(lia)) as (n & Hn & Hctx & Hretr & Hev).
  assert (Hsched :
    (schedule r a
     ++ (if 0 <? Z.of_nat a
         then [EvBackoff (Z.of_nat a) (Z.of_nat a * Second)]
         else [])
     ++ EvRequest (Z.of_nat a) r
     :: snd (Do_loop L W c method url fuel (Z.of_nat (S a)) (Some err)))%list
    = (schedule r (S a)
       ++ snd (Do_loop L W c method url fuel (Z.of_nat (S a)) (Some err)))%list).
  { rewrite schedule_succ. rewrite <- !app_assoc. reflexivity. }
  assert (Hlastret : (a < n)%nat ->
            (S a < n)%nat \/ retried L W c r (Z.of_nat n - 1) = true).
  { intros _. destruct (Nat.eq_dec n (S a)) as [->|Hne]; [|left; lia].
    right. now rewrite Hpred. }
  exists n. split; [lia|]. split; [|split].
  - intros k Hk Hk1.
    destruct (Z.eq_dec k (Z.of_nat a)) as [->|Hne];
      [apply Hwait; lia | apply Hctx; lia].
  - intros j Hj.
    destruct (Z.eq_dec j (Z.of_nat a)) as [->|Hne];
      [exact Hret | apply Hretr; lia].
  - cbn [fst snd]. rewrite Hsched.
    destruct Hev as [[Hev Hwhy] | (ctxErr & H1 & H2 & H3 & H4 & H5 & H6)].
    + left. split; [exact Hev|].
      destruct Hwhy as [[Hlt Hfalse]|Hall]; [left; split; [lia|exact Hfalse]|].
      right. exact Hall.
    + right. exists ctxErr. split; [exact H1|]. split; [exact H2|].
      split; [|repeat split; assumption].
      intros Hlt. destruct (Hlastret Hlt) as [Hs|Hr];
        [apply H3, Hs | exact Hr].
Qed.

(** C6.  As long as every wait fits a [time.Duration] ([maxRetries] at
    most 9223372036), the events of [Do] are the schedule of some [n]
    attempts: attempt 0 first, without a wait, and before each attempt [k]
    from 1 on the select on a timer of [k] seconds and the context.  All
    the waits of the schedule ran to their end, and every attempt of it
    but the last was a failure to be retried.  Either the run stops
    there, and then because the last attempt was no failure to be
    retried or because it was attempt [maxRetries]; or the last attempt
    was such a failure too and one more select follows, before attempt
    [n], which the context wins: then nothing follows and [Do] returns a
    nil response and the error of the context.  When the key is set, the
    URL parses and [maxRetries] is not negative, attempt 0 is made.

    Read forwards: after [k] attempts that were failures to be retried,
    with [k] from 1 to [maxRetries] and no wait cut short before, [Do]
    selects on a timer of [k] seconds and the context; when the context
    wins it returns the error of the context at once, when the timer
    wins attempt [k] follows. *)
Theorem Do_backoff_schedule (L : Lib) (W : World) (c : Client) (req : Request) :
  maxRetries c <= maxBackoffAttempts ->
  (exists (n : nat) (r : HTTPRequest),
     (forall k, 1 <= k < Z.of_nat n -> ctxDone W k (k * Second) = None)
     /\ (forall j, 0 <= j < Z.of_nat n - 1 -> retried L W c r j = true)
     /\ ((snd (Do L W c req) = schedule r n
          /\ ((1 <= n)%nat ->
              retried L W c r (Z.of_nat n - 1) = false
              \/ Z.of_nat n = maxRetries c + 1))
         \/ exists ctxErr,
              (1 <= n)%nat
              /\ Z.of_nat n <= maxRetries c
              /\ retried L W c r (Z.of_nat n - 1) = true
              /\ ctxDone W (Z.of_nat n) (Z.of_nat n * Second) = Some ctxErr
              /\ snd (Do L W c req)
                 = (schedule r n
                    ++ [EvBackoff (Z.of_nat n) (Z.of_nat n * Second)])%list
              /\ fst (Do L W c req) = (None, Some ctxErr))
     /\ (forall u,
           apiKey c <> "" ->
           url_Parse L (baseURL c ++ Endpoint req) = inl u ->
           0 <= maxRetries c ->
           (1 <= n)%nat /\ r = sentRequest L c req u))
  /\ (forall (u : URL) (k : nat),
        apiKey c <> "" ->
        url_Parse L (baseURL c ++ Endpoint req) = inl u ->
        (1 <= k)%nat ->
        Z.of_nat k <= maxRetries c ->
        (forall j, 0 <= j < Z.of_nat k ->
           retried L W c (sentRequest L c req u) j = true) ->
        (forall j, 1 <= j < Z.of_nat k -> ctxDone W j (j * Second) = None) ->
        match ctxDone W (Z.of_nat k) (Z.of_nat k * Second) with
        | Some ctxErr =>
            Do L W c req
            = ((None, Some ctxErr),
               (schedule (sentRequest L c req u) k
                ++ [EvBackoff (Z.of_nat k) (Z.of_nat k * Second)])%list)
        | None =>
            exists rest,
              snd (Do L W c req)
              = (schedule (sentRequest L c req u) k
                 ++ EvBackoff (Z.of_nat k) (Z.of_nat k * Second)
                 :: EvRequest (Z.of_nat k) (sentRequest L c req u) :: rest)%list
        end).
Proof.
  intros Hmax.
  assert (Hnone : snd (Do L W c req) = [] ->
            apiKey c = ""
            \/ (exists e, url_Parse L (baseURL c ++ Endpoint req) = inr e)
            \/ maxRetries c < 0 ->
            exists (n : nat) (r : HTTPRequest),
              (forall k, 1 <= k < Z.of_nat n -> ctxDone W k (k * Second) = None)
              /\ (forall j, 0 <= j < Z.of_nat n - 1 ->
                    retried L W c r j = true)
              /\ ((snd (Do L W c req) = schedule r n
                   /\ ((1 <= n)%nat ->
                       retried L W c r (Z.of_nat n - 1) = false
                       \/ Z.of_nat n = maxRetries c + 1))
                  \/ exists ctxErr,
                       (1 <= n)%nat
                       /\ Z.of_nat n <= maxRetries c
                       /\ retried L W c r (Z.of_nat n - 1) = true
                       /\ ctxDone W (Z.of_nat n) (Z.of_nat n * Second)
                          = Some ctxErr
                       /\ snd (Do L W c req)
                          = (schedule r n
                             ++ [EvBackoff (Z.of_nat n)
                                   (Z.of_nat n * Second)])%list
                       /\ fst (Do L W c req) = (None, Some ctxErr))
              /\ (forall u,
                    apiKey c <> "" ->
                    url_Parse L (baseURL c ++ Endpoint req) = inl u ->
                    0 <= maxRetries c ->
                    (1 <= n)%nat /\ r = sentRequest L c req u)).
  { intros Hev Hwhy. exists O, (newRequest c "" "").
    split; [intros; lia|]. split; [intros; lia|]. split.
    - left. split; [exact Hev | intros; lia].
    - intros u Hk Hu Hpos. destruct Hwhy as [He|[[e He]|Hneg]].
      + contradiction.
      + rewrite Hu in He. discriminate.
      + lia. }
  destruct (string_dec (apiKey c) "") as [He|Hne].
  { split.
    - apply Hnone; [|left; exact He]. unfold Do. now rewrite He.
    - intros u k Hk. contradiction. }
  destruct (url_Parse L (baseURL c ++ Endpoint req)) as [u|err] eqn:Hurl.
  2:{ split.
      - apply Hnone; [|right; left; now exists err].
        unfold Do. destruct (apiKey c =? "")%string; [reflexivity|].
        now rewrite Hurl.
      - intros u k _ Hu. discriminate. }
  destruct (Z.ltb_spec (maxRetries c) 0) as [Hneg|Hpos].
  { split.
    - apply Hnone; [|right; right; exact Hneg].
      unfold Do. destruct (apiKey c =? "")%string; [reflexivity|].
      rewrite Hurl. cbv zeta.
      destruct (Z.to_nat (maxRetries c + 1)) as [|fuel] eqn:E; [reflexivity|].
      rewrite Do_loop_step.
      destruct (Z.leb_spec 0 (maxRetries c)); [lia | reflexivity].
    - intros u' k _ _ Hk Hle. lia. }
  clear Hnone.
  assert (HDo : Do L W c req
                = Do_loop L W c (Method req)
                    (URL_String L (withParams L u (Params req)))
                    (Z.to_nat (maxRetries c + 1)) 0 None).
  { unfold Do. destruct (String.eqb_spec (apiKey c) ""); [contradiction|].
    now rewrite Hurl. }
  rewrite HDo.
  set (method := Method req) in *.
  set (url := URL_String L (withParams L u (Params req))) in *.
  destruct (Do_loop_trace L W c method url (Z.to_nat (maxRetries c + 1))
              Hmax O None ltac:(lia))
    as (n & _ & Hctx & Hretr & Hev).
  change (Z.of_nat 0) with 0 in Hev, Hctx, Hretr.
  cbn [schedule app] in Hev.
  assert (Hn : (1 <= n)%nat).
  { destruct (Z.to_nat (maxRetries c + 1)) as [|fuel] eqn:Hfuel; [lia|].
    destruct (Do_loop_first_event L W c method url fuel None Hpos)
      as (events & Hfirst).
    rewrite Hfirst in Hev.
    destruct n as [|n]; [|lia].
    destruct Hev as [[Hev _] | (ctxErr & Hn & _)]; [discriminate Hev | lia]. }
  assert (Hsent : sentRequest L c req u = newRequest c method url)
    by reflexivity.
  split.
  - exists n, (newRequest c method url).
    split; [intros k Hk; apply Hctx; lia|].
    split; [exact Hretr|]. split.
    + destruct Hev as [[Hev Hwhy] | (ctxErr & H1 & H2 & H3 & H4 & H5 & H6)].
      * left. split; [exact Hev|]. intros _.
        destruct Hwhy as [[_ Hfalse]|Hall]; [left | right]; assumption.
      * right. exists ctxErr. repeat split; trivial. apply H3. lia.
    + intros u' _ [= <-] _. split; [exact Hn | reflexivity].
  - intros u' k _ [= <-] Hk Hkmax Hfail Hwaits. rewrite Hsent in *.
    assert (Hnk : (k <= n)%nat
                  /\ (n = k ->
                      exists ctxErr,
                        ctxDone W (Z.of_nat k) (Z.of_nat k * Second)
                          = Some ctxErr
                        /\ Do_loop L W c method url
                             (Z.to_nat (maxRetries c + 1)) 0 None
                           = ((None, Some ctxErr),
                              (schedule (newRequest c method url) k
                               ++ [EvBackoff (Z.of_nat k)
                                     (Z.of_nat k * Second)])%list))
                  /\ ((k < n)%nat ->
                      exists rest,
                        snd (Do_loop L W c method url
                               (Z.to_nat (maxRetries c + 1)) 0 None)
                        = (schedule (newRequest c method url) (S k)
                           ++ rest)%list)).
    { destruct Hev as [[Hev Hwhy] | (ctxErr & H1 & H2 & H3 & H4 & H5 & H6)].
      - assert (Hlt : (k < n)%nat).
        { destruct Hwhy as [[_ Hfalse]|Hall]; [|lia].
          destruct (Nat.lt_ge_cases k n) as [|Hge]; [assumption|].
          rewrite Hfail in Hfalse by lia. discriminate. }
        split; [lia|]. split; [lia|]. intros _. rewrite Hev.
        apply schedule_prefix. lia.
      - assert (Hle : (k <= n)%nat).
        { destruct (Nat.le_gt_cases k n) as [|Hgt]; [assumption|].
          rewrite Hwaits in H4 by lia. discriminate. }
        split; [exact Hle|]. split.
        + intros ->. exists ctxErr. split; [exact H4|].
          rewrite <- H5, <- H6. now destruct (Do_loop _ _ _ _ _ _ _ _).
        + intros Hlt. rewrite H5.
          destruct (schedule_prefix (newRequest c method url) (S k) n Hlt)
            as [rest Hrest].
          rewrite Hrest, <- app_assoc. eexists. reflexivity. }
    destruct Hnk as (Hle & Heq & Hlt).
    destruct (Nat.eq_dec n k) as [E|E].
    + destruct (Heq E) as (ctxErr & Hc & Hres). now rewrite Hc.
    + rewrite (Hctx (Z.of_nat k)) by lia.
      destruct (Hlt ltac:(lia)) as [rest Hrest]. exists rest.
      rewrite Hrest, schedule_succ.
      destruct (Z.ltb_spec 0 (Z.of_nat k)); [|lia].
      rewrite <- !app_assoc. reflexivity.
Qed.

(** The theorem on a client with three retries, a server that answers
    503 and a context done during the second wait. *)
Lemma Do_backoff_schedule_witness :
  (exists (n : nat) (r : HTTPRequest),
     (forall k, 1 <= k < Z.of_nat n ->
        ctxDone world_cancelled k (k * Second) = None)
     /\ (forall j, 0 <= j < Z.of_nat n - 1 ->
           retried scenario_lib world_cancelled scenario_client r j = true)
     /\ ((snd (Do scenario_lib world_cancelled scenario_client
                 scenario_request) = schedule r n
          /\ ((1 <= n)%nat ->
              retried scenario_lib world_cancelled scenario_client r
                (Z.of_nat n - 1) = false
              \/ Z.of_nat n = maxRetries scenario_client + 1))
         \/ exists ctxErr,
              (1 <= n)%nat
              /\ Z.of_nat n <= maxRetries scenario_client
              /\ retried scenario_lib world_cancelled scenario_client r
                   (Z.of_nat n - 1) = true
              /\ ctxDone world_cancelled (Z.of_nat n) (Z.of_nat n * Second)
                 = Some ctxErr
              /\ snd (Do scenario_lib world_cancelled scenario_client
                        scenario_request)
                 = (schedule r n
                    ++ [EvBackoff (Z.of_nat n) (Z.of_nat n * Second)])%list
              /\ fst (Do scenario_lib world_cancelled scenario_client
                        scenario_request)
                 = (None, Some ctxErr))
     /\ (forall u,
           apiKey scenario_client <> "" ->
           url_Parse scenario_lib (baseURL scenario_client
                                   ++ Endpoint scenario_request) = inl u ->
           0 <= maxRetries scenario_client ->
           (1 <= n)%nat
           /\ r = sentRequest scenario_lib scenario_client scenario_request u))
  /\ (forall (u : URL) (k : nat),
        apiKey scenario_client <> "" ->
        url_Parse scenario_lib (baseURL scenario_client
                                ++ Endpoint scenario_request) = inl u ->
        (1 <= k)%nat ->
        Z.of_nat k <= maxRetries scenario_client ->
        (forall j, 0 <= j < Z.of_nat k ->
           retried scenario_lib world_cancelled scenario_client
             (sentRequest scenario_lib scenario_client scenario_request u) j
           = true) ->
        (forall j, 1 <= j < Z.of_nat k ->
           ctxDone world_cancelled j (j * Second) = None) ->
        match ctxDone world_cancelled (Z.of_nat k) (Z.of_nat k * Second) with
        | Some ctxErr =>
            Do scenario_lib world_cancelled scenario_client scenario_request
            = ((None, Some ctxErr),
               (schedule
                  (sentRequest scenario_lib scenario_client scenario_request u)
                  k
                ++ [EvBackoff (Z.of_nat k) (Z.of_nat k * Second)])%list)
        | None =>
            exists rest,
              snd (Do scenario_lib world_cancelled scenario_client
                     scenario_request)
              = (schedule
                   (sentRequest scenario_lib scenario_client scenario_request
                      u) k
                 ++ EvBackoff (Z.of_nat k) (Z.of_nat k * Second)
                 :: EvRequest (Z.of_nat k)
                      (sentRequest scenario_lib scenario_client
                         scenario_request u) :: rest)%list
        end).
Proof.
  apply (Do_backoff_schedule scenario_lib world_cancelled scenario_client
           scenario_request).
  vm_compute. discriminate.
Defined.

(** That run, event by event: two attempts, a wait of one second between
    them, and the second wait, of two seconds, cut short by the
    context. *)
Example Do_cancelled_in_second_wait :
  Do scenario_lib world_cancelled scenario_client scenario_request
  = ((None, Some (errorString "context deadline exceeded")),
     [ EvRequest 0 (newRequest scenario_client "GET" scenario_url);
       EvBackoff 1 (1 * Second);
       EvRequest 1 (newRequest scenario_client "GET" scenario_url);
       EvBackoff 2 (2 * Second) ]).
Proof. vm_compute. reflexivity. Qed.

(** C10.  [NewClient] keeps the key and replaces a zero field by its
    default: [MaxRetries] 0 by 3, [Timeout] 0 by 60 seconds, an empty
    [BaseURL] by the base URL of the API.  So the number of retries of a
    client it builds is never zero, and such a client never stops after a
    single attempt whose failure the loop retries: when the only event of
    [Do] is attempt 0, that attempt returned no error or a status from
    400 to 499 other than 429. *)
Theorem NewClient_defaults (cfg : Config) :
  let c := NewClient cfg in
  apiKey c = APIKey cfg
  /\ maxRetries c = (if MaxRetries cfg =? 0 then 3 else MaxRetries cfg)
  /\ httpClient_Timeout c
     = (if Timeout cfg =? 0 then 60 * 1000000000 else Timeout cfg)
  /\ baseURL c
     = (if (Config_BaseURL cfg =? "")%string
        then "https://api.ahrefs.com/v3" else Config_BaseURL cfg)
  /\ maxRetries c <> 0
  /\ (forall (L : Lib) (W : World) (req : Request) (r : HTTPRequest),
        snd (Do L W c req) = [EvRequest 0 r] ->
        snd (fst (Do L W c req)) = None
        \/ stops_retrying
             (fst (doRequest L W c 0 (req_Method r) (req_URL r))) = true).
Proof.
  cbv zeta.
  assert (Hnz : maxRetries (NewClient cfg) <> 0).
  { unfold NewClient. simpl.
    destruct (Z.eqb_spec (MaxRetries cfg) 0); [discriminate | assumption]. }
  repeat split; trivial.
  intros L W req r. apply Do_single_attempt_is_final. exact Hnz.
Qed.

(** ** The renderer *)

Lemma string_app_assoc (a b d : string) : ((a ++ b) ++ d = a ++ b ++ d)%string.
Proof. induction a as [|ch a IH]; simpl; [reflexivity | now rewrite IH]. Qed.

Lemma string_app_nil_r (a : string) : (a ++ "" = a)%string.
Proof. induction a as [|ch a IH]; simpl; [reflexivity | now rewrite IH]. Qed.

Lemma render_lines_app (l1 l2 : list Line) :
  render_lines (l1 ++ l2) = render_lines l1 ++ render_lines l2.
Proof.
  induction l1 as [|[depth text] l1 IH]; simpl; [reflexivity|].
  rewrite IH. now rewrite !string_app_assoc.
Qed.

Lemma deeper_lines (depth : nat) (lines : list Line) :
  Forall (fun l => (S depth <= fst l)%nat) lines ->
  Forall (fun l => (depth <= fst l)%nat) lines.
Proof. apply Forall_impl. intros l H. lia. Qed.

Lemma writeYAMLValue_render (v : Value) :
  forall depth : nat,
    writeYAMLValue v depth = render_lines (yaml_lines v depth)
    /\ Forall (fun l => (depth <= fst l)%nat) (yaml_lines v depth).
Proof.
  induction v as [ | text | ei entries HF | ei elems HF | fields HF ]
    using Value_nested_ind; intros depth.
  - split; [reflexivity | repeat constructor].
  - split; [reflexivity | repeat constructor].
  - induction HF as [|[key x] l Hx HF IH].
    + split; [reflexivity | constructor].
    + destruct (Hx (S depth)) as [E1 F1]. destruct IH as [E2 F2].
      simpl in *. split.
      * rewrite render_lines_app, <- E1, <- E2.
        now rewrite !string_app_assoc.
      * constructor; [simpl; lia|].
        apply Forall_app. split; [now apply deeper_lines | exact F2].
  - induction HF as [|x l Hx HF IH].
    + split; [reflexivity | constructor].
    + destruct (Hx (S depth)) as [E1 F1]. destruct IH as [E2 F2].
      simpl in *. split.
      * rewrite render_lines_app, <- E1, <- E2. reflexivity.
      * constructor; [simpl; lia|].
        apply Forall_app. split; [now apply deeper_lines | exact F2].
  - induction HF as [|[field x] l Hx HF IH].
    + split; [reflexivity | constructor].
    + destruct (Hx (S depth)) as [E1 F1]. destruct IH as [E2 F2].
      simpl in *. destruct (IsExported field); simpl; split; trivial.
      * rewrite render_lines_app, <- E1, <- E2.
        now rewrite !string_app_assoc.
      * constructor; [simpl; lia|].
        apply Forall_app. split; [now apply deeper_lines | exact F2].
Qed.

(** C8, as the code has it.  The dump of a value at a depth is the text
    of [yaml_lines]: every key of a map and every exported field of a
    struct is a header [key:] on a line of its own, every element of a
    sequence a line [-], each followed by the lines of its value one
    level deeper, and no line of the dump of a value is less deep than the
    value.  A scalar is a line of its own at the depth of the value: under
    a key, under an exported field and under the dash of an element it
    stands on the next line, one level deeper, not beside the header. *)
Theorem writeYAMLValue_lines :
  (forall (v : Value) (depth : nat),
     writeYAMLValue v depth = render_lines (yaml_lines v depth)
     /\ Forall (fun l => (depth <= fst l)%nat) (yaml_lines v depth))
  /\ (forall (text : string) (depth : nat),
        writeYAMLValue (VScalar text) depth = Repeat "  " depth ++ text ++ NL)
  /\ (forall (ei : bool) (key text : string) (depth : nat),
        writeYAMLValue (VMap ei [(key, VScalar text)]) depth
        = Repeat "  " depth ++ key ++ ":" ++ NL
          ++ Repeat "  " (S depth) ++ text ++ NL)
  /\ (forall (field : StructField) (text : string) (depth : nat),
        IsExported field = true ->
        writeYAMLValue (VStruct [(field, VScalar text)]) depth
        = Repeat "  " depth ++ Name field ++ ":" ++ NL
          ++ Repeat "  " (S depth) ++ text ++ NL)
  /\ (forall (ei : bool) (text : string) (depth : nat),
        writeYAMLValue (VSlice ei [VScalar text]) depth
        = Repeat "  " depth ++ "-" ++ NL
          ++ Repeat "  " (S depth) ++ text ++ NL).
Proof.
  split; [intros v depth; apply writeYAMLValue_render|].
  split; [reflexivity|].
  repeat split; intros; cbn [writeYAMLValue];
    try match goal with H : IsExported _ = true |- _ => rewrite H end;
    rewrite !string_app_nil_r, ?string_app_assoc; reflexivity.
Qed.

(** C8, the claim as it is written fails: the scalar of a map entry is
    not printed beside its key.  The dump of [{name: ahrefs.com}] at depth
    1 is the header [name:] and, on the next line and one level deeper,
    the scalar. *)
Lemma writeYAMLValue_scalar_below_its_key :
  writeYAMLValue yaml_payload 1
    = "  name:" ++ NL ++ "    ahrefs.com" ++ NL
  /\ writeYAMLValue yaml_payload 1 <> "  name: ahrefs.com" ++ NL
  /\ yaml_lines yaml_payload 1 = [(1%nat, "name:"); (2%nat, "ahrefs.com")].
Proof.
  split; [vm_compute; reflexivity|].
  split; [vm_compute; discriminate | reflexivity].
Qed.

(** The YAML output of a success starts with the line [status: success],
    whatever the payload. *)
Lemma writeYAML_header (w : Writer) (data : Value) (meta : option ResponseMeta) :
  prefix "status: success" (fst (writeYAML w data meta)) = true.
Proof. reflexivity. Qed.

(** C7, as the code has it.  Whatever the format of the writer,
    [WriteError] writes the indented JSON envelope of the error, with the
    keys [error] and [status], and returns no error: the same bytes as a
    writer of format json. *)
Theorem WriteError_is_json_in_every_format (w : Writer) (err : error) :
  WriteError w err = (error_envelope (formatError err), None)
  /\ WriteError w err = WriteError (mkWriter FormatJSON) err.
Proof.
  split; [|reflexivity].
  unfold WriteError, error_envelope, Encode. f_equal.
  change (map_set "error" (JVMap (formatError err))
            (map_set "status" (JVString "error") []))
    with [("error", JVMap (formatError err)); ("status", JVString "error")].
  cbn [json_indented Repeat].
  change (json_string "error") with (quoted "error").
  change (json_string "status") with (quoted "status").
  rewrite !string_app_assoc. reflexivity.
Qed.

(** C7, the claim as it is written fails: under the format yaml the error
    is not rendered by the YAML engine.  [WriteError] writes the JSON
    envelope, which does not start with the line [status: ...] every YAML
    output of a success starts with. *)
Lemma WriteError_under_yaml_writes_json :
  fst (WriteError (mkWriter FormatYAML) (errorString "boom"))
    = "{" ++ NL
      ++ "  " ++ quoted "error" ++ ": {" ++ NL
      ++ "    " ++ quoted "message" ++ ": " ++ quoted "boom" ++ NL
      ++ "  }," ++ NL
      ++ "  " ++ quoted "status" ++ ": " ++ quoted "error" ++ NL
      ++ "}" ++ NL
  /\ prefix "status: "
       (fst (WriteError (mkWriter FormatYAML) (errorString "boom"))) = false
  /\ fst (writeYAML (mkWriter FormatYAML) (VScalar "boom") None)
     = "status: success" ++ NL ++ "data:" ++ NL ++ "  boom" ++ NL.
Proof. repeat split; vm_compute; reflexivity. Qed.

Section RendererFacts.

Variable Sprint_composite : Value -> string.
Variable csv_record : list string -> string.

(** [writeCSV] returns its error exactly when the row set, as [rowSet]
    finds it, is not of kind slice or array, and then it writes
    nothing. *)
Lemma writeCSV_error_iff (w : Writer) (data : Value) :
  writeCSV Sprint_composite csv_record w data
    = Returns "" (Some (errorString "CSV format requires array/slice data"))
  <-> is_Slice (kind (rowSet data)) = false.
Proof.
  unfold writeCSV. destruct (is_Slice (kind (rowSet data))); simpl.
  - split; [|discriminate].
    destruct (elements (rowSet data)) as [|first rest]; [discriminate|].
    destruct (csv_rows _ _ _ _); discriminate.
  - split; reflexivity.
Qed.

(** The entries of a map whose element type is an interface type are
    never taken for the row set: their kind is [Interface]. *)
Lemma interface_map_has_no_slice_entry (entries : list (string * Value)) :
  first_slice_entry true entries = None.
Proof. induction entries as [|[key x] l IH]; [reflexivity | exact IH]. Qed.

Lemma rowSet_interface_map (entries : list (string * Value)) :
  rowSet (VMap true entries) = ValueOf (VMap true entries).
Proof. unfold rowSet. simpl. now rewrite interface_map_has_no_slice_entry. Qed.

(** C9, the code at the input where it leaves the claim.  A
    [map[string]interface{}] whose entry holds an empty sequence is not
    unwrapped: [writeCSV] returns the error of the shape and writes
    nothing, although the map has a sequence-valued entry.  The same
    entry in a map whose element type is a slice type is the row set, and
    so is an empty sequence passed as it is: no bytes, no error. *)
Theorem writeCSV_interface_map_is_not_unwrapped (w : Writer) :
  writeCSV Sprint_composite csv_record w interface_map_payload
    = Returns "" (Some (errorString "CSV format requires array/slice data"))
  /\ writeCSV Sprint_composite csv_record w typed_map_payload
     = Returns "" None
  /\ (forall elem_interface : bool,
        writeCSV Sprint_composite csv_record w (VSlice elem_interface [])
        = Returns "" None).
Proof.
  split; [reflexivity|]. split; [reflexivity|].
  intros elem_interface. reflexivity.
Qed.

End RendererFacts.

(** ** Documented runs

    The runs the repository records, on the model. *)

(** The scenario of the specification: status 401 with the body
    [{"error":{"message":"Invalid API key"}}]. *)
Example parseError_invalid_api_key :
  let e :=
    parseError scenario_lib 401
      ("{" ++ quoted "error" ++ ":{" ++ quoted "message" ++ ":"
       ++ quoted "Invalid API key" ++ "}}") in
  Code e = "AUTH_ERROR" /\ Message e = "Invalid API key" /\ Suggestion e <> "".
Proof. vm_compute. repeat split. discriminate. Qed.

(** [TestAPIError]: the body [test error] is no JSON and becomes the
    message; the status gives the code. *)
Example parseError_test_error :
  map (fun status => Code (parseError scenario_lib status "test error"))
    [401; 429; 400; 404]
  = ["AUTH_ERROR"; "RATE_LIMIT_ERROR"; "VALIDATION_ERROR"; "NOT_FOUND"]
  /\ map (fun status => Message (parseError scenario_lib status "test error"))
       [401; 429; 400; 404]
     = ["test error"; "test error"; "test error"; "test error"].
Proof. split; vm_compute; reflexivity. Qed.

(** TESTING.md, a target outside the plan: [Do] makes one attempt and
    wraps the error; [WriteError] does not find an [APIError] in it and
    writes the message alone. *)
Example Do_WriteError_insufficient_plan :
  let run := Do scenario_lib world_403 scenario_client scenario_request in
  attempts (snd run) = 1%nat
  /\ option_map (fun err => fst (WriteError (mkWriter FormatJSON) err))
       (snd (fst run))
     = Some
         ("{" ++ NL
          ++ "  " ++ quoted "error" ++ ": {" ++ NL
          ++ "    " ++ quoted "message" ++ ": "
          ++ quoted
               ("request failed after 3 retries: API error (403): { "
                ++ escaped_quote ++ "error" ++ escaped_quote ++ ": "
                ++ escaped_quote ++ "Insufficient plan" ++ escaped_quote
                ++ " }")
          ++ NL
          ++ "  }," ++ NL
          ++ "  " ++ quoted "status" ++ ": " ++ quoted "error" ++ NL
          ++ "}" ++ NL).
Proof. split; vm_compute; reflexivity. Qed.

(** TESTING.md, the YAML output of a domain rating. *)
Example writeYAML_domain_rating :
  fst (writeYAML (mkWriter FormatYAML) domain_rating_payload None)
  = "status: success" ++ NL
    ++ "data:" ++ NL
    ++ "  DomainRating:" ++ NL
    ++ "    DomainRating:" ++ NL
    ++ "      91" ++ NL.
Proof. vm_compute. reflexivity. Qed.

(** * Further properties

    Bounds of the executor, the shape of the rendered rows, what the
    encoder writes read back by the decoder, and the commands. *)

(** ** The executor: how many attempts, and how it gives up *)

Section ExecutorBounds.

Variable L : Lib.
Variable W : World.
Variable c : Client.

Lemma attempts_app (e1 e2 : list Event) :
  attempts (e1 ++ e2) = (attempts e1 + attempts e2)%nat.
Proof.
  induction e1 as [|[k d|k r] e1 IH]; simpl; [reflexivity | exact IH |].
  now rewrite IH.
Qed.

Lemma total_backoff_app (e1 e2 : list Event) :
  total_backoff (e1 ++ e2) = total_backoff e1 + total_backoff e2.
Proof.
  induction e1 as [|[k d|k r] e1 IH]; simpl; [reflexivity | | exact IH].
  rewrite IH. lia.
Qed.

(** The loop makes at most one attempt an iteration. *)
Lemma Do_loop_attempts_le (method url : string) (fuel : nat) :
  forall (attempt : Z) (lastErr : option error),
    (attempts (snd (Do_loop L W c method url fuel attempt lastErr)) <= fuel)%nat.
Proof.
  induction fuel as [|fuel IH]; intros attempt lastErr; [simpl; lia|].
  rewrite Do_loop_step.
  destruct (attempt <=? maxRetries c); [|simpl; lia].
  destruct (if 0 <? attempt then ctxDone W attempt (backoff attempt) else None).
  { destruct (0 <? attempt); simpl; lia. }
  cbv zeta.
  destruct (doRequest L W c attempt method url) as [resp [err|]];
    [destruct (stops_retrying resp)|]; cbn [snd];
    try (rewrite attempts_app; destruct (0 <? attempt); simpl; lia).
  specialize (IH (attempt + 1) (Some err)).
  change (?w ++ ?x :: ?y)%list with (w ++ [x] ++ y)%list.
  rewrite !attempts_app. destruct (0 <? attempt); simpl; lia.
Qed.

(** Every request of the loop is the same request. *)
Lemma Do_loop_requests (method url : string) (fuel : nat) :
  forall (attempt : Z) (lastErr : option error),
    Forall (fun ev =>
              match ev with
              | EvRequest _ r => r = newRequest c method url
              | EvBackoff _ _ => True
              end)
      (snd (Do_loop L W c method url fuel attempt lastErr)).
Proof.
  induction fuel as [|fuel IH]; intros attempt lastErr; [constructor|].
  rewrite Do_loop_step.
  destruct (attempt <=? maxRetries c); [|constructor].
  assert (Hw : Forall (fun ev =>
                match ev with
                | EvRequest _ r => r = newRequest c method url
                | EvBackoff _ _ => True
                end)
             (if 0 <? attempt then [EvBackoff attempt (backoff attempt)] else [])).
  { destruct (0 <? attempt); repeat constructor. }
  destruct (if 0 <? attempt then ctxDone W attempt (backoff attempt) else None);
    [exact Hw|].
  cbv zeta.
  destruct (doRequest L W c attempt method url) as [resp [err|]];
    [destruct (stops_retrying resp)|]; cbn [snd];
    apply Forall_app; split; trivial; repeat constructor.
  apply IH.
Qed.

(** The error of an attempt the loop retries after. *)
Lemma doRequest_retryable (attempt : Z) (method url : string) :
  retryable (roundTrip W attempt (newRequest c method url)) = true ->
  exists resp err,
    doRequest L W c attempt method url = (resp, Some err)
    /\ stops_retrying resp = false.
Proof.
  unfold retryable, doRequest.
  destruct (roundTrip W attempt (newRequest c method url))
    as [e|e|e|status body headers ms]; intros H;
    try (eexists; eexists; split; reflexivity).
  assert (H400 : 400 <= status).
  { destruct (Z.leb_spec 500 status); [lia|].
    destruct (Z.eqb_spec status 429); [lia | discriminate]. }
  destruct (Z.leb_spec 400 status); [|lia].
  eexists; eexists; split; [reflexivity|].
  unfold stops_retrying. cbn [StatusCode].
  destruct (Z.leb_spec 500 status).
  - destruct (Z.ltb_spec status 500); [lia|]. now rewrite andb_false_r.
  - destruct (Z.eqb_spec status 429); [|discriminate].
    now rewrite andb_false_r.
Qed.

(** The loop from attempt [a] on, when every attempt up to [maxRetries]
    is retried after and no wait is cut short: it makes them all and ends
    with the error of the last one under the text of the retries. *)
Lemma Do_loop_exhausts (method url : string) (fuel : nat) :
  forall (a : Z) (lastErr : option error),
  0 <= a ->
  Z.of_nat fuel = maxRetries c + 1 - a ->
  (0 < fuel)%nat ->
  (forall k, a <= k <= maxRetries c ->
     retryable (roundTrip W k (newRequest c method url)) = true) ->
  (forall k, 1 <= k <= maxRetries c -> ctxDone W k (backoff k) = None) ->
  exists err,
    snd (doRequest L W c (maxRetries c) method url) = Some err
    /\ fst (Do_loop L W c method url fuel a lastErr)
       = (None, Some (retriesError c (Some err)))
    /\ attempts (snd (Do_loop L W c method url fuel a lastErr)) = fuel.
Proof.
  induction fuel as [|fuel IH]; intros a lastErr Ha Hfuel Hpos Hretry Hctx;
    [lia|].
  rewrite Do_loop_step.
  destruct (Z.leb_spec a (maxRetries c)); [|lia].
  assert (Hwait : (if 0 <? a then ctxDone W a (backoff a) else None) = None).
  { destruct (Z.ltb_spec 0 a); [apply Hctx; lia | reflexivity]. }
  rewrite Hwait. cbv zeta.
  destruct (doRequest_retryable a method url (Hretry a ltac:(lia)))
    as (resp & err & Hdo & Hstop).
  rewrite Hdo, Hstop. cbn [fst snd].
  destruct fuel as [|fuel].
  - assert (a = maxRetries c) by lia. subst a.
    exists err. rewrite Hdo. split; [reflexivity|]. split; [reflexivity|].
    change (?w ++ ?x :: ?y)%list with (w ++ [x] ++ y)%list.
    rewrite !attempts_app. destruct (0 <? maxRetries c); reflexivity.
  - destruct (IH (a + 1) (Some err)) as (err' & H1 & H2 & H3); try lia.
    + intros k Hk. apply Hretry. lia.
    + exact Hctx.
    + exists err'. split; [exact H1|]. split; [exact H2|].
      change (?w ++ ?x :: ?y)%list with (w ++ [x] ++ y)%list.
      rewrite !attempts_app, H3. destruct (0 <? a); simpl; lia.
Qed.

(** Twice the timers of the loop from attempt [a] on are at most the
    seconds from [a] to [maxRetries], twice. *)
Lemma Do_loop_total_backoff (method url : string) (fuel : nat) :
  maxRetries c <= maxBackoffAttempts ->
  forall (a : Z) (lastErr : option error),
  0 <= a <= maxRetries c + 1 ->
  0 <= total_backoff (snd (Do_loop L W c method url fuel a lastErr))
  /\ 2 * total_backoff (snd (Do_loop L W c method url fuel a lastErr))
     <= (maxRetries c * (maxRetries c + 1) - (a - 1) * a) * Second.
Proof.
  intros Hmax.
  assert (Htri : forall a, 0 <= a <= maxRetries c + 1 ->
            (a - 1) * a <= maxRetries c * (maxRetries c + 1)).
  { intros a Ha. destruct (Z.eq_dec a 0) as [->|Hne].
    - destruct (Z.eq_dec (maxRetries c) (-1)) as [->|Hm]; [lia|].
      change ((0 - 1) * 0) with 0. apply Z.mul_nonneg_nonneg; lia.
    - apply Z.mul_le_mono_nonneg; lia. }
  assert (Hbase : forall a, 0 <= a <= maxRetries c + 1 ->
            0 <= (maxRetries c * (maxRetries c + 1) - (a - 1) * a) * Second).
  { intros a Ha. specialize (Htri a Ha). unfold Second. lia. }
  induction fuel as [|fuel IH]; intros a lastErr Ha.
  { simpl. split; [lia | now apply Hbase]. }
  rewrite Do_loop_step.
  destruct (Z.leb_spec a (maxRetries c)) as [Hle|Hgt];
    [|simpl; split; [lia | now apply Hbase]].
  assert (Hb : backoff a = a * Second) by (apply backoff_seconds; lia).
  rewrite Hb.
  assert (Hw : total_backoff
                 (if 0 <? a then [EvBackoff a (a * Second)] else [])
               = a * Second).
  { destruct (Z.ltb_spec 0 a); simpl; [lia|].
    assert (a = 0) by lia. subst a. reflexivity. }
  assert (Hnext : a * (a + 1) <= maxRetries c * (maxRetries c + 1)).
  { specialize (Htri (a + 1) ltac:(lia)).
    replace ((a + 1 - 1) * (a + 1)) with (a * (a + 1)) in Htri by ring.
    exact Htri. }
  assert (Hstep : 0 <= a * Second
                  /\ 2 * (a * Second)
                     <= (maxRetries c * (maxRetries c + 1) - (a - 1) * a) * Second).
  { unfold Second in *. split; nia. }
  destruct (if 0 <? a then ctxDone W a (a * Second) else None).
  { cbn [snd]. rewrite Hw. exact Hstep. }
  cbv zeta.
  destruct (doRequest L W c a method url) as [resp [err|]];
    [destruct (stops_retrying resp)|]; cbn [snd];
    try (rewrite total_backoff_app, Hw; cbn [total_backoff];
         rewrite Z.add_0_r; exact Hstep).
  change (?w ++ ?x :: ?y)%list with (w ++ [x] ++ y)%list.
  rewrite !total_backoff_app, Hw. cbn [total_backoff].
  destruct (IH (a + 1) (Some err)) as [G1 G2]; [lia|].
  replace ((a + 1 - 1) * (a + 1)) with (a * (a + 1)) in G2 by ring.
  destruct Hstep as [S1 S2]. unfold Second in *. split; lia.
Qed.

End ExecutorBounds.

(** X1.  [Do] never makes more than [maxRetries + 1] attempts, whatever
    the world answers; a client built from an API key alone makes at most
    four. *)
Theorem Do_attempts_bounded (L : Lib) (W : World) (req : Request) :
  (forall c : Client,
     (attempts (snd (Do L W c req)) <= Z.to_nat (maxRetries c + 1))%nat)
  /\ (forall key : string,
        (attempts (snd (Do L W (NewClient (mkConfig key "" 0 0)) req)) <= 4)%nat).
Proof.
  assert (H : forall c : Client,
            (attempts (snd (Do L W c req)) <= Z.to_nat (maxRetries c + 1))%nat).
  { intros c. unfold Do.
    destruct (apiKey c =? "")%string; [simpl; lia|].
    destruct (url_Parse L (baseURL c ++ Endpoint req)); [|simpl; lia].
    apply Do_loop_attempts_le. }
  split; [exact H|]. intros key. apply (H (NewClient (mkConfig key "" 0 0))).
Qed.

(** X2.  A status from 400 to 499 other than 429 on the first attempt
    ends the run: [Do] makes that one attempt, waits for nothing and
    returns a nil response with the [APIError] wrapped under the text of
    the retries. *)
Theorem Do_fails_fast_on_client_error (L : Lib) (W : World) (c : Client)
  (req : Request) (u : URL)
  (status : Z) (body : string) (headers : Header) (elapsed : Z) :
  apiKey c <> "" ->
  url_Parse L (baseURL c ++ Endpoint req) = inl u ->
  0 <= maxRetries c ->
  roundTrip W 0 (sentRequest L c req u)
    = Responded status body headers elapsed ->
  400 <= status < 500 ->
  status <> 429 ->
  Do L W c req
  = ((None, Some (retriesError c (Some (errAPI (parseError L status body))))),
     [EvRequest 0 (sentRequest L c req u)]).
Proof.
  intros Hkey Hurl Hmax Hrt Hst H429. unfold Do.
  destruct (String.eqb_spec (apiKey c) "") as [He|_]; [contradiction|].
  rewrite Hurl. cbv zeta. unfold sentRequest in *.
  destruct (Z.to_nat (maxRetries c + 1)) as [|fuel] eqn:Hfuel; [lia|].
  rewrite Do_loop_step.
  destruct (Z.leb_spec 0 (maxRetries c)); [|lia].
  change (0 <? 0) with false. cbv iota zeta.
  destruct (doRequest_responded L W c 0 _ _ _ _ _ _ Hrt)
    as (resp & Hdo & Hs & _).
  rewrite Hdo. destruct (Z.leb_spec 400 status); [|lia].
  unfold stops_retrying. rewrite Hs.
  destruct (Z.leb_spec 400 status); [|lia].
  destruct (Z.ltb_spec status 500); [|lia].
  destruct (Z.eqb_spec status 429); [contradiction|].
  reflexivity.
Qed.

(** The theorem on the server that answers 404. *)
Lemma Do_fails_fast_on_client_error_witness :
  Do scenario_lib world_404 scenario_client scenario_request
  = ((None,
      Some (retriesError scenario_client
              (Some (errAPI (parseError scenario_lib 404 "not here"))))),
     [EvRequest 0
        (sentRequest scenario_lib scenario_client scenario_request
           (mkURL scenario_url ""))]).
Proof.
  apply (Do_fails_fast_on_client_error scenario_lib world_404 scenario_client
           scenario_request (mkURL scenario_url "") 404 "not here" [] 12).
  - discriminate.
  - reflexivity.
  - vm_compute. discriminate.
  - reflexivity.
  - lia.
  - lia.
Defined.

(** X3.  When every attempt ends without a response, with a status from
    500 on or with status 429, and no wait is cut short, [Do] makes all
    the [maxRetries + 1] attempts and returns a nil response with the
    error of the last attempt wrapped under the text of the retries. *)
Theorem Do_exhausts_retries (L : Lib) (W : World) (c : Client)
  (req : Request) (u : URL) :
  apiKey c <> "" ->
  url_Parse L (baseURL c ++ Endpoint req) = inl u ->
  0 <= maxRetries c ->
  (forall k, 0 <= k <= maxRetries c ->
     retryable (roundTrip W k (sentRequest L c req u)) = true) ->
  (forall k, 1 <= k <= maxRetries c -> ctxDone W k (backoff k) = None) ->
  exists err,
    snd (doRequest L W c (maxRetries c) (Method req)
           (URL_String L (withParams L u (Params req)))) = Some err
    /\ fst (Do L W c req) = (None, Some (retriesError c (Some err)))
    /\ attempts (snd (Do L W c req)) = Z.to_nat (maxRetries c + 1).
Proof.
  intros Hkey Hurl Hmax Hretry Hctx. unfold Do.
  destruct (String.eqb_spec (apiKey c) "") as [He|_]; [contradiction|].
  rewrite Hurl. cbv zeta. unfold sentRequest in *.
  apply Do_loop_exhausts; trivial; lia.
Qed.

(** The theorem on the server that is down: four attempts. *)
Lemma Do_exhausts_retries_witness :
  exists err,
    snd (doRequest scenario_lib world_down scenario_client
           (maxRetries scenario_client) (Method scenario_request)
           (URL_String scenario_lib
              (withParams scenario_lib (mkURL scenario_url "")
                 (Params scenario_request)))) = Some err
    /\ fst (Do scenario_lib world_down scenario_client scenario_request)
       = (None, Some (retriesError scenario_client (Some err)))
    /\ attempts
         (snd (Do scenario_lib world_down scenario_client scenario_request))
       = Z.to_nat (maxRetries scenario_client + 1).
Proof.
  apply (Do_exhausts_retries scenario_lib world_down scenario_client
           scenario_request (mkURL scenario_url "")).
  - discriminate.
  - reflexivity.
  - vm_compute. discriminate.
  - intros k Hk. reflexivity.
  - intros k Hk. reflexivity.
Defined.

(** X4.  Every request of one call of [Do] is the same request: the
    method of the call, one URL, and the three headers with the key of
    the client as bearer token. *)
Theorem Do_requests_are_identical (L : Lib) (W : World) (c : Client)
  (req : Request) :
  exists r0 : HTTPRequest,
    req_Method r0 = Method req
    /\ req_Header r0 = request_headers c
    /\ Forall (fun ev =>
                 match ev with
                 | EvRequest _ r => r = r0
                 | EvBackoff _ _ => True
                 end)
         (snd (Do L W c req)).
Proof.
  unfold Do.
  destruct (apiKey c =? "")%string;
    [exists (newRequest c (Method req) ""); repeat split; constructor|].
  destruct (url_Parse L (baseURL c ++ Endpoint req)) as [u|err];
    [|exists (newRequest c (Method req) ""); repeat split; constructor].
  cbv zeta.
  exists (newRequest c (Method req)
            (URL_String L (withParams L u (Params req)))).
  split; [reflexivity|]. split; [reflexivity|].
  apply Do_loop_requests.
Qed.

(** X5.  The timers [Do] arms add up to at most
    [maxRetries * (maxRetries + 1) / 2] seconds (as long as each fits a
    [time.Duration]); the client of the default three retries never
    waits more than six seconds in one call. *)
Theorem Do_total_backoff_bounded (L : Lib) (W : World) (c : Client)
  (req : Request) :
  0 <= maxRetries c <= maxBackoffAttempts ->
  0 <= total_backoff (snd (Do L W c req))
  /\ 2 * total_backoff (snd (Do L W c req))
     <= maxRetries c * (maxRetries c + 1) * Second.
Proof.
  intros Hmax. unfold Do.
  assert (H0 : 0 <= maxRetries c * (maxRetries c + 1) * Second).
  { unfold Second. apply Z.mul_nonneg_nonneg; [|lia].
    apply Z.mul_nonneg_nonneg; lia. }
  destruct (apiKey c =? "")%string; [simpl; lia|].
  destruct (url_Parse L (baseURL c ++ Endpoint req)); [|simpl; lia].
  cbv zeta.
  pose proof (Do_loop_total_backoff L W c (Method req)
                (URL_String L (withParams L u (Params req)))
                (Z.to_nat (maxRetries c + 1)) ltac:(lia) 0 None ltac:(lia))
    as [G1 G2].
  split; [exact G1|].
  replace ((0 - 1) * 0) with 0 in G2 by reflexivity.
  rewrite Z.sub_0_r in G2. exact G2.
Qed.

(** The theorem on the default client and a server that is down: at most
    six seconds. *)
Lemma Do_total_backoff_bounded_witness :
  0 <= total_backoff
         (snd (Do scenario_lib world_down scenario_client scenario_request))
  /\ 2 * total_backoff
           (snd (Do scenario_lib world_down scenario_client scenario_request))
     <= maxRetries scenario_client * (maxRetries scenario_client + 1) * Second.
Proof.
  apply (Do_total_backoff_bounded scenario_lib world_down scenario_client
           scenario_request).
  vm_compute. split; discriminate.
Defined.

(** X6.  A negative [MaxRetries] is kept by [NewClient] and switches the
    client off: with the key set and a URL that parses, [Do] makes no
    attempt, arms no timer and returns an error that wraps nothing. *)
Theorem Do_negative_retries (L : Lib) (W : World) (cfg : Config)
  (req : Request) (u : URL) :
  APIKey cfg <> "" ->
  MaxRetries cfg < 0 ->
  url_Parse L (baseURL (NewClient cfg) ++ Endpoint req) = inl u ->
  maxRetries (NewClient cfg) = MaxRetries cfg
  /\ Do L W (NewClient cfg) req
     = ((None,
         Some (errorString
                 (("request failed after " ++ Itoa (MaxRetries cfg)
                   ++ " retries: ") ++ "%!w(<nil>)"))),
        []).
Proof.
  intros Hkey Hneg Hurl.
  assert (Hm : maxRetries (NewClient cfg) = MaxRetries cfg).
  { unfold NewClient. simpl. destruct (Z.eqb_spec (MaxRetries cfg) 0); [lia|].
    reflexivity. }
  split; [exact Hm|]. unfold Do.
  change (apiKey (NewClient cfg)) with (APIKey cfg).
  destruct (String.eqb_spec (APIKey cfg) "") as [He|_]; [contradiction|].
  rewrite Hurl. cbv zeta. rewrite Hm.
  destruct (Z.to_nat (MaxRetries cfg + 1)) as [|fuel] eqn:Hfuel.
  - simpl. unfold retriesError. now rewrite Hm.
  - rewrite Do_loop_step, Hm.
    destruct (Z.leb_spec 0 (MaxRetries cfg)); [lia|].
    unfold retriesError. now rewrite Hm.
Qed.

(** The theorem on a configuration with [MaxRetries] -1. *)
Lemma Do_negative_retries_witness :
  maxRetries (NewClient (mkConfig "test-key" "" 0 (-1))) = -1
  /\ Do scenario_lib world_500_500_200
       (NewClient (mkConfig "test-key" "" 0 (-1))) scenario_request
     = ((None,
         Some (errorString
                 (("request failed after " ++ Itoa (-1)
                   ++ " retries: ") ++ "%!w(<nil>)"))),
        []).
Proof.
  apply (Do_negative_retries scenario_lib world_500_500_200
           (mkConfig "test-key" "" 0 (-1)) scenario_request
           (mkURL scenario_url "")).
  - discriminate.
  - reflexivity.
  - reflexivity.
Defined.

(** An error of the loop is an [*APIError] only when the context gave
    it. *)
Lemma Do_loop_error_shape (L : Lib) (W : World) (c : Client)
  (method url : string) (fuel : nat) :
  forall (attempt : Z) (lastErr : option error),
    match snd (fst (Do_loop L W c method url fuel attempt lastErr)) with
    | Some (errAPI e) => exists k d, ctxDone W k d = Some (errAPI e)
    | _ => True
    end.
Proof.
  assert (Hr : forall lastErr,
            match retriesError c lastErr with
            | errAPI _ => False
            | _ => True
            end).
  { intros [e|]; exact I. }
  induction fuel as [|fuel IH]; intros attempt lastErr.
  { simpl. specialize (Hr lastErr).
    destruct (retriesError c lastErr); trivial. contradiction. }
  rewrite Do_loop_step.
  destruct (attempt <=? maxRetries c).
  2:{ simpl. specialize (Hr lastErr).
      destruct (retriesError c lastErr); trivial. contradiction. }
  destruct (0 <? attempt).
  - destruct (ctxDone W attempt (backoff attempt)) as [ctxErr|] eqn:Hctx.
    + simpl. destruct ctxErr; trivial. eauto.
    + cbv zeta.
      destruct (doRequest L W c attempt method url) as [resp [err|]];
        [destruct (stops_retrying resp)|]; cbn [fst snd]; trivial.
      * specialize (Hr (Some err)).
        destruct (retriesError c (Some err)); trivial. contradiction.
      * apply IH.
  - cbv zeta.
    destruct (doRequest L W c attempt method url) as [resp [err|]];
      [destruct (stops_retrying resp)|]; cbn [fst snd]; trivial.
    + specialize (Hr (Some err)).
      destruct (retriesError c (Some err)); trivial. contradiction.
    + apply IH.
Qed.

(** X7.  [Do] never returns the [*APIError] of an attempt as it is: the
    error is wrapped, so [formatError], which looks for an [*APIError]
    by a type assertion, finds none and the error map of a failed call
    holds the message alone, without code, suggestion or documentation
    URL (as long as the error of the context is no [*APIError]). *)
Theorem Do_error_has_message_only (L : Lib) (W : World) (c : Client)
  (req : Request) (err : error) :
  (forall k d e, ctxDone W k d <> Some (errAPI e)) ->
  snd (fst (Do L W c req)) = Some err ->
  formatError err = [("message", JVString (Error err))].
Proof.
  intros Hctx. unfold Do.
  destruct (apiKey c =? "")%string; [intros [= <-]; reflexivity|].
  destruct (url_Parse L (baseURL c ++ Endpoint req)) as [u|e];
    [|intros [= <-]; reflexivity].
  cbv zeta. intros H.
  pose proof (Do_loop_error_shape L W c (Method req)
                (URL_String L (withParams L u (Params req)))
                (Z.to_nat (maxRetries c + 1)) 0 None) as Hs.
  rewrite H in Hs.
  destruct err as [msg|e|msg inner]; try reflexivity.
  destruct Hs as (k & d & Hk). exfalso. exact (Hctx k d e Hk).
Qed.

(** The theorem on the server that answers 404: the [NOT_FOUND] code and
    the suggestion of [parseError] do not reach the error map. *)
Lemma Do_error_has_message_only_witness :
  formatError
    (retriesError scenario_client
       (Some (errAPI (parseError scenario_lib 404 "not here"))))
  = [("message",
      JVString
        (Error (retriesError scenario_client
                  (Some (errAPI (parseError scenario_lib 404 "not here"))))))].
Proof.
  apply (Do_error_has_message_only scenario_lib world_404 scenario_client
           scenario_request).
  - intros k d e. discriminate.
  - reflexivity.
Defined.

(** ** The renderer: rows, records and errors *)

Section RendererShape.

Variable Sprint_composite : Value -> string.
Variable csv_record : list string -> string.

Lemma first_slice_entry_typed (entries : list (string * Value)) :
  match first_slice_entry false entries with
  | Some fieldVal =>
      is_Slice (kind fieldVal) = true
      /\ existsb (fun kx => is_sequence (snd kx)) entries = true
  | None => existsb (fun kx => is_sequence (snd kx)) entries = false
  end.
Proof.
  induction entries as [|[key x] l IH]; [reflexivity|].
  simpl. destruct x; simpl; try exact IH; split; reflexivity.
Qed.

Lemma rowSet_is_Slice (data : Value) :
  is_Slice (kind (rowSet data)) = holds_rows data.
Proof.
  destruct data as [ | text | [|] entries | ei elems | fields ];
    try reflexivity.
  - now rewrite rowSet_interface_map.
  - unfold rowSet. simpl.
    pose proof (first_slice_entry_typed entries) as H.
    destruct (first_slice_entry false entries) as [fieldVal|].
    + destruct H as [H1 H2]. now rewrite H1, H2.
    + now rewrite H.
Qed.

Lemma all_cells_length (cells : list (option string)) (row : list string) :
  all_cells cells = Some row -> List.length row = List.length cells.
Proof.
  revert row. induction cells as [|[s|] cells IH]; intros row H.
  - injection H as <-. reflexivity.
  - simpl in H. destruct (all_cells cells) as [row'|]; [|discriminate].
    injection H as <-. simpl. now rewrite (IH row').
  - discriminate.
Qed.

Lemma extractRow_length (v : rvalue) (headers row : list string) :
  extractRow Sprint_composite v headers = Some row ->
  List.length row = List.length headers.
Proof.
  unfold extractRow.
  destruct (kind v), (held v); intros H;
    try (injection H as <-; now rewrite length_map).
  apply all_cells_length in H. now rewrite length_map in H.
Qed.

Lemma concat_cons (a : string) (l : list string) :
  String.concat "" (a :: l) = a ++ String.concat "" l.
Proof.
  destruct l as [|b l]; simpl; [now rewrite string_app_nil_r | reflexivity].
Qed.

Lemma csv_rows_records (rows : list rvalue) (headers : list string)
  (out : string) :
  csv_rows Sprint_composite csv_record rows headers = Some out ->
  exists records : list (list string),
    out = String.concat "" (map csv_record records)
    /\ map Some records
       = map (fun r => extractRow Sprint_composite r headers) rows
    /\ Forall (fun record => List.length record = List.length headers)
         records.
Proof.
  revert out. induction rows as [|r rows IH]; intros out H.
  - injection H as <-. exists []. repeat split. constructor.
  - simpl in H.
    destruct (extractRow Sprint_composite r headers) as [row|] eqn:Hrow;
      [|discriminate].
    destruct (csv_rows Sprint_composite csv_record rows headers) as [out'|];
      [|discriminate].
    injection H as <-. destruct (IH out' eq_refl) as (records & E & M & F).
    exists (row :: records). split; [|split].
    + cbn [map]. now rewrite concat_cons, E.
    + cbn [map]. now rewrite Hrow, M.
    + constructor; [now apply extractRow_length with (v := r)|exact F].
Qed.

Lemma struct_cell_skips (field : StructField) (x : Value)
  (fields : list (StructField * Value)) (header : string) :
  header_name field <> header ->
  struct_cell Sprint_composite ((field, x) :: fields) header
  = struct_cell Sprint_composite fields header.
Proof.
  intros H. simpl. fold (header_name field).
  destruct (String.eqb_spec (header_name field) header); [contradiction|].
  reflexivity.
Qed.

Lemma struct_cell_own_headers (fields : list (StructField * Value)) :
  NoDup (map field_header fields) ->
  all_cells
    (map (struct_cell Sprint_composite fields)
       (map field_header (filter (fun fx => IsExported (fst fx)) fields)))
  = Some (map (fun fx => Sprint Sprint_composite (snd fx))
            (filter (fun fx => IsExported (fst fx)) fields)).
Proof.
  induction fields as [|[field x] fields IH]; intros Hnd; [reflexivity|].
  inversion Hnd as [|h t Hnotin Hnd']; subst.
  assert (Hskip :
    map (struct_cell Sprint_composite ((field, x) :: fields))
      (map field_header (filter (fun fx => IsExported (fst fx)) fields))
    = map (struct_cell Sprint_composite fields)
        (map field_header (filter (fun fx => IsExported (fst fx)) fields))).
  { apply map_ext_in. intros header Hin. apply struct_cell_skips.
    intros E. apply Hnotin. rewrite in_map_iff in Hin.
    destruct Hin as (fx & Hfx & Hin). apply filter_In in Hin.
    apply in_map_iff. exists fx. split; [|exact (proj1 Hin)].
    rewrite Hfx. symmetry. exact E. }
  cbn [filter fst]. destruct (IsExported field) eqn:Hexp.
  - cbn [map]. rewrite Hskip. cbn [all_cells].
    assert (Hown : struct_cell Sprint_composite ((field, x) :: fields)
                     (field_header (field, x))
                   = Some (Sprint Sprint_composite x)).
    { simpl. fold (header_name field). unfold field_header. simpl.
      rewrite String.eqb_refl, Hexp. reflexivity. }
    rewrite Hown. cbn [all_cells]. rewrite (IH Hnd'). reflexivity.
  - rewrite Hskip. exact (IH Hnd').
Qed.

Lemma map_cell_own_keys (entries : list (string * Value)) :
  NoDup (map fst entries) ->
  map (map_cell Sprint_composite entries) (map fst entries)
  = map (fun kx => Sprint Sprint_composite (snd kx)) entries.
Proof.
  induction entries as [|[key x] entries IH]; intros Hnd; [reflexivity|].
  inversion Hnd as [|h t Hnotin Hnd']; subst.
  cbn [map fst snd]. f_equal.
  - simpl. now rewrite String.eqb_refl.
  - rewrite <- (IH Hnd'). apply map_ext_in. intros header Hin. simpl.
    destruct (String.eqb_spec key header) as [->|]; [contradiction|].
    reflexivity.
Qed.

End RendererShape.

Lemma writeCSV_error_cases
  (Sprint_composite : Value -> string) (csv_record : list string -> string)
  (w : Writer) (data : Value) (out : string) (err : error) :
  writeCSV Sprint_composite csv_record w data = Returns out (Some err) ->
  out = "" /\ holds_rows data = false
  /\ err = errorString "CSV format requires array/slice data".
Proof.
  rewrite <- rowSet_is_Slice. unfold writeCSV.
  destruct (is_Slice (kind (rowSet data))); simpl.
  - destruct (elements (rowSet data)) as [|first rest]; [discriminate|].
    destruct (csv_rows _ _ _ _); discriminate.
  - intros [= <- <-]. repeat split.
Qed.

(** X8.  [writeCSV] returns the error [CSV format requires array/slice
    data] exactly on the payloads it finds no rows in, it writes nothing
    with it and returns no other error.  A struct is such a payload, and
    the commands pass a struct: a response struct never reaches the CSV
    writer's rows. *)
Theorem writeCSV_rejects_payloads_without_rows
  (Sprint_composite : Value -> string) (csv_record : list string -> string)
  (w : Writer) :
  (forall data : Value,
     writeCSV Sprint_composite csv_record w data
       = Returns "" (Some (errorString "CSV format requires array/slice data"))
     <-> holds_rows data = false)
  /\ (forall (data : Value) (out : string) (err : error),
        writeCSV Sprint_composite csv_record w data = Returns out (Some err) ->
        out = "" /\ holds_rows data = false)
  /\ (forall rows : list Value,
        writeCSV Sprint_composite csv_record w (RefDomainsResponse rows)
        = Returns ""
            (Some (errorString "CSV format requires array/slice data"))).
Proof.
  split; [|split].
  - intros data. rewrite <- rowSet_is_Slice. apply writeCSV_error_iff.
  - intros data out err H.
    destruct (writeCSV_error_cases _ _ _ _ _ _ H) as (H1 & H2 & _).
    split; assumption.
  - intros rows. reflexivity.
Qed.

(** X9.  On a payload with rows [writeCSV] writes the header record of
    the first element and then one record for every element, in order,
    each with as many fields as the header has, whatever the keys of the
    later elements are; or it panics. *)
Theorem writeCSV_records_follow_the_header
  (Sprint_composite : Value -> string) (csv_record : list string -> string)
  (w : Writer) (data : Value) (first : rvalue) (rest : list rvalue) :
  holds_rows data = true ->
  elements (rowSet data) = first :: rest ->
  writeCSV Sprint_composite csv_record w data = Panics
  \/ exists records : list (list string),
       writeCSV Sprint_composite csv_record w data
       = Returns (csv_record (extractHeaders first)
                  ++ String.concat "" (map csv_record records)) None
       /\ map Some records
          = map (fun r => extractRow Sprint_composite r (extractHeaders first))
              (first :: rest)
       /\ Forall (fun record =>
                    List.length record = List.length (extractHeaders first))
            records.
Proof.
  intros Hrows Hel. unfold writeCSV.
  rewrite rowSet_is_Slice, Hrows, Hel. cbn [negb].
  destruct (csv_rows Sprint_composite csv_record (first :: rest)
              (extractHeaders first)) as [out|] eqn:Hout;
    [right | left; reflexivity].
  destruct (csv_rows_records Sprint_composite csv_record _ _ _ Hout)
    as (records & E & M & F).
  exists records. rewrite E. repeat split; assumption.
Qed.

(** The theorem on two referring domains. *)
Lemma writeCSV_records_follow_the_header_witness :
  writeCSV no_composite plain_csv_record (mkWriter FormatCSV)
    (VSlice false ref_domains) = Panics
  \/ exists records : list (list string),
       writeCSV no_composite plain_csv_record (mkWriter FormatCSV)
         (VSlice false ref_domains)
       = Returns
           (plain_csv_record
              (extractHeaders
                 (mkRvalue false
                    (RefDomain "a.example" "71" "12" "2024-01-05")))
            ++ String.concat "" (map plain_csv_record records)) None
       /\ map Some records
          = map (fun r =>
                   extractRow no_composite r
                     (extractHeaders
                        (mkRvalue false
                           (RefDomain "a.example" "71" "12" "2024-01-05"))))
              (mkRvalue false (RefDomain "a.example" "71" "12" "2024-01-05")
               :: [mkRvalue false
                     (RefDomain "b.example" "35" "3" "2024-02-11")])
       /\ Forall (fun record =>
                    List.length record
                    = List.length
                        (extractHeaders
                           (mkRvalue false
                              (RefDomain "a.example" "71" "12" "2024-01-05"))))
            records.
Proof.
  apply (writeCSV_records_follow_the_header no_composite plain_csv_record
           (mkWriter FormatCSV) (VSlice false ref_domains)
           (mkRvalue false (RefDomain "a.example" "71" "12" "2024-01-05"))
           [mkRvalue false (RefDomain "b.example" "35" "3" "2024-02-11")]).
  - reflexivity.
  - reflexivity.
Defined.

(** The CSV of the two referring domains. *)
Example writeCSV_ref_domains :
  writeCSV no_composite plain_csv_record (mkWriter FormatCSV)
    (VSlice false ref_domains)
  = Returns
      ("domain,domain_rating,backlinks,first_seen" ++ NL
       ++ "a.example,71,12,2024-01-05" ++ NL
       ++ "b.example,35,3,2024-02-11" ++ NL)
      None.
Proof. reflexivity. Qed.

(** X10.  A row read against its own headers gives back its values: when
    no two keys of a map, and no two fields of a struct, go by the same
    name, [extractRow] on the headers [extractHeaders] takes from the
    same value is the [%v] text of every entry, or of every exported
    field, in order. *)
Theorem extractRow_of_own_headers
  (Sprint_composite : Value -> string) (v : Value) :
  NoDup (row_names v) ->
  extractRow Sprint_composite (ValueOf v) (extractHeaders (ValueOf v))
  = Some (map (Sprint Sprint_composite) (column_values v)).
Proof.
  intros Hnd. destruct v as [ | text | ei entries | ei elems | fields ];
    try reflexivity.
  - unfold extractRow, extractHeaders. cbn [kind ValueOf in_interface held].
    simpl in Hnd. rewrite map_cell_own_keys by exact Hnd.
    cbn [column_values]. now rewrite map_map.
  - unfold extractRow, extractHeaders. cbn [kind ValueOf in_interface held].
    simpl in Hnd.
    change (fun fx : StructField * Value => header_name (fst fx))
      with field_header.
    rewrite struct_cell_own_headers by exact Hnd.
    cbn [column_values]. now rewrite map_map.
Qed.

(** The theorem on a referring domain. *)
Lemma extractRow_of_own_headers_witness :
  extractRow no_composite
    (ValueOf (RefDomain "a.example" "71" "12" "2024-01-05"))
    (extractHeaders (ValueOf (RefDomain "a.example" "71" "12" "2024-01-05")))
  = Some (map (Sprint no_composite)
            (column_values (RefDomain "a.example" "71" "12" "2024-01-05"))).
Proof.
  apply (extractRow_of_own_headers no_composite
           (RefDomain "a.example" "71" "12" "2024-01-05")).
  repeat constructor; simpl; intuition discriminate.
Defined.

Lemma struct_cell_exported (Sprint_composite : Value -> string)
  (fields : list (StructField * Value)) (header : string) :
  forallb (fun fx => IsExported (fst fx)) fields = true ->
  struct_cell Sprint_composite fields header <> None.
Proof.
  induction fields as [|[field x] fields IH]; intros H; [discriminate|].
  simpl in H. apply andb_prop in H. destruct H as [H1 H2]. simpl.
  destruct (_ =? header)%string; [rewrite H1; discriminate|].
  apply IH, H2.
Qed.

Lemma extractRow_exported (Sprint_composite : Value -> string)
  (r : rvalue) (headers : list string) :
  row_exported r = true ->
  extractRow Sprint_composite r headers <> None.
Proof.
  unfold row_exported, extractRow. intros H.
  destruct (kind r), (held r); try discriminate.
  induction headers as [|h headers IH]; [discriminate|].
  simpl.
  pose proof (struct_cell_exported Sprint_composite fields h H) as Hc.
  destruct (struct_cell Sprint_composite fields h); [|contradiction].
  destruct (all_cells (map (struct_cell Sprint_composite fields) headers));
    [discriminate | contradiction].
Qed.

Lemma csv_rows_exported (Sprint_composite : Value -> string)
  (csv_record : list string -> string)
  (rows : list rvalue) (headers : list string) :
  Forall (fun r => row_exported r = true) rows ->
  csv_rows Sprint_composite csv_record rows headers <> None.
Proof.
  induction 1 as [|r rows Hr _ IH]; [discriminate|]. simpl.
  pose proof (extractRow_exported Sprint_composite r headers Hr).
  destruct (extractRow Sprint_composite r headers); [|contradiction].
  destruct (csv_rows Sprint_composite csv_record rows headers);
    [discriminate | contradiction].
Qed.

Lemma table_rows_exported (Sprint_composite : Value -> string)
  (rows : list rvalue) (headers : list string) :
  Forall (fun r => row_exported r = true) rows ->
  table_rows Sprint_composite rows headers <> None.
Proof.
  induction 1 as [|r rows Hr _ IH]; [discriminate|]. simpl.
  pose proof (extractRow_exported Sprint_composite r headers Hr).
  destruct (extractRow Sprint_composite r headers); [|contradiction].
  destruct (table_rows Sprint_composite rows headers);
    [discriminate | contradiction].
Qed.

(** X11.  [WriteSuccess] panics only on a struct row with a field that
    is not exported: when no row of the payload is one, it returns in
    every format. *)
Theorem WriteSuccess_returns_on_exported_rows
  (Sprint_composite : Value -> string) (csv_record : list string -> string)
  (tabwriter : string -> string) (json_payload : nat -> Value -> string + error)
  (w : Writer) (data : Value) (meta : option ResponseMeta) :
  Forall (fun r => row_exported r = true) (elements (rowSet data)) ->
  WriteSuccess Sprint_composite csv_record tabwriter json_payload w data meta
  <> Panics.
Proof.
  intros Hrows. unfold WriteSuccess.
  destruct (format w =? FormatJSON)%string.
  { unfold writeJSON. destruct (json_payload 1%nat data); discriminate. }
  destruct (format w =? FormatYAML)%string; [discriminate|].
  destruct (format w =? FormatCSV)%string.
  { unfold writeCSV. destruct (negb _); [discriminate|].
    destruct (elements (rowSet data)) as [|first rest] eqn:Hel;
      [discriminate|].
    pose proof (csv_rows_exported Sprint_composite csv_record (first :: rest)
                  (extractHeaders first) Hrows) as Hc.
    destruct (csv_rows _ _ _ _); [discriminate | contradiction]. }
  destruct (format w =? FormatTable)%string; [|discriminate].
  unfold writeTable. destruct (negb _); [discriminate|].
  destruct (elements (rowSet data)) as [|first rest] eqn:Hel;
    [discriminate|].
  pose proof (table_rows_exported Sprint_composite (first :: rest)
                (extractHeaders first) Hrows) as Hc.
  destruct (table_rows _ _ _); [discriminate | contradiction].
Qed.

(** The theorem on the table of two referring domains. *)
Lemma WriteSuccess_returns_on_exported_rows_witness :
  WriteSuccess no_composite plain_csv_record tabs_as_they_are no_json
    (mkWriter FormatTable) (VSlice false ref_domains) None
  <> Panics.
Proof.
  apply (WriteSuccess_returns_on_exported_rows no_composite plain_csv_record
           tabs_as_they_are no_json (mkWriter FormatTable)
           (VSlice false ref_domains) None).
  repeat constructor.
Defined.

(** X12.  When [WriteSuccess] returns an error it has written nothing,
    and the error is one of three: the error of the JSON encoder on the
    payload, the error of the CSV writer on a payload without rows, or
    the error of a format that is none of the four.  The YAML dump and
    the table never return one. *)
Theorem WriteSuccess_error_writes_nothing
  (Sprint_composite : Value -> string) (csv_record : list string -> string)
  (tabwriter : string -> string) (json_payload : nat -> Value -> string + error)
  (w : Writer) (data : Value) (meta : option ResponseMeta)
  (out : string) (err : error) :
  WriteSuccess Sprint_composite csv_record tabwriter json_payload w data meta
    = Returns out (Some err) ->
  out = ""
  /\ ((format w = FormatJSON /\ json_payload 1%nat data = inr err)
      \/ (format w = FormatCSV /\ holds_rows data = false
          /\ err = errorString "CSV format requires array/slice data")
      \/ (format w <> FormatJSON /\ format w <> FormatYAML
          /\ format w <> FormatCSV /\ format w <> FormatTable
          /\ err = errorString ("unsupported output format: " ++ format w))).
Proof.
  unfold WriteSuccess.
  destruct (String.eqb_spec (format w) FormatJSON) as [Hj|Hj].
  { unfold writeJSON. destruct (json_payload 1%nat data) as [payload|e] eqn:Hp;
      [discriminate|].
    intros [= <- <-]. split; [reflexivity|]. left. split; [exact Hj|].
    reflexivity. }
  destruct (String.eqb_spec (format w) FormatYAML) as [Hy|Hy]; [discriminate|].
  destruct (String.eqb_spec (format w) FormatCSV) as [Hc|Hc].
  { intros H.
    destruct (writeCSV_error_cases _ _ _ _ _ _ H) as (-> & Hrows & ->).
    split; [reflexivity|]. right. left. repeat split; assumption. }
  destruct (String.eqb_spec (format w) FormatTable) as [Ht|Ht].
  { unfold writeTable. destruct (negb _); [discriminate|].
    destruct (elements (rowSet data)); [discriminate|].
    destruct (table_rows _ _ _); discriminate. }
  intros [= <- <-]. split; [reflexivity|]. right. right. repeat split; trivial.
Qed.

(** The theorem on the format [xml]. *)
Lemma WriteSuccess_error_writes_nothing_witness :
  "" = ""
  /\ ((format (mkWriter "xml") = FormatJSON
       /\ no_json 1%nat domain_rating_payload
          = inr (errorString "unsupported output format: xml"))
      \/ (format (mkWriter "xml") = FormatCSV
          /\ holds_rows domain_rating_payload = false
          /\ errorString "unsupported output format: xml"
             = errorString "CSV format requires array/slice data")
      \/ (format (mkWriter "xml") <> FormatJSON
          /\ format (mkWriter "xml") <> FormatYAML
          /\ format (mkWriter "xml") <> FormatCSV
          /\ format (mkWriter "xml") <> FormatTable
          /\ errorString "unsupported output format: xml"
             = errorString
                 ("unsupported output format: " ++ format (mkWriter "xml")))).
Proof.
  apply (WriteSuccess_error_writes_nothing no_composite plain_csv_record
           tabs_as_they_are no_json (mkWriter "xml") domain_rating_payload
           None "" (errorString "unsupported output format: xml")).
  reflexivity.
Defined.

(** ** encoding/json: what the encoder writes, the decoder reads *)

Lemma byte_of_range (c : ascii) : 0 <= byte_of c < 256.
Proof. unfold byte_of. pose proof (nat_ascii_bounded c). lia. Qed.

Lemma char_of_byte_of (c : ascii) : char_of (byte_of c) = c.
Proof. unfold char_of, byte_of. rewrite Nat2Z.id. apply ascii_nat_embedding. Qed.

Lemma hex_value_hex_digit (n : Z) :
  0 <= n < 16 -> hex_value (hex_digit n) = Some n.
Proof.
  intros [Hlo Hhi]. destruct n as [|p|p]; [reflexivity | | lia].
  repeat (destruct p as [p|p|]; try reflexivity; try (exfalso; lia)).
Qed.

Lemma getu4_of_byte (b : Z) :
  0 <= b < 128 ->
  getu4 "0" "0" (hex_digit (b / 16)) (hex_digit (b mod 16)) = Some b.
Proof.
  intros H. unfold getu4.
  change (hex_value "0") with (Some 0).
  rewrite !hex_value_hex_digit.
  - f_equal. pose proof (Z.div_mod b 16). lia.
  - apply Z.mod_pos_bound. lia.
  - split; [apply Z.div_pos; lia | apply Z.div_lt_upper_bound; lia].
Qed.

(** One step of the encoder on an ASCII byte. *)
Lemma escape_from_ascii (c : ascii) (s : string) :
  (byte_of c <? 128) = true ->
  escape_from O (String c s)
  = let b := byte_of c in
    if (b =? 92) || (b =? 34)
    then String "\"%char (String c (escape_from O s))
    else if b =? 8 then String "\"%char (String "b"%char (escape_from O s))
    else if b =? 12 then String "\"%char (String "f"%char (escape_from O s))
    else if b =? 10 then String "\"%char (String "n"%char (escape_from O s))
    else if b =? 13 then String "\"%char (String "r"%char (escape_from O s))
    else if b =? 9 then String "\"%char (String "t"%char (escape_from O s))
    else if (b <? 32) || (b =? 60) || (b =? 62) || (b =? 38) then
      String "\"%char
        (String "u"%char
           (String "0"%char
              (String "0"%char
                 (String (hex_digit (b / 16))
                    (String (hex_digit (b mod 16)) (escape_from O s))))))
    else String c (escape_from O s).
Proof. intros H. cbn [escape_from]. rewrite H. reflexivity. Qed.

(** The steps of the scanner and of [unquote] on what the encoder
    writes. *)
Lemma scan_string_plain (c : ascii) (rest : string) :
  is_quote c = false -> is_backslash c = false -> (byte_of c <? 32) = false ->
  scan_string (String c rest)
  = match scan_string rest with
    | Some (lit, out) => Some (String c lit, out)
    | None => None
    end.
Proof. intros H1 H2 H3. cbn [scan_string]. now rewrite H1, H2, H3. Qed.

Lemma scan_string_escape (e : ascii) (rest : string) :
  is_u e = false -> escape_byte e <> None ->
  scan_string (String "\"%char (String e rest))
  = match scan_string rest with
    | Some (lit, out) => Some (String "\"%char (String e lit), out)
    | None => None
    end.
Proof.
  intros H1 H2. cbn [scan_string].
  change (is_quote "\"%char) with false.
  change (is_backslash "\"%char) with true. cbv iota. rewrite H1.
  destruct (escape_byte e); [reflexivity | contradiction].
Qed.

Lemma scan_string_u (h1 h2 h3 h4 : ascii) (rest : string) :
  getu4 h1 h2 h3 h4 <> None ->
  scan_string
    (String "\"%char
       (String "u"%char (String h1 (String h2 (String h3 (String h4 rest))))))
  = match scan_string rest with
    | Some (lit, out) =>
        Some (String "\"%char
                (String "u"%char
                   (String h1 (String h2 (String h3 (String h4 lit))))), out)
    | None => None
    end.
Proof.
  intros H. cbn [scan_string].
  change (is_quote "\"%char) with false.
  change (is_backslash "\"%char) with true.
  change (is_u "u"%char) with true. cbv iota.
  destruct (getu4 h1 h2 h3 h4); [reflexivity | contradiction].
Qed.

Lemma unquote_from_plain (c : ascii) (rest : string) :
  is_backslash c = false -> (byte_of c <? 128) = true ->
  unquote_from O (String c rest) = String c (unquote_from O rest).
Proof. intros H1 H2. cbn [unquote_from]. now rewrite H1, H2. Qed.

Lemma unquote_from_escape (e x : ascii) (rest : string) :
  is_u e = false -> escape_byte e = Some x ->
  unquote_from O (String "\"%char (String e rest))
  = String x (unquote_from O rest).
Proof.
  intros H1 H2. cbn [unquote_from].
  change (is_backslash "\"%char) with true. cbv iota. now rewrite H1, H2.
Qed.

Lemma unquote_from_u (h1 h2 h3 h4 : ascii) (r : Z) (rest : string) :
  getu4 h1 h2 h3 h4 = Some r -> 0 <= r < 128 ->
  unquote_from O
    (String "\"%char
       (String "u"%char (String h1 (String h2 (String h3 (String h4 rest))))))
  = String (char_of r) (unquote_from O rest).
Proof.
  intros H Hr. cbn [unquote_from].
  change (is_backslash "\"%char) with true.
  change (is_u "u"%char) with true. cbv iota. rewrite H.
  assert (Hs : is_high_surrogate r || is_low_surrogate r = false).
  { unfold is_high_surrogate, is_low_surrogate.
    destruct (Z.leb_spec 55296 r); [lia|].
    destruct (Z.leb_spec 56320 r); [lia|]. reflexivity. }
  rewrite Hs. unfold EncodeRune.
  destruct (Z.ltb_spec r 128); [reflexivity | lia].
Qed.

Ltac byte_cases c :=
  pose proof (byte_of_range c);
  unfold is_quote, is_backslash, is_u, escape_byte;
  repeat match goal with
    | H : (_ || _) = true |- _ => apply orb_prop in H; destruct H as [H|H]
    | H : (_ || _) = false |- _ =>
        apply orb_false_elim in H; destruct H as [? ?]
    | H : (_ =? _) = true |- _ => apply Z.eqb_eq in H
    | H : (_ =? _) = false |- _ => apply Z.eqb_neq in H
    | H : (_ <? _) = true |- _ => apply Z.ltb_lt in H
    | H : (_ <? _) = false |- _ => apply Z.ltb_ge in H
    end.

Lemma scan_string_escaped (s rest : string) :
  all_ascii s = true ->
  scan_string (escape_from O s ++ String DQ rest)
  = Some (escape_from O s, rest).
Proof.
  induction s as [|c s IH]; intros H; [reflexivity|].
  cbn [all_ascii] in H. apply andb_prop in H. destruct H as [Hc Hs].
  specialize (IH Hs). rewrite (escape_from_ascii c s Hc). cbv zeta.
  destruct ((byte_of c =? 92) || (byte_of c =? 34)) eqn:E1.
  { cbn [append]. rewrite scan_string_escape, IH; [reflexivity| |].
    - byte_cases c; apply Z.eqb_neq; lia.
    - byte_cases c; rewrite E1; cbn; discriminate. }
  destruct (byte_of c =? 8) eqn:E2;
    [cbn [append]; rewrite scan_string_escape, IH;
     [reflexivity | reflexivity | discriminate]|].
  destruct (byte_of c =? 12) eqn:E3;
    [cbn [append]; rewrite scan_string_escape, IH;
     [reflexivity | reflexivity | discriminate]|].
  destruct (byte_of c =? 10) eqn:E4;
    [cbn [append]; rewrite scan_string_escape, IH;
     [reflexivity | reflexivity | discriminate]|].
  destruct (byte_of c =? 13) eqn:E5;
    [cbn [append]; rewrite scan_string_escape, IH;
     [reflexivity | reflexivity | discriminate]|].
  destruct (byte_of c =? 9) eqn:E6;
    [cbn [append]; rewrite scan_string_escape, IH;
     [reflexivity | reflexivity | discriminate]|].
  destruct ((byte_of c <? 32) || (byte_of c =? 60) || (byte_of c =? 62)
            || (byte_of c =? 38)) eqn:E7.
  { cbn [append]. rewrite scan_string_u, IH; [reflexivity|].
    rewrite getu4_of_byte; [discriminate|].
    pose proof (byte_of_range c). apply Z.ltb_lt in Hc. lia. }
  cbn [append]. rewrite scan_string_plain, IH; [reflexivity | | |].
  - byte_cases c. apply Z.eqb_neq. lia.
  - byte_cases c. apply Z.eqb_neq. lia.
  - byte_cases c. apply Z.ltb_ge. lia.
Qed.

Lemma unquote_escaped (s : string) :
  all_ascii s = true -> unquote (escape_from O s) = s.
Proof.
  unfold unquote. induction s as [|c s IH]; intros H; [reflexivity|].
  cbn [all_ascii] in H. apply andb_prop in H. destruct H as [Hc Hs].
  specialize (IH Hs). rewrite (escape_from_ascii c s Hc). cbv zeta.
  destruct ((byte_of c =? 92) || (byte_of c =? 34)) eqn:E1.
  { rewrite (unquote_from_escape c c), IH; [reflexivity| |].
    - byte_cases c; apply Z.eqb_neq; lia.
    - byte_cases c; rewrite E1; reflexivity. }
  destruct (byte_of c =? 8) eqn:E2.
  { rewrite (unquote_from_escape "b" (char_of 8)), IH by reflexivity.
    apply Z.eqb_eq in E2. now rewrite <- E2, char_of_byte_of. }
  destruct (byte_of c =? 12) eqn:E3.
  { rewrite (unquote_from_escape "f" (char_of 12)), IH by reflexivity.
    apply Z.eqb_eq in E3. now rewrite <- E3, char_of_byte_of. }
  destruct (byte_of c =? 10) eqn:E4.
  { rewrite (unquote_from_escape "n" (char_of 10)), IH by reflexivity.
    apply Z.eqb_eq in E4. now rewrite <- E4, char_of_byte_of. }
  destruct (byte_of c =? 13) eqn:E5.
  { rewrite (unquote_from_escape "r" (char_of 13)), IH by reflexivity.
    apply Z.eqb_eq in E5. now rewrite <- E5, char_of_byte_of. }
  destruct (byte_of c =? 9) eqn:E6.
  { rewrite (unquote_from_escape "t" (char_of 9)), IH by reflexivity.
    apply Z.eqb_eq in E6. now rewrite <- E6, char_of_byte_of. }
  assert (Hb : 0 <= byte_of c < 128).
  { pose proof (byte_of_range c). apply Z.ltb_lt in Hc. lia. }
  destruct ((byte_of c <? 32) || (byte_of c =? 60) || (byte_of c =? 62)
            || (byte_of c =? 38)) eqn:E7.
  { rewrite (unquote_from_u _ _ _ _ (byte_of c)), IH, char_of_byte_of;
      [reflexivity | apply getu4_of_byte; exact Hb | exact Hb]. }
  rewrite unquote_from_plain, IH; [reflexivity | | exact Hc].
  byte_cases c. apply Z.eqb_neq. lia.
Qed.

Lemma json_indented_map (level : nat) (k0 : string) (v0 : jvalue)
  (entries : list (string * jvalue)) :
  json_indented level (JVMap ((k0, v0) :: entries))
  = "{" ++ member_line level k0 v0 ++ more_members level entries
    ++ NL ++ Repeat "  " level ++ "}".
Proof.
  cbn [json_indented]. fold (member_line level k0 v0). do 2 f_equal.
  f_equal. induction entries as [|[k x] l IH]; [reflexivity|].
  cbn [more_members]. fold (member_line level k x). now rewrite IH.
Qed.

Lemma json_string_app (k rest : string) :
  json_string k ++ rest = String DQ (escape_from O k ++ String DQ rest).
Proof.
  unfold json_string, quoted. cbn [append]. now rewrite string_app_assoc.
Qed.

Lemma Repeat_indent_succ (n : nat) (rest : string) :
  Repeat "  " (S n) ++ rest
  = String " "%char (String " "%char (Repeat "  " n ++ rest)).
Proof. cbn [Repeat]. now rewrite string_app_assoc. Qed.

Lemma skip_space_indent (n : nat) (c : ascii) (r : string) :
  is_space c = false ->
  skip_space (NL ++ Repeat "  " n ++ String c r) = String c r.
Proof.
  intros H.
  change (skip_space (NL ++ Repeat "  " n ++ String c r))
    with (skip_space (Repeat "  " n ++ String c r)).
  induction n as [|n IH].
  - cbn [Repeat append skip_space]. now rewrite H.
  - rewrite Repeat_indent_succ.
    change (skip_space (Repeat "  " n ++ String c r) = String c r).
    exact IH.
Qed.

(** The steps of the parser on a string, an object and a member. *)
Lemma parse_value_string (f : nat) (depth : Z) (s rest0 lit out : string) :
  skip_space s = String DQ rest0 ->
  scan_string rest0 = Some (lit, out) ->
  parse_value (S f) depth s = Some (JString (unquote lit), out).
Proof.
  intros H1 H2. cbn [parse_value]. rewrite H1. cbv beta iota zeta.
  change (byte_of DQ =? 123) with false. change (byte_of DQ =? 91) with false.
  change (is_quote DQ) with true. cbv iota. now rewrite H2.
Qed.

Lemma parse_value_empty_object (f : nat) (depth : Z) (s rest0 out : string) :
  skip_space s = String "{"%char rest0 ->
  skip_space rest0 = String "}"%char out ->
  depth + 1 <= maxNestingDepth ->
  parse_value (S f) depth s = Some (JObject [], out).
Proof.
  intros H1 H2 Hd. cbn [parse_value]. rewrite H1. cbv beta iota zeta.
  change (byte_of "{"%char =? 123) with true. cbv iota.
  destruct (Z.ltb_spec maxNestingDepth (depth + 1)); [lia|].
  rewrite H2. change (byte_of "}"%char =? 125) with true. reflexivity.
Qed.

Lemma parse_value_object (f : nat) (depth : Z) (s rest0 rest1 : string) :
  skip_space s = String "{"%char rest0 ->
  skip_space rest0 = String DQ rest1 ->
  depth + 1 <= maxNestingDepth ->
  parse_value (S f) depth s
  = match parse_members f (depth + 1) (String DQ rest1) with
    | Some (ms, out) => Some (JObject ms, out)
    | None => None
    end.
Proof.
  intros H1 H2 Hd. cbn [parse_value]. rewrite H1. cbv beta iota zeta.
  change (byte_of "{"%char =? 123) with true. cbv iota.
  destruct (Z.ltb_spec maxNestingDepth (depth + 1)); [lia|].
  rewrite H2. change (byte_of DQ =? 125) with false. reflexivity.
Qed.

Lemma parse_members_last (f : nat) (depth : Z)
  (s rest0 lit out rest1 out1 rest2 : string) (v : json) :
  skip_space s = String DQ rest0 ->
  scan_string rest0 = Some (lit, out) ->
  skip_space out = String ":"%char rest1 ->
  parse_value f depth rest1 = Some (v, out1) ->
  skip_space out1 = String "}"%char rest2 ->
  parse_members (S f) depth s = Some ([(unquote lit, v)], rest2).
Proof.
  intros H1 H2 H3 H4 H5. cbn [parse_members]. rewrite H1.
  change (is_quote DQ) with true. cbv iota. rewrite H2, H3.
  change (byte_of ":"%char =? 58) with true. cbv iota. rewrite H4, H5.
  change (byte_of "}"%char =? 44) with false.
  change (byte_of "}"%char =? 125) with true. reflexivity.
Qed.

Lemma parse_members_more (f : nat) (depth : Z)
  (s rest0 lit out rest1 out1 rest2 : string) (v : json) :
  skip_space s = String DQ rest0 ->
  scan_string rest0 = Some (lit, out) ->
  skip_space out = String ":"%char rest1 ->
  parse_value f depth rest1 = Some (v, out1) ->
  skip_space out1 = String ","%char rest2 ->
  parse_members (S f) depth s
  = match parse_members f depth rest2 with
    | Some (ms, out2) => Some ((unquote lit, v) :: ms, out2)
    | None => None
    end.
Proof.
  intros H1 H2 H3 H4 H5. cbn [parse_members]. rewrite H1.
  change (is_quote DQ) with true. cbv iota. rewrite H2, H3.
  change (byte_of ":"%char =? 58) with true. cbv iota. rewrite H4, H5.
  change (byte_of ","%char =? 44) with true. reflexivity.
Qed.

Lemma to_json_map (l : list (string * jvalue)) :
  to_json (JVMap l) = JObject (to_members l).
Proof.
  cbn [to_json]. f_equal. induction l as [|[k x] l IH]; [reflexivity|].
  cbn [to_members map fst snd]. f_equal. exact IH.
Qed.

Lemma nodes_cons (k : string) (x : jvalue) (l : list (string * jvalue)) :
  nodes (JVMap ((k, x) :: l)) = (S (nodes x) + nodes (JVMap l))%nat.
Proof. cbn [nodes]. lia. Qed.

Lemma nesting_cons (k : string) (x : jvalue) (l : list (string * jvalue)) :
  nesting (JVMap ((k, x) :: l)) = Z.max (1 + nesting x) (nesting (JVMap l)).
Proof. cbn [nesting]. lia. Qed.

Lemma text_only_cons (k : string) (x : jvalue) (l : list (string * jvalue)) :
  text_only (JVMap ((k, x) :: l))
  = all_ascii k && text_only x && text_only (JVMap l).
Proof. reflexivity. Qed.

Lemma nodes_pos (v : jvalue) : (1 <= nodes v)%nat.
Proof. destruct v; cbn [nodes]; lia. Qed.

Lemma nesting_nonneg (v : jvalue) : 0 <= nesting v.
Proof.
  destruct v as [s | n | l]; [cbn [nesting]; lia | cbn [nesting]; lia |].
  induction l as [|[k x] l IH]; [cbn [nesting]; lia|].
  rewrite nesting_cons. lia.
Qed.

Lemma skip_space_written (level : nat) (v : jvalue) (rest : string) :
  text_only v = true ->
  skip_space (json_indented level v ++ rest) = json_indented level v ++ rest.
Proof.
  destruct v as [s | n | [|[k0 v0] l]]; intros H.
  - cbn [json_indented]. rewrite json_string_app. reflexivity.
  - discriminate.
  - reflexivity.
  - rewrite json_indented_map. reflexivity.
Qed.

Lemma parse_members_written (l : list (string * jvalue)) :
  Forall (fun kx => reads_back (snd kx)) l ->
  forall (k0 : string) (v0 : jvalue) (fuel : nat) (depth : Z) (level : nat)
         (s rest : string),
    reads_back v0 ->
    text_only (JVMap ((k0, v0) :: l)) = true ->
    (nodes (JVMap ((k0, v0) :: l)) <= S fuel)%nat ->
    depth + nesting (JVMap ((k0, v0) :: l)) <= maxNestingDepth + 1 ->
    skip_space s
    = json_string k0 ++ ": " ++ json_indented (S level) v0
      ++ more_members level l ++ NL ++ Repeat "  " level ++ "}" ++ rest ->
    parse_members fuel depth s = Some (to_members ((k0, v0) :: l), rest).
Proof.
  induction 1 as [|[k x] l Hx HF IH];
    intros k0 v0 fuel depth level s rest Hv0 Htext Hfuel Hdepth Hs.
  - rewrite nodes_cons in Hfuel. rewrite nesting_cons in Hdepth.
    rewrite text_only_cons in Htext.
    apply andb_prop in Htext. destruct Htext as [Htext _].
    apply andb_prop in Htext. destruct Htext as [Hk0 Htv0].
    cbn [nodes nesting] in Hfuel, Hdepth.
    pose proof (nodes_pos v0) as Hpos.
    destruct fuel as [|f]; [lia|].
    rewrite json_string_app in Hs.
    rewrite (parse_members_last f depth s _ _ _
               (String " "%char
                  (json_indented (S level) v0 ++ more_members level []
                   ++ NL ++ Repeat "  " level ++ "}" ++ rest))
               (more_members level [] ++ NL ++ Repeat "  " level ++ "}"
                ++ rest)
               rest (to_json v0) Hs (scan_string_escaped k0 _ Hk0)).
    + rewrite (unquote_escaped k0 Hk0). reflexivity.
    + reflexivity.
    + apply (Hv0 f depth (S level)); [exact Htv0 | lia | lia |].
      change (skip_space
                (json_indented (S level) v0
                 ++ more_members level [] ++ NL ++ Repeat "  " level
                 ++ "}" ++ rest)
              = json_indented (S level) v0
                ++ more_members level [] ++ NL ++ Repeat "  " level
                ++ "}" ++ rest).
      apply skip_space_written, Htv0.
    + cbn [more_members append]. apply skip_space_indent. reflexivity.
  - rewrite nodes_cons in Hfuel. rewrite nesting_cons in Hdepth.
    rewrite text_only_cons in Htext.
    apply andb_prop in Htext. destruct Htext as [Htext Hrest].
    apply andb_prop in Htext. destruct Htext as [Hk0 Htv0].
    pose proof (nodes_pos v0) as Hpos.
    pose proof (nodes_pos (JVMap ((k, x) :: l))) as Hpos'.
    destruct fuel as [|f]; [lia|].
    rewrite json_string_app in Hs.
    rewrite (parse_members_more f depth s _ _ _
               (String " "%char
                  (json_indented (S level) v0
                   ++ more_members level ((k, x) :: l)
                   ++ NL ++ Repeat "  " level ++ "}" ++ rest))
               (more_members level ((k, x) :: l) ++ NL ++ Repeat "  " level
                ++ "}" ++ rest)
               (member_line level k x ++ more_members level l ++ NL
                ++ Repeat "  " level ++ "}" ++ rest)
               (to_json v0) Hs (scan_string_escaped k0 _ Hk0)).
    + rewrite (unquote_escaped k0 Hk0).
      rewrite (IH k x f depth level _ rest Hx Hrest); [reflexivity | lia | lia |].
      unfold member_line. rewrite !string_app_assoc.
      rewrite json_string_app. apply skip_space_indent. reflexivity.
    + reflexivity.
    + apply (Hv0 f depth (S level)); [exact Htv0 | lia | lia |].
      change (skip_space
                (json_indented (S level) v0
                 ++ more_members level ((k, x) :: l) ++ NL
                 ++ Repeat "  " level ++ "}" ++ rest)
              = json_indented (S level) v0
                ++ more_members level ((k, x) :: l) ++ NL
                ++ Repeat "  " level ++ "}" ++ rest).
      apply skip_space_written, Htv0.
    + cbn [more_members]. rewrite !string_app_assoc. reflexivity.
Qed.

Lemma written_value_reads_back (v : jvalue) : reads_back v.
Proof.
  induction v as [s | n | entries HF] using jvalue_nested_ind;
    intros fuel depth level s0 rest Htext Hfuel Hdepth Hs.
  - cbn [nodes] in Hfuel. destruct fuel as [|f]; [lia|].
    cbn [json_indented] in Hs. rewrite json_string_app in Hs.
    cbn [text_only] in Htext.
    rewrite (parse_value_string f depth s0 _ _ _ Hs
               (scan_string_escaped s rest Htext)).
    now rewrite (unquote_escaped s Htext).
  - discriminate.
  - destruct entries as [|[k0 v0] l].
    + cbn [nodes] in Hfuel. destruct fuel as [|f]; [lia|].
      cbn [nesting] in Hdepth.
      apply (parse_value_empty_object f depth s0 (String "}"%char rest));
        [exact Hs | reflexivity | lia].
    + inversion HF as [|kx l' Hv0 HF']; subst.
      pose proof (nodes_pos (JVMap ((k0, v0) :: l))) as Hpos.
      destruct fuel as [|f]; [lia|].
      rewrite json_indented_map in Hs. rewrite !string_app_assoc in Hs.
      cbn [append] in Hs.
      assert (Hd : depth + 1 <= maxNestingDepth).
      { rewrite nesting_cons in Hdepth.
        pose proof (nesting_nonneg v0). lia. }
      unfold member_line in Hs. rewrite !string_app_assoc in Hs.
      rewrite json_string_app in Hs.
      rewrite (parse_value_object f depth s0 _ _ Hs
                 (skip_space_indent (S level) DQ _ eq_refl) Hd).
      rewrite (parse_members_written l HF' k0 v0 f (depth + 1) level _ rest
                 Hv0 Htext);
        [now rewrite to_json_map | lia | lia |].
      rewrite json_string_app. reflexivity.
Qed.

Lemma length_app (a b : string) :
  String.length (a ++ b) = (String.length a + String.length b)%nat.
Proof. induction a as [|c a IH]; [reflexivity|]. simpl. now rewrite IH. Qed.

Lemma more_members_length (level : nat) (l : list (string * jvalue)) :
  Forall (fun kx => forall lv, text_only (snd kx) = true ->
            (nodes (snd kx) <= String.length (json_indented lv (snd kx)))%nat)
    l ->
  text_only (JVMap l) = true ->
  (nodes (JVMap l) <= S (String.length (more_members level l)))%nat.
Proof.
  induction 1 as [|[k x] l Hx HF IH]; intros Htext; [cbn; lia|].
  rewrite text_only_cons in Htext.
  apply andb_prop in Htext. destruct Htext as [Htext Hrest].
  apply andb_prop in Htext. destruct Htext as [_ Htx].
  rewrite nodes_cons. cbn [more_members]. unfold member_line.
  rewrite !length_app. specialize (IH Hrest).
  specialize (Hx (S level) Htx). cbn [snd] in Hx.
  change (String.length ",") with 1%nat. change (String.length NL) with 1%nat.
  lia.
Qed.

Lemma nodes_le_length (v : jvalue) :
  forall level : nat,
    text_only v = true ->
    (nodes v <= String.length (json_indented level v))%nat.
Proof.
  induction v as [s | n | entries HF] using jvalue_nested_ind;
    intros level Htext.
  - cbn [nodes json_indented]. unfold json_string, quoted. simpl. lia.
  - discriminate.
  - destruct entries as [|[k0 v0] l]; [cbn; lia|].
    inversion HF as [|kx l' Hv0 HF']; subst.
    pose proof Htext as Htext'. rewrite text_only_cons in Htext'.
    apply andb_prop in Htext'. destruct Htext' as [Htext' Hrest].
    apply andb_prop in Htext'. destruct Htext' as [_ Htv0].
    pose proof (more_members_length level l HF' Hrest) as Hmore.
    specialize (Hv0 (S level) Htv0). cbn [snd] in Hv0.
    rewrite json_indented_map, nodes_cons. unfold member_line.
    rewrite !length_app.
    change (String.length "{") with 1%nat.
    change (String.length NL) with 1%nat.
    lia.
Qed.

(** What the encoder writes of a value of strings and maps, the parser
    reads back as the same tree. *)
Lemma parse_json_written (v : jvalue) (tail : string) :
  text_only v = true ->
  nesting v <= maxNestingDepth ->
  skip_space tail = "" ->
  parse_json (json_indented O v ++ tail) = Some (to_json v).
Proof.
  intros Htext Hdepth Htail. unfold parse_json.
  rewrite (written_value_reads_back v _ 0 O (json_indented O v ++ tail) tail
             Htext).
  - now rewrite Htail.
  - pose proof (nodes_le_length v O Htext). rewrite length_app. lia.
  - lia.
  - apply skip_space_written, Htext.
Qed.

(** ** The error envelope and the config file, read back *)

(** X13.  The envelope [WriteError] prints is JSON that decodes, with
    the decoder [parseError] uses, to the code and the message of the
    error: those of an [*APIError], no code and the text of [Error] for
    any other error (for ASCII texts). *)
Theorem WriteError_reads_back (w : Writer) (err : error) :
  ascii_error err = true ->
  json_Unmarshal (fst (WriteError w err))
  = Some (mkErrResp (shown_code err) (shown_message err)).
Proof.
  intros Hascii. unfold WriteError, Encode, json_Unmarshal. cbn [fst].
  assert (Hnl : skip_space NL = "") by reflexivity.
  destruct err as [msg | e | msg inner].
  - cbn [ascii_error Error] in Hascii.
    rewrite parse_json_written;
      [reflexivity | | cbn; unfold maxNestingDepth; lia | exact Hnl].
    cbn. now rewrite Hascii.
  - cbn [ascii_error] in Hascii.
    apply andb_prop in Hascii. destruct Hascii as [Hascii Hd].
    apply andb_prop in Hascii. destruct Hascii as [Hascii Hs].
    apply andb_prop in Hascii. destruct Hascii as [Hc Hm].
    unfold formatError.
    destruct (Suggestion e =? "")%string, (DocsURL e =? "")%string;
      (rewrite parse_json_written;
       [reflexivity | | cbn; unfold maxNestingDepth; lia | exact Hnl]);
      cbn; rewrite ?Hc, ?Hm, ?Hs, ?Hd; reflexivity.
  - cbn [ascii_error Error] in Hascii.
    rewrite parse_json_written;
      [reflexivity | | cbn; unfold maxNestingDepth; lia | exact Hnl].
    cbn. now rewrite Hascii.
Qed.

(** The theorem on the error of a 403 with the body TESTING.md
    records. *)
Lemma WriteError_reads_back_witness :
  json_Unmarshal
    (fst (WriteError (mkWriter FormatYAML)
            (errAPI (parseError scenario_lib 403 body_insufficient_plan))))
  = Some (mkErrResp
            (shown_code
               (errAPI (parseError scenario_lib 403 body_insufficient_plan)))
            (shown_message
               (errAPI (parseError scenario_lib 403 body_insufficient_plan)))).
Proof.
  apply (WriteError_reads_back (mkWriter FormatYAML)
           (errAPI (parseError scenario_lib 403 body_insufficient_plan))).
  vm_compute. reflexivity.
Defined.

Lemma Unmarshal_Config_written (key : string) :
  all_ascii key = true ->
  config.Unmarshal_Config (config.MarshalIndent (config.mkConfig key))
  = Some (config.mkConfig key).
Proof.
  intros Hkey. unfold config.Unmarshal_Config, config.MarshalIndent.
  cbn [config.APIKey].
  rewrite <- (string_app_nil_r
                (json_indented 0 (JVMap [("api_key", JVString key)]))).
  rewrite parse_json_written;
    [reflexivity | | cbn; unfold maxNestingDepth; lia | reflexivity].
  cbn. now rewrite Hkey.
Qed.

(** X14.  [Load] reads back what [Save] wrote: on an environment whose
    config file holds the bytes [Save] passed to [os.WriteFile], [Load]
    returns the config saved, and [GetAPIKey] its key when the
    environment variable is not set (for an ASCII key).  The file is
    written with the permission 0600. *)
Theorem Load_reads_what_Save_wrote (e e' : config.Env) (cfg : config.Config)
  (path data : string) (perm : Z) :
  all_ascii (config.APIKey cfg) = true ->
  config.Save e cfg = ([EvWriteFile path data perm], None) ->
  config.getConfigPath e' = inl path ->
  config.ReadFile e' path = config.FileData data ->
  perm = 384
  /\ config.Load e' = inl cfg
  /\ (config.Getenv e' "AHREFS_API_KEY" = "" ->
      config.GetAPIKey e' = config.APIKey cfg).
Proof.
  intros Hkey Hsave Hpath Hread. unfold config.Save in Hsave.
  destruct (config.getConfigPath e) as [p|err]; [|discriminate].
  injection Hsave as Hp Hd Hperm _. subst p data perm.
  assert (Hload : config.Load e' = inl cfg).
  { unfold config.Load. rewrite Hpath, Hread. destruct cfg as [key].
    now rewrite (Unmarshal_Config_written key Hkey). }
  split; [reflexivity|]. split; [exact Hload|].
  intros Henv. unfold config.GetAPIKey. now rewrite Henv, Hload.
Qed.

(** The theorem on the key of the scenarios. *)
Lemma Load_reads_what_Save_wrote_witness :
  384 = 384
  /\ config.Load
       (scenario_env
          (config.FileData
             (config.MarshalIndent (config.mkConfig scenario_key))) "")
     = inl (config.mkConfig scenario_key)
  /\ (config.Getenv
        (scenario_env
           (config.FileData
              (config.MarshalIndent (config.mkConfig scenario_key))) "")
        "AHREFS_API_KEY" = "" ->
      config.GetAPIKey
        (scenario_env
           (config.FileData
              (config.MarshalIndent (config.mkConfig scenario_key))) "")
      = config.APIKey (config.mkConfig scenario_key)).
Proof.
  apply (Load_reads_what_Save_wrote (scenario_env no_file "")
           (scenario_env
              (config.FileData
                 (config.MarshalIndent (config.mkConfig scenario_key))) "")
           (config.mkConfig scenario_key) scenario_config_path
           (config.MarshalIndent (config.mkConfig scenario_key)) 384).
  - reflexivity.
  - reflexivity.
  - reflexivity.
  - reflexivity.
Defined.

(** The config file of the key [sk_test]. *)
Example MarshalIndent_sk_test :
  config.MarshalIndent (config.mkConfig "sk_test")
  = "{" ++ NL ++ "  " ++ quoted "api_key" ++ ": " ++ quoted "sk_test" ++ NL
    ++ "}".
Proof. reflexivity. Qed.

Lemma substring_add (s : string) :
  forall n a b : nat,
    substring n (a + b) s = substring n a s ++ substring (n + a) b s.
Proof.
  induction s as [|c s IH]; intros n a b.
  - destruct n, a, b; reflexivity.
  - destruct n as [|n].
    + destruct a as [|a]; [reflexivity|].
      cbn [substring Nat.add append]. f_equal. exact (IH O a b).
    + cbn [substring Nat.add]. apply IH.
Qed.

Lemma substring_all (s : string) : substring 0 (String.length s) s = s.
Proof. induction s as [|c s IH]; [reflexivity|]. simpl. now rewrite IH. Qed.

Lemma substring_length (s : string) :
  forall n m : nat,
    (n + m <= String.length s)%nat -> String.length (substring n m s) = m.
Proof.
  induction s as [|c s IH]; intros n m H.
  - simpl in H. destruct n, m; try lia; reflexivity.
  - destruct n as [|n].
    + destruct m as [|m]; [reflexivity|]. simpl in *. rewrite (IH O m); lia.
    + simpl in *. apply IH. lia.
Qed.

(** X15.  [maskAPIKey] shows the first four and the last four bytes of
    a key of more than eight bytes and hides what is between them, at
    least one byte, behind four stars; a key of eight bytes or fewer is
    hidden as a whole.  The mask is never longer than twelve bytes. *)
Theorem maskAPIKey_shows_eight_bytes (key : string) :
  ((String.length key <= 8)%nat -> cmd_config.maskAPIKey key = "****")
  /\ ((8 < String.length key)%nat ->
      exists first middle last : string,
        key = first ++ middle ++ last
        /\ String.length first = 4%nat
        /\ String.length last = 4%nat
        /\ String.length middle = (String.length key - 8)%nat
        /\ cmd_config.maskAPIKey key = first ++ "****" ++ last)
  /\ (String.length (cmd_config.maskAPIKey key) <= 12)%nat.
Proof.
  unfold cmd_config.maskAPIKey.
  destruct (Nat.leb_spec (String.length key) 8) as [Hle|Hgt].
  - split; [reflexivity|]. split; [lia | simpl; lia].
  - assert (Hlen : String.length key
                   = (4 + ((String.length key - 8) + 4))%nat) by lia.
    split; [lia|]. split.
    + intros _.
      exists (substring 0 4 key),
             (substring 4 (String.length key - 8) key),
             (substring (String.length key - 4) 4 key).
      split; [|repeat split; try (apply substring_length; lia)].
      rewrite <- (substring_all key) at 1. rewrite Hlen at 1.
      rewrite (substring_add key 0 4), (substring_add key 4).
      do 3 f_equal. lia.
    + rewrite !length_app, !substring_length by lia. simpl. lia.
Qed.

(** X16.  A config file that does not decode counts as no key: with the
    environment variable unset, [GetAPIKey] is empty, [validate] reports
    that no key is configured and a run without the key flag ends with
    the error of a missing key, with no effect; only [show] reports the
    error of the decoder. *)
Theorem corrupt_config_counts_as_no_key (e : config.Env)
  (path data : string) :
  config.getConfigPath e = inl path ->
  config.ReadFile e path = config.FileData data ->
  config.Unmarshal_Config data = None ->
  config.Getenv e "AHREFS_API_KEY" = "" ->
  config.GetAPIKey e = ""
  /\ cmd_config.validate_RunE e
     = ([], Some (errorString
                    "no API key configured. Use 'ahrefs config set-key <key>'"))
  /\ cmd_config.show_RunE e
     = ([],
        Some (wrapError
                ("failed to load config: failed to parse config file: "
                 ++ Error (config.json_error e data))
                (wrapError
                   ("failed to parse config file: "
                    ++ Error (config.json_error e data))
                   (config.json_error e data))))
  /\ (forall (h : siteexplorer.Host) (flags : cmd.GlobalFlags)
             (no_key endpoint : string) (params : Values) (model : string),
        siteexplorer.env h = e ->
        cmd.APIKey flags = "" ->
        siteexplorer.run h flags no_key endpoint params model
        = ([], siteexplorer.Done (Some (errorString no_key)))).
Proof.
  intros Hpath Hread Hbad Henv.
  assert (Hload : config.Load e
                  = inr (wrapError
                           ("failed to parse config file: "
                            ++ Error (config.json_error e data))
                           (config.json_error e data))).
  { unfold config.Load. now rewrite Hpath, Hread, Hbad. }
  assert (Hkey : config.GetAPIKey e = "").
  { unfold config.GetAPIKey. now rewrite Henv, Hload. }
  split; [exact Hkey|]. split; [|split].
  - unfold cmd_config.validate_RunE. now rewrite Hkey.
  - unfold cmd_config.show_RunE. rewrite Hload. reflexivity.
  - intros h flags no_key endpoint params model He Hflag.
    unfold siteexplorer.run. rewrite Hflag, He, Hkey. reflexivity.
Qed.

(** The theorem on a config file that holds [not json]. *)
Lemma corrupt_config_counts_as_no_key_witness :
  config.GetAPIKey (scenario_env (config.FileData "not json") "") = ""
  /\ cmd_config.validate_RunE (scenario_env (config.FileData "not json") "")
     = ([], Some (errorString
                    "no API key configured. Use 'ahrefs config set-key <key>'"))
  /\ cmd_config.show_RunE (scenario_env (config.FileData "not json") "")
     = ([],
        Some (wrapError
                ("failed to load config: failed to parse config file: "
                 ++ Error (config.json_error
                             (scenario_env (config.FileData "not json") "")
                             "not json"))
                (wrapError
                   ("failed to parse config file: "
                    ++ Error (config.json_error
                                (scenario_env (config.FileData "not json") "")
                                "not json"))
                   (config.json_error
                      (scenario_env (config.FileData "not json") "")
                      "not json"))))
  /\ (forall (h : siteexplorer.Host) (flags : cmd.GlobalFlags)
             (no_key endpoint : string) (params : Values) (model : string),
        siteexplorer.env h = scenario_env (config.FileData "not json") "" ->
        cmd.APIKey flags = "" ->
        siteexplorer.run h flags no_key endpoint params model
        = ([], siteexplorer.Done (Some (errorString no_key)))).
Proof.
  apply (corrupt_config_counts_as_no_key
           (scenario_env (config.FileData "not json") "")
           scenario_config_path "not json").
  - reflexivity.
  - reflexivity.
  - reflexivity.
  - reflexivity.
Defined.

(** X17.  [show] after [set-key]: when [set-key] succeeds it has made
    one call of [os.WriteFile], with the permission 0600, and printed
    one line; on an environment whose config file holds the bytes of
    that call, [show] prints the mask of the key (for an ASCII key
    that is not empty). *)
Theorem show_after_setKey (e e' : config.Env) (key : string)
  (effects : list Effect) (path data : string) (perm : Z) :
  all_ascii key = true ->
  key <> "" ->
  cmd_config.setKey_RunE e key = (effects, None) ->
  In (EvWriteFile path data perm) effects ->
  config.getConfigPath e' = inl path ->
  config.ReadFile e' path = config.FileData data ->
  effects = [EvWriteFile path data 384;
             EvPrint ("API key saved successfully" ++ NL)]
  /\ cmd_config.show_RunE e'
     = ([EvPrint ("API Key: " ++ cmd_config.maskAPIKey key ++ NL)], None).
Proof.
  intros Hascii Hne Hset Hin Hpath Hread.
  unfold cmd_config.setKey_RunE, config.Save in Hset.
  destruct (config.getConfigPath e) as [p|err]; [|discriminate].
  destruct (config.WriteFile e p _ 384); [discriminate|].
  injection Hset as <-. cbn [app] in Hin.
  destruct Hin as [Hin|[Hin|[]]]; [|discriminate].
  injection Hin as -> <- <-. split; [reflexivity|].
  unfold cmd_config.show_RunE, config.Load.
  rewrite Hpath, Hread, (Unmarshal_Config_written key Hascii).
  cbn [config.APIKey].
  destruct (String.eqb_spec key ""); [contradiction | reflexivity].
Qed.

(** The theorem on the key of the scenarios. *)
Lemma show_after_setKey_witness :
  [EvWriteFile scenario_config_path
     (config.MarshalIndent (config.mkConfig scenario_key)) 384;
   EvPrint ("API key saved successfully" ++ NL)]
  = [EvWriteFile scenario_config_path
       (config.MarshalIndent (config.mkConfig scenario_key)) 384;
     EvPrint ("API key saved successfully" ++ NL)]
  /\ cmd_config.show_RunE
       (scenario_env
          (config.FileData
             (config.MarshalIndent (config.mkConfig scenario_key))) "")
     = ([EvPrint ("API Key: " ++ cmd_config.maskAPIKey scenario_key ++ NL)],
        None).
Proof.
  apply (show_after_setKey (scenario_env no_file "")
           (scenario_env
              (config.FileData
                 (config.MarshalIndent (config.mkConfig scenario_key))) "")
           scenario_key
           [EvWriteFile scenario_config_path
              (config.MarshalIndent (config.mkConfig scenario_key)) 384;
            EvPrint ("API key saved successfully" ++ NL)]
           scenario_config_path
           (config.MarshalIndent (config.mkConfig scenario_key)) 384).
  - reflexivity.
  - discriminate.
  - reflexivity.
  - left. reflexivity.
  - reflexivity.
  - reflexivity.
Defined.

(** What [show] prints for the key of the scenarios. *)
Example maskAPIKey_scenario_key :
  cmd_config.maskAPIKey scenario_key = "key<****6789".
Proof. reflexivity. Qed.

(** ** The run functions *)

Lemma run_key (h : siteexplorer.Host) (flags : cmd.GlobalFlags) :
  (if (cmd.APIKey flags =? "")%string
   then config.GetAPIKey (siteexplorer.env h) else cmd.APIKey flags)
  = key_by_precedence flags (siteexplorer.env h).
Proof.
  unfold key_by_precedence, config.GetAPIKey.
  destruct (cmd.APIKey flags =? "")%string; reflexivity.
Qed.

Lemma Do_loop_success_attempts (L : Lib) (W : World) (c : Client)
  (method url : string) (fuel : nat) :
  forall (attempt : Z) (lastErr : option error),
    snd (fst (Do_loop L W c method url fuel attempt lastErr)) = None ->
    (1 <= attempts (snd (Do_loop L W c method url fuel attempt lastErr)))%nat.
Proof.
  induction fuel as [|fuel IH]; intros attempt lastErr; [discriminate|].
  rewrite Do_loop_step.
  destruct (attempt <=? maxRetries c); [|discriminate].
  destruct (if 0 <? attempt then ctxDone W attempt (backoff attempt) else None);
    [discriminate|].
  cbv zeta.
  destruct (doRequest L W c attempt method url) as [resp [err|]];
    [destruct (stops_retrying resp)|]; cbn [fst snd]; try discriminate.
  - specialize (IH (attempt + 1) (Some err)).
    destruct (Do_loop L W c method url fuel (attempt + 1) (Some err))
      as [result events].
    cbn [fst snd] in *. intros H. rewrite attempts_app. cbn [attempts].
    specialize (IH H). lia.
  - intros _. rewrite attempts_app. simpl. lia.
Qed.

Lemma Get_success_attempts (L : Lib) (W : World) (c : Client)
  (endpoint : string) (params : option Values)
  (resp : option Response) (events : list Event) :
  Get L W c endpoint params = ((resp, None), events) ->
  (1 <= attempts events)%nat.
Proof.
  unfold Get, Do. destruct (apiKey c =? "")%string; [discriminate|].
  cbn [Endpoint Method Params].
  destruct (url_Parse L (baseURL c ++ endpoint)) as [u|e]; [|discriminate].
  cbv zeta. intros H.
  pose proof (Do_loop_success_attempts L W c "GET"
                (URL_String L (withParams L u params))
                (Z.to_nat (maxRetries c + 1)) 0 None) as Hs.
  rewrite H in Hs. apply Hs. reflexivity.
Qed.

Lemma Get_background_error (h : siteexplorer.Host) (c : Client)
  (endpoint : string) (params : option Values)
  (resp : option Response) (err : error) (events : list Event) :
  Get (siteexplorer.lib h) (siteexplorer.background h) c endpoint params
    = ((resp, Some err), events) ->
  formatError err = [("message", JVString (Error err))].
Proof.
  unfold Get, Do. destruct (apiKey c =? "")%string;
    [intros [= _ <- _]; reflexivity|].
  cbn [Endpoint Method Params].
  destruct (url_Parse (siteexplorer.lib h) (baseURL c ++ endpoint)) as [u|e];
    [|intros [= _ <- _]; reflexivity].
  cbv zeta. intros H.
  pose proof (Do_loop_error_shape (siteexplorer.lib h)
                (siteexplorer.background h) c "GET"
                (URL_String (siteexplorer.lib h)
                   (withParams (siteexplorer.lib h) u params))
                (Z.to_nat (maxRetries c + 1)) 0 None) as Hs.
  rewrite H in Hs. cbn [fst snd] in Hs.
  destruct err as [msg|e|msg inner]; try reflexivity.
  destruct Hs as (k & d & Hk). discriminate.
Qed.

Ltac run_start Hkey Hdry HGet :=
  unfold siteexplorer.run; cbv zeta; rewrite run_key;
  match type of Hkey with
  | ?k <> "" =>
      destruct (String.eqb_spec k ""); [contradiction|]
  end;
  rewrite Hdry;
  match type of HGet with
  | Get _ _ (run_client ?h ?flags) _ _ = _ =>
      fold (run_client h flags); rewrite HGet
  end.

(** X18.  When the request of a run fails, the run writes the JSON
    envelope of the error in every output format, with the message
    alone: the code, the suggestion and the documentation URL that
    [parseError] sets do not reach it.  It returns the error of the
    client and does not close the sink; when the output file cannot be
    created it panics. *)
Theorem run_failure_shows_message_only
  (h : siteexplorer.Host) (flags : cmd.GlobalFlags)
  (no_key endpoint : string) (params : Values) (model : string)
  (resp : option Response) (err : error) (events : list Event) :
  key_by_precedence flags (siteexplorer.env h) <> "" ->
  cmd.DryRun flags = false ->
  Get (siteexplorer.lib h) (siteexplorer.background h) (run_client h flags)
    endpoint (Some params) = ((resp, Some err), events) ->
  siteexplorer.run h flags no_key endpoint params model
  = match NewWriter (siteexplorer.create h) (cmd.OutputFormat flags)
            (cmd.OutputFile flags) with
    | (inl (_, sink), created) =>
        (((verbose_line h flags endpoint params ++ map EvClient events)
          ++ created ++ [EvOutput sink (message_envelope err)])%list,
         siteexplorer.Done (Some err))
    | (inr _, created) =>
        (((verbose_line h flags endpoint params ++ map EvClient events)
          ++ created)%list,
         siteexplorer.Panicked)
    end.
Proof.
  intros Hkey Hdry HGet.
  pose proof (Get_background_error h _ _ _ _ _ _ HGet) as Hfmt.
  run_start Hkey Hdry HGet.
  fold (verbose_line h flags endpoint params).
  destruct (NewWriter (siteexplorer.create h) (cmd.OutputFormat flags)
              (cmd.OutputFile flags)) as [[[w sink]|e] created];
    [|destruct resp; reflexivity].
  unfold WriteError. rewrite Hfmt. destruct resp; reflexivity.
Qed.

(** The theorem on a server that answers 404, under the format
    [yaml]. *)
Lemma run_failure_shows_message_only_witness :
  siteexplorer.run host_404 yaml_flags "API key required"
    "/site-explorer/anchors" anchors_params "AnchorsResponse"
  = match NewWriter (siteexplorer.create host_404)
            (cmd.OutputFormat yaml_flags) (cmd.OutputFile yaml_flags) with
    | (inl (_, sink), created) =>
        (((verbose_line host_404 yaml_flags "/site-explorer/anchors"
             anchors_params
           ++ map EvClient [EvRequest 0 anchors_request])
          ++ created ++ [EvOutput sink (message_envelope error_404)])%list,
         siteexplorer.Done (Some error_404))
    | (inr _, created) =>
        (((verbose_line host_404 yaml_flags "/site-explorer/anchors"
             anchors_params
           ++ map EvClient [EvRequest 0 anchors_request])
          ++ created)%list,
         siteexplorer.Panicked)
    end.
Proof.
  apply (run_failure_shows_message_only host_404 yaml_flags "API key required"
           "/site-explorer/anchors" anchors_params "AnchorsResponse" None
           error_404 [EvRequest 0 anchors_request]).
  - discriminate.
  - reflexivity.
  - reflexivity.
Defined.

(** What the run of the witness writes on the standard output. *)
Example run_404_under_yaml :
  siteexplorer.run host_404 yaml_flags "API key required"
    "/site-explorer/anchors" anchors_params "AnchorsResponse"
  = ([EvClient (EvRequest 0 anchors_request);
      EvOutput Stdout
        ("{" ++ NL
         ++ "  " ++ quoted "error" ++ ": {" ++ NL
         ++ "    " ++ quoted "message" ++ ": "
         ++ quoted "request failed after 3 retries: API error (404): not here"
         ++ NL
         ++ "  }," ++ NL
         ++ "  " ++ quoted "status" ++ ": " ++ quoted "error" ++ NL
         ++ "}" ++ NL)],
     siteexplorer.Done (Some error_404)).
Proof. reflexivity. Qed.

Lemma NewWriter_format (create : string -> option error)
  (format outputFile : string) (w : Writer) (sink : Sink)
  (created : list Effect) :
  NewWriter create format outputFile = (inl (w, sink), created) ->
  w = mkWriter format.
Proof.
  unfold NewWriter. destruct (negb _).
  - destruct (create outputFile); [discriminate|]. now intros [= <- _ _].
  - now intros [= <- _ _].
Qed.

(** X19.  A run looks at the output format only after the request: when
    the request succeeds, at least one request has been made, and under
    the format [csv], or a format that is none of the four, the run
    writes no byte, closes the sink and returns the error of the format.
    The CSV writer refuses the response of every command, since each
    decodes to a struct. *)
Theorem run_rejects_format_after_the_request
  (h : siteexplorer.Host) (flags : cmd.GlobalFlags)
  (no_key endpoint : string) (params : Values) (model : string)
  (resp : Response) (events : list Event)
  (fields : list (StructField * Value))
  (w : Writer) (sink : Sink) (created : list Effect) :
  key_by_precedence flags (siteexplorer.env h) <> "" ->
  cmd.DryRun flags = false ->
  Get (siteexplorer.lib h) (siteexplorer.background h) (run_client h flags)
    endpoint (Some params) = ((Some resp, None), events) ->
  siteexplorer.decode h model (Body resp) = inl (VStruct fields) ->
  NewWriter (siteexplorer.create h) (cmd.OutputFormat flags)
    (cmd.OutputFile flags) = (inl (w, sink), created) ->
  cmd.OutputFormat flags <> FormatJSON ->
  cmd.OutputFormat flags <> FormatYAML ->
  cmd.OutputFormat flags <> FormatTable ->
  (1 <= attempts events)%nat
  /\ siteexplorer.run h flags no_key endpoint params model
     = (((verbose_line h flags endpoint params ++ map EvClient events)
         ++ created ++ [EvOutput sink ""]
         ++ fst (Close (siteexplorer.close h) sink))%list,
        siteexplorer.Done
          (Some (if (cmd.OutputFormat flags =? FormatCSV)%string
                 then errorString "CSV format requires array/slice data"
                 else errorString ("unsupported output format: "
                                   ++ cmd.OutputFormat flags)))).
Proof.
  intros Hkey Hdry HGet Hdec HNW Hj Hy Ht.
  split; [exact (Get_success_attempts _ _ _ _ _ _ _ HGet)|].
  pose proof (NewWriter_format _ _ _ _ _ _ HNW) as Hw.
  run_start Hkey Hdry HGet.
  fold (verbose_line h flags endpoint params).
  rewrite Hdec, HNW. unfold WriteSuccess. rewrite Hw. cbn [format].
  destruct (String.eqb_spec (cmd.OutputFormat flags) FormatJSON);
    [contradiction|].
  destruct (String.eqb_spec (cmd.OutputFormat flags) FormatYAML);
    [contradiction|].
  destruct (String.eqb_spec (cmd.OutputFormat flags) FormatCSV);
    [reflexivity|].
  destruct (String.eqb_spec (cmd.OutputFormat flags) FormatTable);
    [contradiction|].
  reflexivity.
Qed.

(** The theorem on a server that answers 200, under the format
    [csv]. *)
Lemma run_rejects_format_after_the_request_witness :
  (1 <= attempts [EvRequest 0 anchors_request])%nat
  /\ siteexplorer.run host_200 csv_flags "API key required"
       "/site-explorer/anchors" anchors_params "AnchorsResponse"
     = (((verbose_line host_200 csv_flags "/site-explorer/anchors"
            anchors_params
          ++ map EvClient [EvRequest 0 anchors_request])
         ++ [] ++ [EvOutput Stdout ""]
         ++ fst (Close (siteexplorer.close host_200) Stdout))%list,
        siteexplorer.Done
          (Some (if (cmd.OutputFormat csv_flags =? FormatCSV)%string
                 then errorString "CSV format requires array/slice data"
                 else errorString ("unsupported output format: "
                                   ++ cmd.OutputFormat csv_flags)))).
Proof.
  apply (run_rejects_format_after_the_request host_200 csv_flags
           "API key required" "/site-explorer/anchors" anchors_params
           "AnchorsResponse" (mkResponse 200 "{}" [] (mkResponseMeta 0 0 12))
           [EvRequest 0 anchors_request]
           [(mkStructField "DomainRating" "" "domain_rating",
             VStruct
               [(mkStructField "DomainRating" "" "domain_rating",
                 VScalar "91")])]
           (mkWriter "csv") Stdout []).
  - discriminate.
  - reflexivity.
  - reflexivity.
  - reflexivity.
  - reflexivity.
  - discriminate.
  - discriminate.
  - discriminate.
Defined.

Lemma requests_of_app (a b : list Effect) :
  requests_of (a ++ b) = (requests_of a ++ requests_of b)%list.
Proof.
  induction a as [|ef a IH]; [reflexivity|].
  destruct ef as [ | | [ | ] | | | ]; simpl; now rewrite IH.
Qed.

Lemma requests_of_events (events : list Event) (r0 : HTTPRequest) :
  Forall (fun ev =>
            match ev with
            | EvRequest _ r => r = r0
            | EvBackoff _ _ => True
            end) events ->
  List.length (requests_of (map EvClient events)) = attempts events
  /\ Forall (fun r => r = r0) (requests_of (map EvClient events)).
Proof.
  induction 1 as [|[attempt d|attempt r] events Hev _ IH]; simpl.
  - split; [reflexivity | constructor].
  - exact IH.
  - destruct IH as [IH1 IH2]. split; [now rewrite IH1|].
    constructor; assumption.
Qed.

Lemma requests_of_verbose (h : siteexplorer.Host) (flags : cmd.GlobalFlags)
  (endpoint : string) (params : Values) :
  requests_of (verbose_line h flags endpoint params) = [].
Proof. unfold verbose_line. destruct (cmd.Verbose flags); reflexivity. Qed.

Lemma requests_of_NewWriter (create : string -> option error)
  (format outputFile : string) :
  requests_of (snd (NewWriter create format outputFile)) = [].
Proof.
  unfold NewWriter. destruct (negb _); [|reflexivity].
  destruct (create outputFile); reflexivity.
Qed.

(** The requests of a run are those of its one call of [Get]. *)
Lemma run_requests (h : siteexplorer.Host) (flags : cmd.GlobalFlags)
  (no_key endpoint : string) (params : Values) (model : string) :
  requests_of (fst (siteexplorer.run h flags no_key endpoint params model))
  = []
  \/ requests_of (fst (siteexplorer.run h flags no_key endpoint params model))
     = requests_of
         (map EvClient
            (snd (Get (siteexplorer.lib h) (siteexplorer.background h)
                    (run_client h flags) endpoint (Some params)))).
Proof.
  unfold siteexplorer.run. cbv zeta. rewrite run_key.
  destruct (key_by_precedence flags (siteexplorer.env h) =? "")%string;
    [left; reflexivity|].
  destruct (cmd.DryRun flags); [left; reflexivity|]. right.
  fold (run_client h flags). fold (verbose_line h flags endpoint params).
  destruct (Get (siteexplorer.lib h) (siteexplorer.background h)
              (run_client h flags) endpoint (Some params))
    as [[resp err] events].
  cbn [snd].
  pose proof (requests_of_NewWriter (siteexplorer.create h)
                (cmd.OutputFormat flags) (cmd.OutputFile flags)) as Hnw.
  assert (Hcalled :
    requests_of
      (verbose_line h flags endpoint params ++ map EvClient events)
    = requests_of (map EvClient events)).
  { now rewrite requests_of_app, requests_of_verbose. }
  destruct err as [err|].
  - destruct (NewWriter (siteexplorer.create h) (cmd.OutputFormat flags)
                (cmd.OutputFile flags)) as [[[w sink]|e] created];
      cbn [snd] in Hnw; destruct resp; cbn [fst];
      rewrite !requests_of_app, Hnw, requests_of_verbose;
      cbn [requests_of app]; now rewrite ?app_nil_r.
  - destruct resp as [resp|]; [|exact Hcalled].
    destruct (siteexplorer.decode h model (Body resp)) as [result|e];
      [|exact Hcalled].
    destruct (NewWriter (siteexplorer.create h) (cmd.OutputFormat flags)
                (cmd.OutputFile flags)) as [[[w sink]|e] created];
      cbn [snd] in Hnw.
    + destruct (WriteSuccess _ _ _ _ w result (Some (Meta resp)))
        as [out err|]; cbn [fst];
        rewrite !requests_of_app, ?Hnw, requests_of_verbose;
        destruct sink; cbn [requests_of app Close fst];
        now rewrite ?app_nil_r.
    + cbn [fst]. rewrite !requests_of_app, Hnw, requests_of_verbose.
      cbn [app]. now rewrite ?app_nil_r.
Qed.

(** X20.  A run makes at most four requests, all the same: a GET whose
    bearer token is the key the run resolves, the flag before the
    environment variable before the config file.  A dry run makes none,
    creates no file and writes nothing but text on the standard
    output. *)
Theorem run_requests_carry_the_key
  (h : siteexplorer.Host) (flags : cmd.GlobalFlags)
  (no_key endpoint : string) (params : Values) (model : string) :
  (List.length
     (requests_of
        (fst (siteexplorer.run h flags no_key endpoint params model)))
   <= 4)%nat
  /\ (exists r0 : HTTPRequest,
        req_Method r0 = "GET"
        /\ req_Header r0
           = [("Authorization",
               "Bearer " ++ key_by_precedence flags (siteexplorer.env h));
              ("Accept", "application/json");
              ("User-Agent", "ahrefs-cli/0.1.0")]
        /\ Forall (fun r => r = r0)
             (requests_of
                (fst (siteexplorer.run h flags no_key endpoint params
                        model))))
  /\ (cmd.DryRun flags = true ->
      forallb stays_local
        (fst (siteexplorer.run h flags no_key endpoint params model))
      = true).
Proof.
  assert (HGet : exists r0 : HTTPRequest,
            req_Method r0 = "GET"
            /\ req_Header r0
               = [("Authorization",
                   "Bearer " ++ key_by_precedence flags (siteexplorer.env h));
                  ("Accept", "application/json");
                  ("User-Agent", "ahrefs-cli/0.1.0")]
            /\ Forall (fun ev =>
                         match ev with
                         | EvRequest _ r => r = r0
                         | EvBackoff _ _ => True
                         end)
                 (snd (Get (siteexplorer.lib h) (siteexplorer.background h)
                         (run_client h flags) endpoint (Some params)))
            /\ (attempts
                  (snd (Get (siteexplorer.lib h) (siteexplorer.background h)
                          (run_client h flags) endpoint (Some params)))
                <= 4)%nat).
  { unfold Get, Do.
    destruct (apiKey (run_client h flags) =? "")%string.
    { exists (newRequest (run_client h flags) "GET" "").
      repeat split; [constructor | simpl; lia]. }
    cbn [Endpoint Method Params].
    destruct (url_Parse (siteexplorer.lib h)
                (baseURL (run_client h flags) ++ endpoint)) as [u|e].
    2:{ exists (newRequest (run_client h flags) "GET" "").
        repeat split; [constructor | simpl; lia]. }
    cbv zeta.
    exists (newRequest (run_client h flags) "GET"
              (URL_String (siteexplorer.lib h)
                 (withParams (siteexplorer.lib h) u (Some params)))).
    split; [reflexivity|]. split; [reflexivity|]. split.
    - apply Do_loop_requests.
    - apply (Do_loop_attempts_le (siteexplorer.lib h)
               (siteexplorer.background h) (run_client h flags) "GET"
               _ 4 0 None). }
  destruct HGet as (r0 & Hm & Hh & Hall & Hle).
  destruct (requests_of_events _ r0 Hall) as [Hlen Hsame].
  split; [|split].
  - destruct (run_requests h flags no_key endpoint params model) as [E|E];
      rewrite E; [simpl; lia | rewrite Hlen; exact Hle].
  - exists r0. split; [exact Hm|]. split; [exact Hh|].
    destruct (run_requests h flags no_key endpoint params model) as [E|E];
      rewrite E; [constructor | exact Hsame].
  - intros Hdry. unfold siteexplorer.run. cbv zeta. rewrite Hdry.
    destruct (_ =? "")%string; reflexivity.
Qed.



(** The line of the dry run as TESTING.md records it. *)
Example dry_run_domain_rating :
  siteexplorer.runDomainRating sorting_host dry_flags "ahrefs.com" "domain"
    "2026-02-16"
  = ([EvPrint
        (siteexplorer.check_mark
         ++ " Valid request. Would call: GET https://api.ahrefs.com/v3/site-explorer/domain-rating?date=2026-02-16&mode=domain&target=ahrefs.com"
         ++ NL)],
     siteexplorer.Done None).
Proof. reflexivity. Qed.

Lemma Do_loop_response (L : Lib) (W : World) (c : Client)
  (method url : string) (fuel : nat) :
  forall (attempt : Z) (lastErr : option error) (resp : Response),
    fst (fst (Do_loop L W c method url fuel attempt lastErr)) = Some resp ->
    exists k : Z,
      In (EvRequest k (newRequest c method url))
        (snd (Do_loop L W c method url fuel attempt lastErr))
      /\ doRequest L W c k method url = (Some resp, None).
Proof.
  induction fuel as [|fuel IH]; intros attempt lastErr resp; [discriminate|].
  rewrite Do_loop_step.
  destruct (attempt <=? maxRetries c); [|discriminate].
  destruct (if 0 <? attempt then ctxDone W attempt (backoff attempt) else None);
    [discriminate|].
  cbv zeta.
  destruct (doRequest L W c attempt method url) as [r [err|]] eqn:Hdo;
    [destruct (stops_retrying r)|]; cbn [fst snd]; try discriminate.
  - intros H. destruct (IH (attempt + 1) (Some err) resp H) as (k & Hin & Hk).
    exists k. split; [|exact Hk].
    apply in_or_app. right. right. exact Hin.
  - intros ->. exists attempt. split; [|exact Hdo].
    apply in_or_app. right. left. reflexivity.
Qed.

(** X22.  A response [Do] returns is the answer to one of its requests,
    with the metadata [doRequest] gives it: the units the header
    [X-API-Units-Consumed] parses to (zero without the header), the
    elapsed time, and never a rate limit.  So the [meta] object of the
    JSON output of such a response holds the response time, the units of
    the header when they are a positive number, and never
    [rate_limit_remaining]. *)
Theorem Do_response_has_no_rate_limit
  (L : Lib) (W : World) (c : Client) (req : Request)
  (resp : Response) (err : option error) (events : list Event)
  (json_payload : nat -> Value -> string + error) (w : Writer) (data : Value)
  (payload : string) :
  Do L W c req = ((Some resp, err), events) ->
  json_payload 1%nat data = inl payload ->
  (exists (k : Z) (r : HTTPRequest) (status : Z) (body : string)
          (headers : Header) (elapsed : Z),
     In (EvRequest k r) events
     /\ roundTrip W k r = Responded status body headers elapsed
     /\ resp = mkResponse status body headers
                 (mkResponseMeta (header_units L headers) 0 elapsed))
  /\ Meta resp
     = mkResponseMeta (header_units L (Headers resp)) 0
         (ResponseTimeMS (Meta resp))
  /\ writeJSON json_payload w data (Some (Meta resp))
     = Returns
         ("{" ++ NL ++ "  " ++ json_string "data" ++ ": " ++ payload
          ++ "," ++ NL ++ "  " ++ json_string "meta" ++ ": "
          ++ json_indented 1
               (JVMap
                  (("response_time_ms", JVInt (ResponseTimeMS (Meta resp)))
                   :: (if 0 <? header_units L (Headers resp)
                       then [("units_consumed",
                              JVInt (header_units L (Headers resp)))]
                       else [])))
          ++ "," ++ NL ++ "  " ++ json_string "status" ++ ": "
          ++ json_string "success" ++ NL ++ "}" ++ NL)
         None.
Proof.
  intros HDo Hpayload.
  assert (Hfrom : exists (k : Z) (r : HTTPRequest) (status : Z) (body : string)
                         (headers : Header) (elapsed : Z),
            In (EvRequest k r) events
            /\ roundTrip W k r = Responded status body headers elapsed
            /\ resp = mkResponse status body headers
                        (mkResponseMeta (header_units L headers) 0 elapsed)).
  { unfold Do in HDo. destruct (apiKey c =? "")%string; [discriminate|].
    destruct (url_Parse L (baseURL c ++ Endpoint req)) as [u|e];
      [|discriminate].
    cbv zeta in HDo.
    destruct (Do_loop_response L W c (Method req)
                (URL_String L (withParams L u (Params req)))
                (Z.to_nat (maxRetries c + 1)) 0 None resp) as (k & Hin & Hk).
    { now rewrite HDo. }
    rewrite HDo in Hin. cbn [snd] in Hin.
    exists k, (newRequest c (Method req)
                 (URL_String L (withParams L u (Params req)))).
    destruct (roundTrip W k
                (newRequest c (Method req)
                   (URL_String L (withParams L u (Params req)))))
      as [e|e|e|status body headers elapsed] eqn:Hrt;
      try (unfold doRequest in Hk; rewrite Hrt in Hk; discriminate).
    exists status, body, headers, elapsed.
    rewrite (doRequest_response L W c k _ _ _ _ _ _ Hrt) in Hk.
    injection Hk as <- _. repeat split; trivial. }
  destruct Hfrom as (k & r & status & body & headers & elapsed
                     & Hin & Hrt & Hresp).
  split; [exists k, r, status, body, headers, elapsed; repeat split; trivial|].
  assert (Hmeta : Meta resp
                  = mkResponseMeta (header_units L (Headers resp)) 0
                      (ResponseTimeMS (Meta resp))).
  { rewrite Hresp. reflexivity. }
  split; [exact Hmeta|].
  unfold writeJSON. rewrite Hpayload, Hmeta.
  cbn [UnitsConsumed RateLimitRemaining ResponseTimeMS].
  change (0 <? 0) with false. cbv iota.
  destruct (0 <? header_units L (Headers resp)); reflexivity.
Qed.

(** The theorem on a server that answers 200 and reports 42 units. *)
Lemma Do_response_has_no_rate_limit_witness :
  (exists (k : Z) (r : HTTPRequest) (status : Z) (body : string)
          (headers : Header) (elapsed : Z),
     In (EvRequest k r)
       [EvRequest 0
          (mkHTTPRequest "GET"
             "https://api.ahrefs.com/v3/site-explorer/anchors?"
             [("Authorization", "Bearer test-key");
              ("Accept", "application/json");
              ("User-Agent", "ahrefs-cli/0.1.0")])]
     /\ roundTrip world_units k r = Responded status body headers elapsed
     /\ mkResponse 200 "{}" [("X-Api-Units-Consumed", ["42"])]
          (mkResponseMeta 42 0 12)
        = mkResponse status body headers
            (mkResponseMeta (header_units units_lib headers) 0 elapsed))
  /\ Meta (mkResponse 200 "{}" [("X-Api-Units-Consumed", ["42"])]
             (mkResponseMeta 42 0 12))
     = mkResponseMeta
         (header_units units_lib
            (Headers (mkResponse 200 "{}" [("X-Api-Units-Consumed", ["42"])]
                        (mkResponseMeta 42 0 12))))
         0
         (ResponseTimeMS
            (Meta (mkResponse 200 "{}" [("X-Api-Units-Consumed", ["42"])]
                     (mkResponseMeta 42 0 12))))
  /\ writeJSON (fun _ _ => inl "{}") (mkWriter FormatJSON) VNil
       (Some (Meta (mkResponse 200 "{}" [("X-Api-Units-Consumed", ["42"])]
                      (mkResponseMeta 42 0 12))))
     = Returns
         ("{" ++ NL ++ "  " ++ json_string "data" ++ ": " ++ "{}"
          ++ "," ++ NL ++ "  " ++ json_string "meta" ++ ": "
          ++ json_indented 1
               (JVMap
                  (("response_time_ms",
                    JVInt
                      (ResponseTimeMS
                         (Meta (mkResponse 200 "{}"
                                  [("X-Api-Units-Consumed", ["42"])]
                                  (mkResponseMeta 42 0 12)))))
                   :: (if 0 <? header_units units_lib
                                 (Headers
                                    (mkResponse 200 "{}"
                                       [("X-Api-Units-Consumed", ["42"])]
                                       (mkResponseMeta 42 0 12)))
                       then [("units_consumed",
                              JVInt
                                (header_units units_lib
                                   (Headers
                                      (mkResponse 200 "{}"
                                         [("X-Api-Units-Consumed", ["42"])]
                                         (mkResponseMeta 42 0 12)))))]
                       else [])))
          ++ "," ++ NL ++ "  " ++ json_string "status" ++ ": "
          ++ json_string "success" ++ NL ++ "}" ++ NL)
         None.
Proof.
  apply (Do_response_has_no_rate_limit units_lib world_units
           (NewClient (mkConfig "test-key" "" 0 0))
           (mkRequest "GET" "/site-explorer/anchors" None)
           (mkResponse 200 "{}" [("X-Api-Units-Consumed", ["42"])]
              (mkResponseMeta 42 0 12))
           None
           [EvRequest 0
              (mkHTTPRequest "GET"
                 "https://api.ahrefs.com/v3/site-explorer/anchors?"
                 [("Authorization", "Bearer test-key");
                  ("Accept", "application/json");
                  ("User-Agent", "ahrefs-cli/0.1.0")])]
           (fun _ _ => inl "{}") (mkWriter FormatJSON) VNil "{}").
  - reflexivity.
  - reflexivity.
Defined.

(** The JSON of that response: the units of the header and the
    response time. *)
Example writeJSON_reports_header_units :
  match fst (Do units_lib world_units
               (NewClient (mkConfig "test-key" "" 0 0))
               (mkRequest "GET" "/site-explorer/anchors" None)) with
  | (Some resp, _) =>
      writeJSON (fun _ _ => inl "{}") (mkWriter FormatJSON) VNil
        (Some (Meta resp))
  | _ => Panics
  end
  = Returns
      ("{" ++ NL
       ++ "  " ++ quoted "data" ++ ": {}," ++ NL
       ++ "  " ++ quoted "meta" ++ ": {" ++ NL
       ++ "    " ++ quoted "response_time_ms" ++ ": 12," ++ NL
       ++ "    " ++ quoted "units_consumed" ++ ": 42" ++ NL
       ++ "  }," ++ NL
       ++ "  " ++ quoted "status" ++ ": " ++ quoted "success" ++ NL
       ++ "}" ++ NL)
      None.
Proof. reflexivity. Qed.

(** A row whose unexported field goes by the header [domain] makes
    [writeCSV] panic; the header and the row before it are what the
    deferred flush sends. *)
Example writeCSV_panic_leaves_rows :
  writeCSV no_composite plain_csv_record (mkWriter FormatCSV)
    (VSlice false
       [RefDomain "a.example" "71" "12" "2024-01-05";
        VStruct [(mkStructField "domain" "models" "domain", VScalar "x")]])
  = Panics
  /\ written_at_panic no_composite plain_csv_record tabs_as_they_are
       (mkWriter FormatCSV)
       (VSlice false
          [RefDomain "a.example" "71" "12" "2024-01-05";
           VStruct [(mkStructField "domain" "models" "domain", VScalar "x")]])
     = "domain,domain_rating,backlinks,first_seen" ++ NL
       ++ "a.example,71,12,2024-01-05" ++ NL.
Proof. split; reflexivity. Qed.
